(** * odinVault backend: file lifecycle and share links

    A shallow embedding of [services/fileService.ts], [services/shareService.ts],
    [utils/preview.ts] and [utils/storage.ts], and the properties of the
    specification that are stated about them.

    Conventions of the embedding.
    - JavaScript strings are sequences of code units; the model covers the code
      units below 256, one [ascii] each.
    - Timestamps ([Date]) are integers (milliseconds), numbers are [Z].
    - The object store (S3) is a finite map from keys to objects; the two
      tables of the relational store are lists of rows in table order. The
      relational store is PostgreSQL behind the Prisma client: its string
      filters are patterns of [LIKE], and it refuses a negative [skip].
    - What the outside world decides (whether an S3 request fails, what the
      image library answers, which id the database assigns, the clock) is
      read from an explicit environment record, so that every run of the
      service is a function of the request, the environment and the state. *)

From Stdlib Require Import ZArith List String Ascii Bool Lia Permutation Btauto.
From stdpp Require Import base option gmap strings list pretty.

Open Scope string_scope.
Open Scope Z_scope.

(** ** JavaScript string primitives used by the services *)

Module Js.

(** [\s] of a regular expression and the characters removed by
    [String.prototype.trim], on code units below 256: TAB, LF, VT, FF, CR,
    SPACE and NBSP. *)
Definition is_space (c : ascii) : bool :=
  let n := nat_of_ascii c in
  ((9 <=? n)%nat && (n <=? 13)%nat) || (n =? 32)%nat || (n =? 160)%nat.

(** [A-Za-z0-9] *)
Definition is_alnum (c : ascii) : bool :=
  let n := nat_of_ascii c in
  ((48 <=? n)%nat && (n <=? 57)%nat)
  || ((65 <=? n)%nat && (n <=? 90)%nat)
  || ((97 <=? n)%nat && (n <=? 122)%nat).

Fixpoint trimStart (s : string) : string :=
  match s with
  | String c s' => if is_space c then trimStart s' else s
  | EmptyString => EmptyString
  end.

(** Removes the white space at the end: a character is kept when it is not
    white space or when something is kept after it. *)
Fixpoint trimEnd (s : string) : string :=
  match s with
  | String c s' =>
      match trimEnd s' with
      | EmptyString => if is_space c then EmptyString else String c EmptyString
      | t => String c t
      end
  | EmptyString => EmptyString
  end.

Definition trim (s : string) : string := trimEnd (trimStart s).

(** [s.replace(/\s+/g, ' ')]: every maximal run of white space becomes one
    space. *)
Fixpoint collapse_ws_from (in_run : bool) (s : string) : string :=
  match s with
  | String c s' =>
      if is_space c
      then (if in_run then collapse_ws_from true s'
            else String " "%char (collapse_ws_from true s'))
      else String c (collapse_ws_from false s')
  | EmptyString => EmptyString
  end.

Definition collapse_ws (s : string) : string := collapse_ws_from false s.

(** [s.replace(/[\\/]/g, '-')] *)
Fixpoint replace_sep (s : string) : string :=
  match s with
  | String c s' =>
      String (if (Ascii.eqb c "/" || Ascii.eqb c "\")%char then "-"%char else c)
             (replace_sep s')
  | EmptyString => EmptyString
  end.

(** [s.startsWith(p)] *)
Definition startsWith (s p : string) : bool := String.prefix p s.

(** A string is falsy exactly when it is empty. *)
Definition truthy (s : string) : bool :=
  match s with EmptyString => false | _ => true end.

(** [a || b] on strings. *)
Definition or_else (a b : string) : string := if truthy a then a else b.

(** [a || b] where [a] may be [undefined]. *)
Definition opt_or_else (a : option string) (b : string) : string :=
  match a with Some s => or_else s b | None => b end.

(** [/\.[A-Za-z0-9]{1,10}$/.test(s)]: the string ends with a dot followed
    by one to ten letters or digits. Read from the end: the final run of
    letters and digits has between one and ten characters and the character
    before it is a dot. *)
Fixpoint take_alnum (l : list ascii) : list ascii :=
  match l with
  | c :: l' => if is_alnum c then c :: take_alnum l' else []
  | [] => []
  end.

Fixpoint drop_alnum (l : list ascii) : list ascii :=
  match l with
  | c :: l' => if is_alnum c then drop_alnum l' else l
  | [] => []
  end.

Definition test_ext (s : string) : bool :=
  let r := rev (list_ascii_of_string s) in
  let n := List.length (take_alnum r) in
  (1 <=? n)%nat && (n <=? 10)%nat
  && match drop_alnum r with
     | c :: _ => Ascii.eqb c "."%char
     | [] => false
     end.

(** The lower-case letter of a code unit below 256: the letters A to Z, and
    the letters from U+00C0 to U+00DE but the sign U+00D7, are 32 below their
    lower-case letters; every other code unit is its own. *)
Definition toLower (c : ascii) : ascii :=
  let n := nat_of_ascii c in
  if ((65 <=? n)%nat && (n <=? 90)%nat)
     || ((192 <=? n)%nat && (n <=? 222)%nat && negb (n =? 215)%nat)
  then ascii_of_nat (n + 32) else c.

Fixpoint toLowerCase (s : string) : string :=
  match s with
  | String c s' => String (toLower c) (toLowerCase s')
  | EmptyString => EmptyString
  end.

(** [s.includes(q)] *)
Fixpoint includes (s q : string) : bool :=
  String.prefix q s
  || match s with
     | String _ s' => includes s' q
     | EmptyString => false
     end.

(** The decimal text of an integer, as in a template string. *)
Definition number_toString (n : Z) : string := pretty n.

(** [s.endsWith(p)] *)
Fixpoint endsWith (s p : string) : bool :=
  String.eqb s p
  || match s with
     | String _ s' => endsWith s' p
     | EmptyString => false
     end.

(** [s.slice(0, -2)]: the string without its last two characters, empty when
    it has no more than two. *)
Fixpoint slice_0_m2 (s : string) : string :=
  match s with
  | String c s' =>
      match s' with
      | String _ (String _ _) => String c (slice_0_m2 s')
      | _ => EmptyString
      end
  | EmptyString => EmptyString
  end.

(** [s.split(sep)] for a separator of one character: the pieces between the
    separators, one piece for a string without separator, the empty string
    included. *)
Fixpoint split_on (sep : ascii) (s : string) : list string :=
  match s with
  | String c s' =>
      if Ascii.eqb c sep then EmptyString :: split_on sep s'
      else match split_on sep s' with
           | piece :: rest => String c piece :: rest
           | [] => [String c EmptyString]
           end
  | EmptyString => [EmptyString]
  end.

(** The value of a digit in a radix of 10 or 16. *)
Definition digit_value (radix : Z) (c : ascii) : option Z :=
  let n := Z.of_nat (nat_of_ascii c) in
  if (48 <=? n) && (n <=? 57) then Some (n - 48)
  else if (radix =? 16) && (97 <=? n) && (n <=? 102) then Some (n - 87)
  else if (radix =? 16) && (65 <=? n) && (n <=? 70) then Some (n - 55)
  else None.

(** The longest prefix of digits, read from the left; [None] when the string
    does not start with a digit. *)
Fixpoint read_digits (radix : Z) (acc : option Z) (s : string) : option Z :=
  match s with
  | String c s' =>
      match digit_value radix c with
      | Some d =>
          read_digits radix
            (Some (match acc with Some a => a * radix + d | None => d end)) s'
      | None => acc
      end
  | EmptyString => acc
  end.

(** [parseInt(s)] without radix, [None] for NaN: leading white space is
    skipped, a sign is read, [0x] or [0X] selects radix 16, and the digits
    that follow are read as far as they go. Exact on the integers; the
    rounding of results beyond 2^53 is not modelled. *)
Definition parseInt (s : string) : option Z :=
  let s := trimStart s in
  let '(sign, s) :=
    match s with
    | String "-" s' => (-1, s')
    | String "+" s' => (1, s')
    | _ => (1, s)
    end in
  let '(radix, s) :=
    match s with
    | String "0" (String "x" s') => (16, s')
    | String "0" (String "X" s') => (16, s')
    | _ => (10, s)
    end in
  option_map (Z.mul sign) (read_digits radix None s).

End Js.

(** ** Data model *)

Definition Buffer := list Byte.byte.
Definition Date := Z.

(** A row of the [File] table. *)
Module File.
Record t := mk {
  id : string;
  name : string;
  originalName : string;
  size : Z;
  mimeType : string;
  storageKey : string;
  previewKey : option string;
  tags : list string;
  folder : option string;
  isDeleted : bool;
  deletedAt : option Date;
  ownerId : string;
  createdAt : Date;
  updatedAt : Date
}.
End File.

(** A row of the [Share] table. *)
Module Share.
Record t := mk {
  id : string;
  token : string;
  expiresAt : Date;
  isActive : bool;
  fileId : string;
  createdById : string;
  createdAt : Date
}.
End Share.

(** [interface FileUploadData] *)
Module FileUploadData.
Record t := mk {
  originalname : string;
  buffer : Buffer;
  mimetype : string;
  size : Z;
  name : option string;
  folder : option string;
  tags : option (list string);
  userId : string
}.
End FileUploadData.

(** [interface FileSearchParams] *)
Module FileSearchParams.
Record t := mk {
  userId : string;
  query : option string;
  type : option string;
  tags : option (list string);
  folder : option string;
  page : option Z;
  limit : option Z
}.
End FileSearchParams.

(** [interface FileResponse] *)
Module FileResponse.
Record t := mk {
  id : string;
  name : string;
  originalName : string;
  size : Z;
  mimeType : string;
  storageKey : string;
  previewKey : option string;
  tags : list string;
  folder : option string;
  createdAt : Date;
  updatedAt : Date
}.
End FileResponse.

(** An object of the bucket: what [s3.upload] was given. *)
Record S3Object := mkS3Object {
  Body : Buffer;
  ContentType : string;
  Metadata : list (string * string)
}.

(** ** Errors

    [CustomError] carries a status code; a plain [Error] has none and the
    error handler of the HTTP layer answers 500 for it; an [AWSError] is what
    the S3 client throws, with its [code]. *)
Inductive exn :=
| CustomError (message : string) (statusCode : Z)
| Error (message : string)
| AWSError (code : string) (message : string).

Definition message_of (e : exn) : string :=
  match e with
  | CustomError m _ => m
  | Error m => m
  | AWSError _ m => m
  end.

(** [let { statusCode = 500, message } = error] in [errorHandler]. *)
Definition statusCode_of (e : exn) : Z :=
  match e with
  | CustomError _ c => c
  | Error _ => 500
  | AWSError _ _ => 500
  end.

Inductive result (A : Type) :=
| Ok (a : A)
| Throw (e : exn).
Arguments Ok {A} a.
Arguments Throw {A} e.

(** ** The world outside the service *)

(** State that the service reads and writes. *)
Record World := mkWorld {
  bucket : gmap string S3Object;
  fileTable : list File.t;
  shareTable : list Share.t
}.

(** What the outside decides during one request. A [Some message] in a
    failure field is the message of the error the client library throws. *)
Record Env := mkEnv {
  (** [mime.extension(type)], [None] for its [false] *)
  mime_extension : string -> option string;
  (** [uuidv4()] *)
  uuidv4 : string;
  (** [new Date()] *)
  clock : Date;
  (** [date.toISOString()] *)
  toISOString : Date -> string;
  (** HEAD request failing for a reason other than a missing object *)
  headObject_fails : string -> option string;
  (** [s3.upload] failing *)
  upload_fails : string -> option string;
  (** [s3.deleteObject] failing *)
  deleteObject_fails : string -> option string;
  (** [sharp(buf).resize(w, h, inside, withoutEnlargement).jpeg(quality)],
      [None] when it throws *)
  sharp_jpeg : Buffer -> Z -> Z -> Z -> option Buffer;
  (** the id given to a created row *)
  new_id : string;
  (** whether the schema declares the column [updatedAt] as refreshed by the
      database on every update of a row (the schema is not part of the
      sources) *)
  schema_updatedAt : bool;
  (** [prisma.file.create] failing (connection, constraint) *)
  file_create_fails : list File.t -> option string
}.

(** ** Computations: state and exceptions

    A computation reads the world and returns a result or a thrown error,
    with the world as it is then: what was written before a throw stays
    written. *)
Definition M (A : Type) : Type := World -> result A * World.

Definition ret {A} (a : A) : M A := fun w => (Ok a, w).
Definition throw {A} (e : exn) : M A := fun w => (Throw e, w).

Definition bind {A B} (m : M A) (k : A -> M B) : M B :=
  fun w =>
    match m w with
    | (Ok a, w') => k a w'
    | (Throw e, w') => (Throw e, w')
    end.

(** [try { m } catch (error) { h error }] and [m.catch(h)] *)
Definition try_catch {A} (m : M A) (h : exn -> M A) : M A :=
  fun w =>
    match m w with
    | (Ok a, w') => (Ok a, w')
    | (Throw e, w') => h e w'
    end.

(** The notations [x ← m; k] and [m;; k] are those of stdpp's monads. *)
#[global] Instance M_ret : MRet M := @ret.
#[global] Instance M_bind : MBind M := fun A B k m => bind m k.

Definition get_bucket : M (gmap string S3Object) := fun w => (Ok (bucket w), w).
Definition get_files : M (list File.t) := fun w => (Ok (fileTable w), w).
Definition get_shares : M (list Share.t) := fun w => (Ok (shareTable w), w).
Definition put_bucket (b : gmap string S3Object) : M unit :=
  fun w => (Ok tt, mkWorld b (fileTable w) (shareTable w)).
Definition put_files (t : list File.t) : M unit :=
  fun w => (Ok tt, mkWorld (bucket w) t (shareTable w)).
Definition put_shares (t : list Share.t) : M unit :=
  fun w => (Ok tt, mkWorld (bucket w) (fileTable w) t).

(** The part of the S3 client that signs URLs:
    [s3.getSignedUrlPromise(operation, { Bucket, Key, ContentType?, Expires })]
    gives the URL or throws. *)
Record Signer := mkSigner {
  getSignedUrlPromise : string -> string -> option string -> Z -> result string
}.

(** The variables of [process.env] that the services and routes read. *)
Record ProcessEnv := mkProcessEnv {
  NODE_ENV : option string;
  DEFAULT_SHARE_EXPIRY_DAYS : option string;
  ALLOWED_FILE_TYPES : option string
}.

(** ** The S3 client *)

Module S3.

(** [s3.headObject(params).promise()]: answers for an object that is there,
    throws with code [NotFound] for a missing one, and may fail otherwise. *)
Definition headObject (env : Env) (key : string) : M unit :=
  b ← get_bucket;
  match headObject_fails env key with
  | Some msg => throw (AWSError "UnknownError" msg)
  | None =>
      match b !! key with
      | Some _ => mret tt
      | None => throw (AWSError "NotFound" "Not Found")
      end
  end.

(** [s3.upload(params).promise()]: writes the object at the key, replacing
    what was there. *)
Definition upload (env : Env) (key : string) (o : S3Object) : M unit :=
  match upload_fails env key with
  | Some msg => throw (AWSError "UnknownError" msg)
  | None => b ← get_bucket; put_bucket (<[key := o]> b)
  end.

(** [s3.deleteObject(params).promise()]: a missing object is no error. *)
Definition deleteObject (env : Env) (key : string) : M unit :=
  match deleteObject_fails env key with
  | Some msg => throw (AWSError "UnknownError" msg)
  | None => b ← get_bucket; put_bucket (delete key b)
  end.

End S3.

(** ** [utils/storage.ts] *)

Module StorageService.

Definition uploadFile (env : Env) (fileBuffer : Buffer) (key contentType : string)
    (metadata : list (string * string)) : M unit :=
  try_catch
    (S3.upload env key (mkS3Object fileBuffer contentType metadata))
    (fun error =>
       throw (Error ("Failed to upload file to storage: " ++ message_of error))).

Definition deleteFile (env : Env) (key : string) : M unit :=
  try_catch
    (S3.deleteObject env key)
    (fun error =>
       throw (Error ("Failed to delete file from storage: " ++ message_of error))).

Definition fileExists (env : Env) (key : string) : M bool :=
  try_catch
    (S3.headObject env key;; mret true)
    (fun error =>
       match error with
       | AWSError "NotFound" _ => mret false
       | _ => throw (Error ("Failed to check if file exists: " ++ message_of error))
       end).

(** [interface SignedUrlResult] *)
Record SignedUrlResult := mkSignedUrlResult {
  url : string;
  expires : Z
}.

Definition getSignedDownloadUrl (signer : Signer) (env : Env) (key : string)
    (expiresIn : Z) : M SignedUrlResult :=
  match getSignedUrlPromise signer "getObject" key None expiresIn with
  | Ok url => mret (mkSignedUrlResult url (clock env + expiresIn * 1000))
  | Throw error =>
      throw (Error ("Failed to generate download URL: " ++ message_of error))
  end.

End StorageService.

(** ** [utils/preview.ts] *)

Module PreviewService.

(** [DEFAULT_OPTIONS] *)
Definition DEFAULT_width : Z := 300.
Definition DEFAULT_height : Z := 300.
Definition DEFAULT_quality : Z := 80.

Definition generateImagePreview (env : Env) (fileBuffer : Buffer) : M Buffer :=
  match sharp_jpeg env fileBuffer DEFAULT_width DEFAULT_height DEFAULT_quality with
  | Some preview => mret preview
  | None => throw (Error "Failed to generate image preview")
  end.

Definition generatePreview (env : Env) (fileBuffer : Buffer) (mimeType : string)
    : M (option Buffer) :=
  try_catch
    (if Js.startsWith mimeType "image/"
     then preview ← generateImagePreview env fileBuffer; mret (Some preview)
     else mret None)
    (fun _ => mret None).

Definition uploadPreview (env : Env) (previewBuffer : Buffer)
    (originalFileKey mimeType : string) : M string :=
  try_catch
    (let previewKey := originalFileKey ++ "_preview.jpg" in
     StorageService.uploadFile env previewBuffer previewKey "image/jpeg"
       [("originalFile", originalFileKey);
        ("generatedAt", toISOString env (clock env))];;
     mret previewKey)
    (fun _ => throw (Error "Failed to upload preview")).

End PreviewService.

(** ** The ORM: [where] objects and the queries of the two tables

    A [where] object is a JavaScript object: each key is present at most once,
    the conditions of the keys present are AND'ed, [OR] holds when one member
    of its list does and [AND] when all do. A comparison with a NULL column
    is not satisfied, so [{ folder: { not: s } }] leaves out the rows without
    folder. *)

Inductive IdFilter :=
| IdIs (v : string)
| IdIn (vs : list string).

Inductive StringFilter :=
| contains_insensitive (q : string)
| startsWith (p : string).

Inductive FolderFilter :=
| FolderIs (v : option string)
| FolderNot (v : string).

#[warnings="-register-all"]
Inductive FileWhere := mkFileWhere {
  where_id : option IdFilter;
  where_ownerId : option string;
  where_isDeleted : option bool;
  where_originalName : option StringFilter;
  where_mimeType : option StringFilter;
  (** [tags: { hasSome: [...] }] *)
  where_tags : option (list string);
  where_folder : option FolderFilter;
  where_OR : option (list FileWhere);
  where_AND : option (list FileWhere)
}.

Definition where_empty : FileWhere :=
  mkFileWhere None None None None None None None None None.

(** Assignments to a key of a [where] object. *)
Definition set_originalName (v : StringFilter) (w : FileWhere) : FileWhere :=
  mkFileWhere (where_id w) (where_ownerId w) (where_isDeleted w) (Some v)
    (where_mimeType w) (where_tags w) (where_folder w) (where_OR w) (where_AND w).
Definition set_mimeType (v : StringFilter) (w : FileWhere) : FileWhere :=
  mkFileWhere (where_id w) (where_ownerId w) (where_isDeleted w) (where_originalName w)
    (Some v) (where_tags w) (where_folder w) (where_OR w) (where_AND w).
Definition set_tags (v : list string) (w : FileWhere) : FileWhere :=
  mkFileWhere (where_id w) (where_ownerId w) (where_isDeleted w) (where_originalName w)
    (where_mimeType w) (Some v) (where_folder w) (where_OR w) (where_AND w).
Definition set_folder (v : FolderFilter) (w : FileWhere) : FileWhere :=
  mkFileWhere (where_id w) (where_ownerId w) (where_isDeleted w) (where_originalName w)
    (where_mimeType w) (where_tags w) (Some v) (where_OR w) (where_AND w).
Definition set_OR (v : list FileWhere) (w : FileWhere) : FileWhere :=
  mkFileWhere (where_id w) (where_ownerId w) (where_isDeleted w) (where_originalName w)
    (where_mimeType w) (where_tags w) (where_folder w) (Some v) (where_AND w).
Definition set_AND (v : list FileWhere) (w : FileWhere) : FileWhere :=
  mkFileWhere (where_id w) (where_ownerId w) (where_isDeleted w) (where_originalName w)
    (where_mimeType w) (where_tags w) (where_folder w) (where_OR w) (Some v).

(** The row of a table that has the id, rewritten; [None] when no row has
    it. The id is the primary key, so at most one row has it. *)
Section UpdateRow.
Context {A : Type}.
Variable key : A -> string.

Fixpoint update_row (i : string) (data : A -> A) (t : list A) : option (list A) :=
  match t with
  | r :: t' =>
      if String.eqb (key r) i then Some (data r :: t')
      else option_map (cons r) (update_row i data t')
  | [] => None
  end.
End UpdateRow.

Module Prisma.

Definition string_in (s : string) (l : list string) : bool :=
  existsb (String.eqb s) l.

(** A condition of an absent key holds. *)
Definition holds {A} (c : A -> bool) (o : option A) : bool :=
  match o with Some a => c a | None => true end.

Definition id_matches (v : string) (c : IdFilter) : bool :=
  match c with
  | IdIs s => String.eqb v s
  | IdIn l => string_in v l
  end.

(** The string filters are sent to PostgreSQL as patterns of [LIKE]: the
    client puts the text of the request between or before [%] as it is, so
    that in this text, too, [%] stands for any sequence of characters, [_]
    for any one character, and a backslash takes the character after it
    literally. *)
Inductive LikeToken :=
| LikeChar (c : ascii)
| LikeOne
| LikeSeq.

(** The pattern read from the left; [None] for a pattern that ends in a lone
    backslash, which the database refuses. *)
Fixpoint like_tokens (p : string) : option (list LikeToken) :=
  match p with
  | String c p' =>
      if Ascii.eqb c "\"%char
      then match p' with
           | String d p'' => option_map (cons (LikeChar d)) (like_tokens p'')
           | EmptyString => None
           end
      else if Ascii.eqb c "%"%char then option_map (cons LikeSeq) (like_tokens p')
      else if Ascii.eqb c "_"%char then option_map (cons LikeOne) (like_tokens p')
      else option_map (cons (LikeChar c)) (like_tokens p')
  | EmptyString => Some []
  end.

(** The whole string is matched by the pattern. *)
Fixpoint like_match (ts : list LikeToken) (s : string) {struct ts} : bool :=
  match ts with
  | [] => match s with EmptyString => true | _ => false end
  | LikeChar c :: ts' =>
      match s with
      | String d s' => Ascii.eqb c d && like_match ts' s'
      | EmptyString => false
      end
  | LikeOne :: ts' =>
      match s with
      | String _ s' => like_match ts' s'
      | EmptyString => false
      end
  | LikeSeq :: ts' =>
      (fix from (s : string) : bool :=
         like_match ts' s
         || match s with
            | String _ s' => from s'
            | EmptyString => false
            end) s
  end.

(** [v LIKE pattern]. The patterns of [contains] and [startsWith] end in
    [%], so none of them ends in a lone backslash. *)
Definition like (v pattern : string) : bool :=
  match like_tokens pattern with
  | Some ts => like_match ts v
  | None => false
  end.

(** [v ILIKE pattern]: both sides in lower case, as [lower] of a database
    with a Unicode collation gives it on the code units of the model. *)
Definition ilike (v pattern : string) : bool :=
  like (Js.toLowerCase v) (Js.toLowerCase pattern).

Definition string_matches (v : string) (c : StringFilter) : bool :=
  match c with
  | contains_insensitive q => ilike v ("%" ++ q ++ "%")
  | startsWith p => like v (p ++ "%")
  end.

(** [hasSome]: one of the listed values is among the tags of the row. *)
Definition hasSome (tags vs : list string) : bool :=
  existsb (fun v => string_in v tags) vs.

Definition folder_matches (v : option string) (c : FolderFilter) : bool :=
  match c, v with
  | FolderIs None, None => true
  | FolderIs (Some s), Some f => String.eqb f s
  | FolderIs _, _ => false
  | FolderNot s, Some f => negb (String.eqb f s)
  | FolderNot _, None => false
  end.

Fixpoint file_matches (w : FileWhere) (f : File.t) {struct w} : bool :=
  holds (id_matches (File.id f)) (where_id w)
  && holds (String.eqb (File.ownerId f)) (where_ownerId w)
  && holds (Bool.eqb (File.isDeleted f)) (where_isDeleted w)
  && holds (string_matches (File.originalName f)) (where_originalName w)
  && holds (string_matches (File.mimeType f)) (where_mimeType w)
  && holds (hasSome (File.tags f)) (where_tags w)
  && holds (folder_matches (File.folder f)) (where_folder w)
  && match where_OR w with
     | Some ws => existsb (fun w' => file_matches w' f) ws
     | None => true
     end
  && match where_AND w with
     | Some ws => forallb (fun w' => file_matches w' f) ws
     | None => true
     end.

(** [orderBy: { createdAt: 'desc' }], rows of equal date in table order. *)
Fixpoint insert_desc (f : File.t) (l : list File.t) : list File.t :=
  match l with
  | g :: l' =>
      if File.createdAt g <=? File.createdAt f then f :: l
      else g :: insert_desc f l'
  | [] => [f]
  end.

Definition orderBy_createdAt_desc (l : list File.t) : list File.t :=
  foldr insert_desc [] l.

Module file.

Definition findFirst (w : FileWhere) : M (option File.t) :=
  t ← get_files; mret (find (file_matches w) t).

Definition findMany (w : FileWhere) : M (list File.t) :=
  t ← get_files; mret (List.filter (file_matches w) t).

(** [findMany({ where, orderBy: { createdAt: 'desc' } })] *)
Definition findMany_desc (w : FileWhere) : M (list File.t) :=
  t ← get_files; mret (orderBy_createdAt_desc (List.filter (file_matches w) t)).

(** [findMany({ where, skip, take, orderBy: { createdAt: 'desc' } })]: a
    negative [skip] is refused by the query engine (the message is the
    engine's, without what the client puts around it); a negative [take]
    reads from the end of the ordered rows, [skip] counted from the end
    too, and answers in the order of [orderBy]. *)
Definition findMany_page (w : FileWhere) (skip take : Z) : M (list File.t) :=
  t ← get_files;
  let rows := orderBy_createdAt_desc (List.filter (file_matches w) t) in
  if skip <? 0
  then throw (Error ("Invalid value for skip argument: Value can only be positive, found: "
                     ++ Js.number_toString skip))
  else if 0 <=? take
  then mret (firstn (Z.to_nat take) (skipn (Z.to_nat skip) rows))
  else mret (rev (firstn (Z.to_nat (- take)) (skipn (Z.to_nat skip) (rev rows)))).

Definition count (w : FileWhere) : M Z :=
  t ← get_files;
  mret (Z.of_nat (List.length (List.filter (file_matches w) t))).

(** Modelled from the spec: the schema of the [File] table
    ([schema.prisma]) is not among the sources; by the data model of the
    specification a file that is not deleted has no deletion date, and a
    new row is not deleted. [create({ data })]: the database gives the id
    and the dates, and the row is added at the end of the table. *)
Definition create (env : Env) (name originalName : string) (size : Z)
    (mimeType storageKey : string) (previewKey : option string)
    (tags : list string) (folder : option string) (ownerId : string)
    : M File.t :=
  t ← get_files;
  match file_create_fails env t with
  | Some msg => throw (Error msg)
  | None =>
      let row :=
        File.mk (new_id env) name originalName size mimeType storageKey
          previewKey tags folder false None ownerId (clock env) (clock env) in
      put_files (t ++ [row]);; mret row
  end.

Definition set_updatedAt (d : Date) (f : File.t) : File.t :=
  File.mk (File.id f) (File.name f) (File.originalName f) (File.size f)
    (File.mimeType f) (File.storageKey f) (File.previewKey f) (File.tags f)
    (File.folder f) (File.isDeleted f) (File.deletedAt f) (File.ownerId f)
    (File.createdAt f) d.

(** What an update writes: the [data] of the call, and the date of the
    update when the schema asks for it. *)
Definition written (env : Env) (data : File.t -> File.t) (f : File.t) : File.t :=
  if schema_updatedAt env then set_updatedAt (clock env) (data f) else data f.

(** [update({ where: { id }, data })]: throws when no row has the id. *)
Definition update (env : Env) (i : string) (data : File.t -> File.t) : M unit :=
  t ← get_files;
  match update_row File.id i (written env data) t with
  | Some t' => put_files t'
  | None => throw (Error "Record to update not found.")
  end.

(** [updateMany({ where, data })] returns [{ count }]. *)
Definition updateMany (env : Env) (w : FileWhere) (data : File.t -> File.t) : M Z :=
  t ← get_files;
  put_files (map (fun f => if file_matches w f then written env data f else f) t);;
  mret (Z.of_nat (List.length (List.filter (file_matches w) t))).

(** [deleteMany({ where })] returns [{ count }]. *)
Definition deleteMany (w : FileWhere) : M Z :=
  t ← get_files;
  put_files (List.filter (fun f => negb (file_matches w f)) t);;
  mret (Z.of_nat (List.length (List.filter (file_matches w) t))).

End file.

End Prisma.

(** ** [services/fileService.ts] *)

Module FileService.

Definition mapFileToResponse (file : File.t) : FileResponse.t :=
  FileResponse.mk (File.id file) (File.name file) (File.originalName file)
    (File.size file) (File.mimeType file) (File.storageKey file)
    (match File.previewKey file with
     | Some k => if Js.truthy k then Some k else None
     | None => None
     end)
    (File.tags file)
    (match File.folder file with
     | Some d => if Js.truthy d then Some d else None
     | None => None
     end)
    (File.createdAt file) (File.updatedAt file).

(** *** The names of an upload: the constants computed at the start of
    [uploadFile], each under its name there. *)
Section Names.
Variable env : Env.
Variable data : FileUploadData.t.

Definition fileId : string := uuidv4 env.

Definition extension : string :=
  match mime_extension env (FileUploadData.mimetype data) with
  | Some e => e
  | None => ""
  end.

Definition category : string :=
  if Js.startsWith (FileUploadData.mimetype data) "image/" then "image"
  else if Js.startsWith (FileUploadData.mimetype data) "video/" then "video"
  else "files".

Definition providedName : string :=
  Js.trim
    (Js.opt_or_else (FileUploadData.name data)
       (Js.or_else (FileUploadData.originalname data) "")).

Definition sanitizedBase : string :=
  if Js.truthy providedName
  then Js.replace_sep (Js.collapse_ws providedName)
  else Js.or_else (FileUploadData.originalname data) ("file-" ++ fileId).

Definition hasExt : bool := Js.test_ext sanitizedBase.

Definition finalName : string :=
  if hasExt then sanitizedBase
  else if Js.truthy extension then sanitizedBase ++ "." ++ extension
  else sanitizedBase.

Definition storageKey : string :=
  FileUploadData.userId data ++ "/" ++ category ++ "/" ++ finalName.
End Names.

Definition uploadFile (env : Env) (data : FileUploadData.t) : M FileResponse.t :=
  let storageKey := storageKey env data in
  (* Check for name conflict *)
  exists_ ← try_catch (StorageService.fileExists env storageKey)
                      (fun _ => mret false);
  if exists_ : bool
  then throw (CustomError "A file with this name already exists" 409)
  else
    (* Upload file to storage *)
    StorageService.uploadFile env (FileUploadData.buffer data) storageKey
      (FileUploadData.mimetype data)
      [("originalName", FileUploadData.originalname data);
       ("uploadedBy", FileUploadData.userId data);
       ("uploadedAt", toISOString env (clock env))];;
    (* Generate preview if supported *)
    previewBuffer ← PreviewService.generatePreview env
                      (FileUploadData.buffer data) (FileUploadData.mimetype data);
    previewKey ← match previewBuffer with
                 | Some b =>
                     k ← PreviewService.uploadPreview env b storageKey
                           (FileUploadData.mimetype data);
                     mret (Some k)
                 | None => mret None
                 end;
    (* Save file metadata to database *)
    file ← Prisma.file.create env
             (finalName env data) (FileUploadData.originalname data)
             (FileUploadData.size data) (FileUploadData.mimetype data) storageKey
             (match previewKey with
              | Some k => if Js.truthy k then Some k else None
              | None => None
              end)
             (match FileUploadData.tags data with Some l => l | None => [] end)
             (match FileUploadData.folder data with
              | Some d => if Js.truthy d then Some d else None
              | None => None
              end)
             (FileUploadData.userId data);
    mret (mapFileToResponse file).

Definition listFiles_where (userId : string) (includeDeleted : bool) : FileWhere :=
  let where_ :=
    mkFileWhere None (Some userId) (Some (if includeDeleted then true else false))
      None None None None None None in
  if includeDeleted
  then set_AND
         [set_OR [set_folder (FolderIs None) where_empty;
                  set_folder (FolderNot "__hidden_trash") where_empty]
                 where_empty]
         where_
  else where_.

Definition listFiles (userId : string) (includeDeleted : bool)
    : M (list FileResponse.t) :=
  files ← Prisma.file.findMany_desc (listFiles_where userId includeDeleted);
  mret (map mapFileToResponse files).

(** [{ files, total, page, limit, totalPages }] *)
Record SearchResult := mkSearchResult {
  files : list FileResponse.t;
  total : Z;
  page : Z;
  limit : Z;
  totalPages : Z
}.

(** [n || d] on numbers: 0 (and NaN, which the model does not tell from an
    absent number) gives the default. *)
Definition num_or (n : option Z) (d : Z) : Z :=
  match n with
  | Some v => if v =? 0 then d else v
  | None => d
  end.

(** [Math.ceil(a / b)] for integers and [b] other than 0: the quotient
    rounded up, which is the quotient of the negated number rounded down,
    negated. *)
Definition ceil_div (a b : Z) : Z := - ((- a) / b).

Section Search.
Variable params : FileSearchParams.t.

Definition search_page : Z := num_or (FileSearchParams.page params) 1.
Definition search_limit : Z := num_or (FileSearchParams.limit params) 20.
Definition search_skip : Z := (search_page - 1) * search_limit.

Definition opt_truthy (o : option string) : option string :=
  match o with
  | Some s => if Js.truthy s then Some s else None
  | None => None
  end.

(** The [where] object as [searchFiles] builds it, key by key. *)
Definition search_where : FileWhere :=
  let where_ :=
    mkFileWhere None (Some (FileSearchParams.userId params)) (Some false)
      None None None None None None in
  let where_ :=
    match opt_truthy (FileSearchParams.query params) with
    | Some q =>
        set_OR [set_originalName (contains_insensitive q) where_empty;
                set_tags [q] where_empty] where_
    | None => where_
    end in
  let where_ :=
    match opt_truthy (FileSearchParams.type params) with
    | Some t => set_mimeType (startsWith t) where_
    | None => where_
    end in
  let where_ :=
    match FileSearchParams.tags params with
    | Some (t :: ts) => set_tags (t :: ts) where_
    | _ => where_
    end in
  let where_ :=
    match opt_truthy (FileSearchParams.folder params) with
    | Some d => set_folder (FolderIs (Some d)) where_
    | None => where_
    end in
  where_.

Definition searchFiles : M SearchResult :=
  files ← Prisma.file.findMany_page search_where search_skip search_limit;
  total ← Prisma.file.count search_where;
  let totalPages := ceil_div total search_limit in
  mret (mkSearchResult (map mapFileToResponse files) total
          search_page search_limit totalPages).
End Search.

Definition owned_where (fileId userId : string) (deleted : bool) : FileWhere :=
  mkFileWhere (Some (IdIs fileId)) (Some userId) (Some deleted)
    None None None None None None.

Definition set_deleted (isDeleted : bool) (deletedAt : option Date) (f : File.t)
    : File.t :=
  File.mk (File.id f) (File.name f) (File.originalName f) (File.size f)
    (File.mimeType f) (File.storageKey f) (File.previewKey f) (File.tags f)
    (File.folder f) isDeleted deletedAt (File.ownerId f)
    (File.createdAt f) (File.updatedAt f).

Definition deleteFile (env : Env) (fileId userId : string) : M unit :=
  file ← Prisma.file.findFirst (owned_where fileId userId false);
  match file with
  | None => throw (CustomError "File not found" 404)
  | Some _ =>
      Prisma.file.update env fileId (set_deleted true (Some (clock env)))
  end.

Definition restoreFile (env : Env) (fileId userId : string) : M unit :=
  file ← Prisma.file.findFirst (owned_where fileId userId true);
  match file with
  | None => throw (CustomError "File not found in trash" 404)
  | Some _ =>
      Prisma.file.update env fileId (set_deleted false None)
  end.

Definition trash_where (userId : string) (fileIds : list string) : FileWhere :=
  mkFileWhere (Some (IdIn fileIds)) (Some userId) (Some true)
    None None None None None None.

(** [try { await m } catch { }] *)
Definition ignore_errors (m : M unit) : M unit :=
  try_catch m (fun _ => mret tt).

(** The loop over the rows found: the object, then its preview if any. *)
Fixpoint delete_objects (env : Env) (files : list File.t) : M unit :=
  match files with
  | f :: rest =>
      ignore_errors (StorageService.deleteFile env (File.storageKey f));;
      match File.previewKey f with
      | Some k =>
          if Js.truthy k
          then ignore_errors (StorageService.deleteFile env k)
          else mret tt
      | None => mret tt
      end;;
      delete_objects env rest
  | [] => mret tt
  end.

Definition permanentlyDeleteFiles (env : Env) (userId : string)
    (fileIds : list string) : M Z :=
  match fileIds with
  | [] => throw (CustomError "fileIds array is required" 400)
  | _ =>
      files ← Prisma.file.findMany (trash_where userId fileIds);
      delete_objects env files;;
      Prisma.file.deleteMany (trash_where userId (map File.id files))
  end.

Definition getFileById (fileId userId : string) (includeDeleted : bool)
    : M FileResponse.t :=
  file ← Prisma.file.findFirst
           (mkFileWhere (Some (IdIs fileId)) (Some userId)
              (if includeDeleted then None else Some false)
              None None None None None None);
  match file with
  | None => throw (CustomError "File not found" 404)
  | Some file => mret (mapFileToResponse file)
  end.

Definition with_folder (folder : option string) (f : File.t) : File.t :=
  File.mk (File.id f) (File.name f) (File.originalName f) (File.size f)
    (File.mimeType f) (File.storageKey f) (File.previewKey f) (File.tags f)
    folder (File.isDeleted f) (File.deletedAt f) (File.ownerId f)
    (File.createdAt f) (File.updatedAt f).

Definition hideDeletedFiles (env : Env) (userId : string) (fileIds : list string)
    : M Z :=
  Prisma.file.updateMany env (trash_where userId fileIds)
    (with_folder (Some "__hidden_trash")).

Definition getDownloadUrl (signer : Signer) (env : Env) (fileId userId : string)
    (includeDeleted : bool) : M string :=
  file ← getFileById fileId userId includeDeleted;
  signedUrl ← StorageService.getSignedDownloadUrl signer env
                (FileResponse.storageKey file) 3600;
  mret (StorageService.url signedUrl).

Definition getPreviewUrl (signer : Signer) (env : Env) (fileId userId : string)
    (includeDeleted : bool) : M (option string) :=
  file ← getFileById fileId userId includeDeleted;
  match FileResponse.previewKey file with
  | None => mret None
  | Some previewKey =>
      if Js.truthy previewKey
      then signedUrl ← StorageService.getSignedDownloadUrl signer env previewKey 3600;
           mret (Some (StorageService.url signedUrl))
      else mret None
  end.

End FileService.

(** ** [services/shareService.ts] *)

Inductive DateFilter :=
| gt (d : Date)
| lt (d : Date).

Record ShareWhere := mkShareWhere {
  swhere_id : option string;
  swhere_token : option string;
  swhere_isActive : option bool;
  swhere_expiresAt : option DateFilter;
  swhere_createdById : option string
}.

Module PrismaShare.

Definition date_matches (v : Date) (c : DateFilter) : bool :=
  match c with
  | gt d => d <? v
  | lt d => v <? d
  end.

Definition share_matches (w : ShareWhere) (s : Share.t) : bool :=
  Prisma.holds (String.eqb (Share.id s)) (swhere_id w)
  && Prisma.holds (String.eqb (Share.token s)) (swhere_token w)
  && Prisma.holds (Bool.eqb (Share.isActive s)) (swhere_isActive w)
  && Prisma.holds (date_matches (Share.expiresAt s)) (swhere_expiresAt w)
  && Prisma.holds (String.eqb (Share.createdById s)) (swhere_createdById w).

Definition findFirst (w : ShareWhere) : M (option Share.t) :=
  t ← get_shares; mret (find (share_matches w) t).

(** [update({ where: { id }, data })]: throws when no row has the id. *)
Definition update (i : string) (data : Share.t -> Share.t) : M unit :=
  t ← get_shares;
  match update_row Share.id i data t with
  | Some t' => put_shares t'
  | None => throw (Error "Record to update not found.")
  end.

(** [updateMany({ where, data })] returns [{ count }]. *)
Definition updateMany (w : ShareWhere) (data : Share.t -> Share.t) : M Z :=
  t ← get_shares;
  put_shares (map (fun s => if share_matches w s then data s else s) t);;
  mret (Z.of_nat (List.length (List.filter (share_matches w) t))).

(** Modelled from the spec: the schema of the [Share] table is not among
    the sources; by the state machine of the specification a share is active
    when it is created. [create({ data })]: the database gives the id and the
    date of creation, and the row is added at the end of the table. *)
Definition create (env : Env) (token : string) (expiresAt : Date)
    (fileId createdById : string) : M Share.t :=
  t ← get_shares;
  let row := Share.mk (new_id env) token expiresAt true fileId createdById (clock env) in
  put_shares (t ++ [row]);; mret row.

(** [orderBy: { createdAt: 'desc' }], rows of equal date in table order. *)
Fixpoint insert_desc (s : Share.t) (l : list Share.t) : list Share.t :=
  match l with
  | g :: l' =>
      if Share.createdAt g <=? Share.createdAt s then s :: l
      else g :: insert_desc s l'
  | [] => [s]
  end.

Definition orderBy_createdAt_desc (l : list Share.t) : list Share.t :=
  foldr insert_desc [] l.

(** [findMany({ where, orderBy: { createdAt: 'desc' } })] *)
Definition findMany_desc (w : ShareWhere) : M (list Share.t) :=
  t ← get_shares; mret (orderBy_createdAt_desc (List.filter (share_matches w) t)).

(** [file: { select: { id, originalName, size, mimeType } }] *)
Record FileProjection := mkFileProjection {
  file_id : string;
  file_originalName : string;
  file_size : Z;
  file_mimeType : string
}.

Definition select_file (f : File.t) : FileProjection :=
  mkFileProjection (File.id f) (File.originalName f) (File.size f) (File.mimeType f).

(** [include: { file: ... }]: the row of the [File] table that the share
    refers to, deleted or not. *)
Definition include_file (files : list File.t) (s : Share.t) : option FileProjection :=
  option_map select_file
    (find (fun f => String.eqb (File.id f) (Share.fileId s)) files).

End PrismaShare.

Module ShareService.

Definition set_isActive (b : bool) (s : Share.t) : Share.t :=
  Share.mk (Share.id s) (Share.token s) (Share.expiresAt s) b
    (Share.fileId s) (Share.createdById s) (Share.createdAt s).

Definition getFileByToken (env : Env) (token : string) : M (File.t * Share.t) :=
  share ← PrismaShare.findFirst
            (mkShareWhere None (Some token) (Some true) (Some (gt (clock env))) None);
  match share with
  | None => throw (CustomError "Share link not found or expired" 404)
  | Some share =>
      (* Get the associated file *)
      file ← Prisma.file.findFirst
               (mkFileWhere (Some (IdIs (Share.fileId share))) None (Some false)
                  None None None None None None);
      match file with
      | None => throw (CustomError "File not found or has been deleted" 404)
      | Some file => mret (file, share)
      end
  end.

Definition deactivateShare (shareId userId : string) : M unit :=
  share ← PrismaShare.findFirst
            (mkShareWhere (Some shareId) None None None (Some userId));
  match share with
  | None => throw (CustomError "Share not found" 404)
  | Some _ => PrismaShare.update shareId (set_isActive false)
  end.

Definition cleanupExpiredShares (env : Env) : M Z :=
  PrismaShare.updateMany
    (mkShareWhere None None (Some true) (Some (lt (clock env))) None)
    (set_isActive false).

(** [interface CreateShareData] *)
Record CreateShareData := mkCreateShareData {
  data_fileId : string;
  data_userId : string;
  data_expiresAt : option Date
}.

(** [interface ShareResponse] *)
Record ShareResponse := mkShareResponse {
  resp_id : string;
  resp_token : string;
  resp_expiresAt : Date;
  resp_isActive : bool;
  resp_createdAt : Date;
  resp_file : option PrismaShare.FileProjection
}.

Definition mapShareToResponse (share : Share.t * option PrismaShare.FileProjection)
    : ShareResponse :=
  mkShareResponse (Share.id (fst share)) (Share.token (fst share))
    (Share.expiresAt (fst share)) (Share.isActive (fst share))
    (Share.createdAt (fst share)) (snd share).

(** [parseInt(process.env.DEFAULT_SHARE_EXPIRY_DAYS || '7')] *)
Definition default_expiry_days (penv : ProcessEnv) : option Z :=
  Js.parseInt (match DEFAULT_SHARE_EXPIRY_DAYS penv with
               | Some v => Js.or_else v "7"
               | None => "7"
               end).

Definition createShare (penv : ProcessEnv) (env : Env) (data : CreateShareData)
    : M ShareResponse :=
  (* Verify file exists and user owns it *)
  file ← Prisma.file.findFirst
           (FileService.owned_where (data_fileId data) (data_userId data) false);
  match file with
  | None => throw (CustomError "File not found" 404)
  | Some _ =>
      (* Generate unique token *)
      let token := uuidv4 env in
      (* Set expiry date (default 7 days) *)
      let expiresAt :=
        match data_expiresAt data with
        | Some d => Some d
        | None =>
            option_map (fun days => clock env + days * 24 * 60 * 60 * 1000)
              (default_expiry_days penv)
        end in
      match expiresAt with
      | None =>
          (* [new Date(NaN)]: the ORM refuses an invalid date *)
          throw (Error "Invalid value for argument `expiresAt`: Provided Date object is invalid. Expected Date.")
      | Some expiresAt =>
          share ← PrismaShare.create env token expiresAt
                    (data_fileId data) (data_userId data);
          files ← get_files;
          mret (mapShareToResponse (share, PrismaShare.include_file files share))
      end
  end.

Definition getUserShares (userId : string) : M (list ShareResponse) :=
  shares ← PrismaShare.findMany_desc
             (mkShareWhere None None None None (Some userId));
  files ← get_files;
  mret (map (fun s => mapShareToResponse (s, PrismaShare.include_file files s)) shares).

End ShareService.

(** ** [middleware/errorHandler.ts] *)

Module ErrorHandler.

(** [res.status(statusCode).json({ error: { message, statusCode } })] *)
Record ErrorResponse := mkErrorResponse {
  status : Z;
  body_message : string;
  body_statusCode : Z
}.

Definition errorHandler (penv : ProcessEnv) (error : exn) : ErrorResponse :=
  let statusCode := statusCode_of error in
  let message := message_of error in
  let message :=
    if match NODE_ENV penv with
       | Some e => String.eqb e "production"
       | None => false
       end && (statusCode =? 500)
    then "Internal server error"
    else message in
  mkErrorResponse statusCode message statusCode.

End ErrorHandler.

(** ** [routes/files.ts]: the filter of uploads *)

Module FileRoutes.

Definition default_allowedTypes : list string :=
  ["image/*"; "video/*"; "application/pdf"; "text/*"; "application/json";
   "application/xml"].

(** [process.env.ALLOWED_FILE_TYPES?.split(',') || [...]] *)
Definition allowedTypes (penv : ProcessEnv) : list string :=
  match ALLOWED_FILE_TYPES penv with
  | Some v => Js.split_on "," v
  | None => default_allowedTypes
  end.

(** The test of [fileFilter]. *)
Definition isAllowed (penv : ProcessEnv) (mimetype : string) : bool :=
  existsb
    (fun type =>
       if Js.endsWith type "/*"
       then Js.startsWith mimetype (Js.slice_0_m2 type)
       else String.eqb mimetype type)
    (allowedTypes penv).

(** [fileFilter]: accepts the file or refuses it with status 400. *)
Definition fileFilter (penv : ProcessEnv) (mimetype : string) : result bool :=
  if isAllowed penv mimetype then Ok true
  else Throw (CustomError "File type not allowed" 400).

End FileRoutes.

(** ** [routes/shares.ts]: the public resolution of a share *)

Module ShareRoutes.

(** [{ file: { id, originalName, size, mimeType }, downloadUrl, expiresAt }] *)
Record SharedFile := mkSharedFile {
  file : PrismaShare.FileProjection;
  downloadUrl : string;
  expiresAt : Date
}.

(** [GET /api/shares/:token] *)
Definition get_token (signer : Signer) (env : Env) (token : string) : M SharedFile :=
  if Js.truthy token
  then
    r ← ShareService.getFileByToken env token;
    (* Generate download URL *)
    downloadUrl ← StorageService.getSignedDownloadUrl signer env
                    (File.storageKey (fst r)) 3600;
    mret (mkSharedFile (PrismaShare.select_file (fst r))
            (StorageService.url downloadUrl) (Share.expiresAt (snd r)))
  else throw (Error "Share token is required").

End ShareRoutes.

(** * Vocabulary of the specification *)

Module Spec.
Import FileService ShareService.

(** The id is the primary key of the [Share] table and the token is unique
    in it (the schema is not among the sources; the data model of the
    specification has the token unique). *)
Definition unique_share_ids (w : World) : Prop :=
  List.NoDup (map Share.id (shareTable w)).

Definition unique_tokens (w : World) : Prop :=
  List.NoDup (map Share.token (shareTable w)).

(** A share with the token is active, expires strictly after [now], and the
    file it refers to is in the table and not deleted. *)
Definition usable (w : World) (now : Date) (token : string) : Prop :=
  exists s f,
    In s (shareTable w) /\ Share.token s = token
    /\ Share.isActive s = true /\ now < Share.expiresAt s
    /\ In f (fileTable w) /\ File.id f = Share.fileId s
    /\ File.isDeleted f = false.

Definition resolve_where (now : Date) (token : string) : ShareWhere :=
  mkShareWhere None (Some token) (Some true) (Some (gt now)) None.

Definition live_file_where (i : string) : FileWhere :=
  mkFileWhere (Some (IdIs i)) None (Some false) None None None None None None.

(** The id is the primary key of the [File] table. *)
Definition unique_file_ids (w : World) : Prop :=
  List.NoDup (map File.id (fileTable w)).

(** The table has a row with this id, owner and deletion flag. *)
Definition has_row (w : World) (i u : string) (deleted : bool) : Prop :=
  exists g, In g (fileTable w) /\ File.id g = i /\ File.ownerId g = u
            /\ File.isDeleted g = deleted.

(** Two rows that differ at most in [isDeleted], [deletedAt] and
    [updatedAt]. *)
Definition same_content (f g : File.t) : Prop :=
  File.id f = File.id g /\ File.name f = File.name g
  /\ File.originalName f = File.originalName g /\ File.size f = File.size g
  /\ File.mimeType f = File.mimeType g /\ File.storageKey f = File.storageKey g
  /\ File.previewKey f = File.previewKey g /\ File.tags f = File.tags g
  /\ File.folder f = File.folder g /\ File.ownerId f = File.ownerId g
  /\ File.createdAt f = File.createdAt g.

(** The table with [data] written to the row of id [i]. *)
Definition rewritten (env : Env) (i : string) (data : File.t -> File.t) (w : World)
    : World :=
  mkWorld (bucket w)
    (map (fun x => if String.eqb (File.id x) i
                   then Prisma.file.written env data x else x) (fileTable w))
    (shareTable w).

(** The row after a soft deletion at [env1] and a restore at [env2]. *)
Definition restored (env1 env2 : Env) (f : File.t) : File.t :=
  Prisma.file.written env2 (set_deleted false None)
    (Prisma.file.written env1 (set_deleted true (Some (clock env1))) f).

(** The rows a purge is about: owned by the caller, listed, in the trash. *)
Definition purgeable (u : string) (ids : list string) (f : File.t) : bool :=
  String.eqb (File.ownerId f) u && Prisma.string_in (File.id f) ids
  && File.isDeleted f.

(** The keys of the objects of a row: its bytes, and its preview if any. *)
Definition object_keys (f : File.t) : list string :=
  File.storageKey f ::
  match File.previewKey f with
  | Some k => if Js.truthy k then [k] else []
  | None => []
  end.

(** The matching rule in the words of the specification. *)
Definition name_contains (f : File.t) (q : string) : bool :=
  Js.includes (Js.toLowerCase (File.originalName f)) (Js.toLowerCase q).

Definition has_tag (f : File.t) (t : string) : bool :=
  Prisma.string_in t (File.tags f).

Definition query_ok (query : option string) (f : File.t) : bool :=
  match opt_truthy query with
  | Some q => name_contains f q || has_tag f q
  | None => true
  end.

Definition type_ok (type : option string) (f : File.t) : bool :=
  match opt_truthy type with
  | Some t => Js.startsWith (File.mimeType f) t
  | None => true
  end.

Definition tags_ok (tags : option (list string)) (f : File.t) : bool :=
  match tags with
  | Some (t :: ts) => existsb (has_tag f) (t :: ts)
  | _ => true
  end.

Definition folder_ok (folder : option string) (f : File.t) : bool :=
  match opt_truthy folder, File.folder f with
  | Some d, Some d' => String.eqb d' d
  | Some _, None => false
  | None, _ => true
  end.

Definition search_matches (params : FileSearchParams.t) (f : File.t) : bool :=
  String.eqb (File.ownerId f) (FileSearchParams.userId params)
  && negb (File.isDeleted f)
  && query_ok (FileSearchParams.query params) f
  && type_ok (FileSearchParams.type params) f
  && tags_ok (FileSearchParams.tags params) f
  && folder_ok (FileSearchParams.folder params) f.

(** The page that the specification's sentence describes: [page * pageSize]
    rows skipped, then [pageSize] rows taken. *)
Definition page_as_specified (page pageSize : Z) (rows : list File.t)
    : list File.t :=
  firstn (Z.to_nat pageSize) (skipn (Z.to_nat (page * pageSize)) rows).

(** The page that starts after [(page - 1) * pageSize] rows. *)
Definition page_from_one (page pageSize : Z) (rows : list File.t)
    : list File.t :=
  firstn (Z.to_nat pageSize) (skipn (Z.to_nat ((page - 1) * pageSize)) rows).

(** The rows that the [where] object of a search selects, newest first. *)
Definition matching_rows (params : FileSearchParams.t) (w : World) : list File.t :=
  Prisma.orderBy_createdAt_desc
    (List.filter (Prisma.file_matches (search_where params)) (fileTable w)).






(** What an upload writes: the object of the bytes, the key and the object
    of the preview, and the row. *)
Definition main_object (env : Env) (data : FileUploadData.t) : S3Object :=
  mkS3Object (FileUploadData.buffer data) (FileUploadData.mimetype data)
    [("originalName", FileUploadData.originalname data);
     ("uploadedBy", FileUploadData.userId data);
     ("uploadedAt", toISOString env (clock env))].

Definition preview_key (env : Env) (data : FileUploadData.t) : string :=
  storageKey env data ++ "_preview.jpg".

Definition preview_object (env : Env) (data : FileUploadData.t) (preview : Buffer)
    : S3Object :=
  mkS3Object preview "image/jpeg"
    [("originalFile", storageKey env data);
     ("generatedAt", toISOString env (clock env))].

Definition new_row (env : Env) (data : FileUploadData.t) (previewKey : option string)
    : File.t :=
  File.mk (new_id env) (finalName env data) (FileUploadData.originalname data)
    (FileUploadData.size data) (FileUploadData.mimetype data) (storageKey env data)
    previewKey
    (match FileUploadData.tags data with Some l => l | None => [] end)
    (opt_truthy (FileUploadData.folder data))
    false None (FileUploadData.userId data) (clock env) (clock env).

(** The answer of the existence check as [uploadFile] uses it: a failed check
    counts as "no object". *)
Definition exists_answer (env : Env) (w : World) (key : string) : bool :=
  match headObject_fails env key, bucket w !! key with
  | None, Some _ => true
  | _, _ => false
  end.

(** What the preview library makes of the bytes of an upload. *)
Definition sharp_preview (env : Env) (data : FileUploadData.t) : option Buffer :=
  sharp_jpeg env (FileUploadData.buffer data) PreviewService.DEFAULT_width
    PreviewService.DEFAULT_height PreviewService.DEFAULT_quality.

Definition is_image (data : FileUploadData.t) : bool :=
  Js.startsWith (FileUploadData.mimetype data) "image/".

(** The outcomes of an upload, case by case: what it answers and the world it
    leaves. *)
Definition upload_outcome (env : Env) (data : FileUploadData.t) (w : World)
    : result FileResponse.t * World :=
  let key := storageKey env data in
  if exists_answer env w key
  then (Throw (CustomError "A file with this name already exists" 409), w)
  else
    match upload_fails env key with
    | Some m => (Throw (Error ("Failed to upload file to storage: " ++ m)), w)
    | None =>
        let b1 := <[key := main_object env data]> (bucket w) in
        match (if is_image data then sharp_preview env data else None) with
        | Some preview =>
            match upload_fails env (preview_key env data) with
            | Some _ =>
                (Throw (Error "Failed to upload preview"),
                 mkWorld b1 (fileTable w) (shareTable w))
            | None =>
                let b2 :=
                  <[preview_key env data := preview_object env data preview]> b1 in
                match file_create_fails env (fileTable w) with
                | Some m => (Throw (Error m), mkWorld b2 (fileTable w) (shareTable w))
                | None =>
                    let row := new_row env data (Some (preview_key env data)) in
                    (Ok (mapFileToResponse row),
                     mkWorld b2 (fileTable w ++ [row]) (shareTable w))
                end
            end
        | None =>
            match file_create_fails env (fileTable w) with
            | Some m => (Throw (Error m), mkWorld b1 (fileTable w) (shareTable w))
            | None =>
                let row := new_row env data None in
                (Ok (mapFileToResponse row),
                 mkWorld b1 (fileTable w ++ [row]) (shareTable w))
            end
        end
    end.

(** The name resolution in the words of the specification: the desired name
    is preferred over the original name; white space is collapsed (leading
    and trailing white space removed) and path separators are replaced by a
    dash; the extension of the type is appended when the base has none. *)
Definition preferred_name (data : FileUploadData.t) : string :=
  Js.opt_or_else (FileUploadData.name data) (FileUploadData.originalname data).

Definition sanitize_name (n : string) : string :=
  Js.replace_sep (Js.collapse_ws (Js.trim n)).

Definition with_extension (env : Env) (data : FileUploadData.t) (base : string)
    : string :=
  if Js.test_ext base then base
  else match mime_extension env (FileUploadData.mimetype data) with
       | Some e => if Js.truthy e then base ++ "." ++ e else base
       | None => base
       end.

(** The characters of a UUID in text form: hexadecimal digits and dashes. *)
Definition uuid_char (c : ascii) : bool :=
  let n := nat_of_ascii c in
  ((48 <=? n)%nat && (n <=? 57)%nat)
  || ((97 <=? n)%nat && (n <=? 102)%nat)
  || ((65 <=? n)%nat && (n <=? 70)%nat)
  || (n =? 45)%nat.

Definition uuid_text (s : string) : bool :=
  forallb uuid_char (list_ascii_of_string s).

(** *** The trash view, reading one file, signed URLs *)

(** What hiding writes to a row. *)
Definition hide_row (env : Env) (f : File.t) : File.t :=
  Prisma.file.written env (with_folder (Some "__hidden_trash")) f.

(** The table after hiding the listed rows of the caller's trash. *)
Definition hidden_table (env : Env) (u : string) (ids : list string)
    (t : list File.t) : list File.t :=
  map (fun f => if purgeable u ids f then hide_row env f else f) t.

(** The rows that the trash view shows to a user. *)
Definition in_trash_view (u : string) (f : File.t) : Prop :=
  File.ownerId f = u /\ File.isDeleted f = true
  /\ File.folder f <> Some "__hidden_trash".

(** The rows that a user may read under an id. *)
Definition readable (i u : string) (includeDeleted : bool) (f : File.t) : Prop :=
  File.id f = i /\ File.ownerId f = u
  /\ (includeDeleted = false -> File.isDeleted f = false).

(** Two rows that differ at most in [folder] and [updatedAt]. *)
Definition same_but_folder (f g : File.t) : Prop :=
  File.id f = File.id g /\ File.name f = File.name g
  /\ File.originalName f = File.originalName g /\ File.size f = File.size g
  /\ File.mimeType f = File.mimeType g /\ File.storageKey f = File.storageKey g
  /\ File.previewKey f = File.previewKey g /\ File.tags f = File.tags g
  /\ File.isDeleted f = File.isDeleted g /\ File.deletedAt f = File.deletedAt g
  /\ File.ownerId f = File.ownerId g /\ File.createdAt f = File.createdAt g.

(** The [where] object of [getFileById]. *)
Definition read_where (i u : string) (includeDeleted : bool) : FileWhere :=
  mkFileWhere (Some (IdIs i)) (Some u)
    (if includeDeleted then None else Some false)
    None None None None None None.

(** A search without filter and without page. *)
Definition search_all (u : string) : FileSearchParams.t :=
  FileSearchParams.mk u None None None None None None.

(** *** Shares *)

(** The shares that a sweep at [now] deactivates. *)
Definition sweepable (now : Date) (s : Share.t) : bool :=
  Share.isActive s && (Share.expiresAt s <? now).

(** The row of a share created at [env] with expiry [d]. *)
Definition created_share (env : Env) (data : CreateShareData) (d : Date) : Share.t :=
  Share.mk (new_id env) (uuidv4 env) d true (data_fileId data) (data_userId data)
    (clock env).

(** The token is not in use. *)
Definition fresh_token (env : Env) (w : World) : Prop :=
  ~ In (uuidv4 env) (map Share.token (shareTable w)).

End Spec.

(** * Fixtures: concrete environments, requests and worlds *)

Module Fixtures.

(** A small part of the table of [mime-types]. *)
Definition mime_table (type : string) : option string :=
  if String.eqb type "application/pdf" then Some "pdf"
  else if String.eqb type "image/png" then Some "png"
  else if String.eqb type "text/plain" then Some "txt"
  else None.

(** An environment in which nothing fails. *)
Definition env_ok : Env :=
  mkEnv mime_table "123e4567-e89b-42d3-a456-426614174000" 1000
    (fun _ => "1970-01-01T00:00:01.000Z")
    (fun _ => None) (fun _ => None) (fun _ => None)
    (fun b _ _ _ => Some b) "row-1" true (fun _ => None).

Definition env_at (now : Date) : Env :=
  mkEnv mime_table "123e4567-e89b-42d3-a456-426614174000" now
    (fun _ => "1970-01-01T00:00:01.000Z")
    (fun _ => None) (fun _ => None) (fun _ => None)
    (fun b _ _ _ => Some b) "row-1" true (fun _ => None).

Definition empty_world : World := mkWorld ∅ [] [].

(** Four files of user [u1], for the search of "work" with tag "important":
    one matches by name only, one by tag only, one has the name and the tag
    "important", one has "important" and nothing of "work". *)
Definition file_a : File.t :=
  File.mk "a" "Homework.txt" "Homework.txt" 10 "text/plain" "u1/files/Homework.txt"
    None [] None false None "u1" 4 4.
Definition file_b : File.t :=
  File.mk "b" "notes.txt" "notes.txt" 10 "text/plain" "u1/files/notes.txt"
    None ["work"] None false None "u1" 3 3.
Definition file_c : File.t :=
  File.mk "c" "My WORK plan.pdf" "My WORK plan.pdf" 10 "application/pdf"
    "u1/files/My WORK plan.pdf" None ["important"] None false None "u1" 2 2.
Definition file_d : File.t :=
  File.mk "d" "holiday.png" "holiday.png" 10 "image/png" "u1/image/holiday.png"
    (Some "u1/image/holiday.png_preview.jpg") ["important"] None false None "u1" 1 1.
(** A file in the trash. *)
Definition file_t : File.t :=
  File.mk "t" "old.txt" "old.txt" 10 "text/plain" "u1/files/old.txt"
    None [] None true (Some 5) "u1" 0 0.

Definition share_c : Share.t :=
  Share.mk "s1" "tok-1" 2000 true "c" "u1" 10.

Definition world_4 : World :=
  mkWorld ∅ [file_a; file_b; file_c; file_d; file_t] [share_c].


Definition page_request (p l : Z) : FileSearchParams.t :=
  FileSearchParams.mk "u1" None None None None (Some p) (Some l).


(** Uploads. *)
Definition upload_cat : FileUploadData.t :=
  FileUploadData.mk "cat.png" [Byte.x89; Byte.x50; Byte.x4e] "image/png" 3
    None None None "u1".

Definition upload_report : FileUploadData.t :=
  FileUploadData.mk "report.PDF" [Byte.x25; Byte.x50] "application/pdf" 2
    None None None "u1".

(** A desired name that is one space. *)
Definition upload_blank_name : FileUploadData.t :=
  FileUploadData.mk "my  file.txt" [] "text/plain" 0 (Some " ") None None "u1".

Definition upload_blank_name_path : FileUploadData.t :=
  FileUploadData.mk "a/b.txt" [] "text/plain" 0 (Some " ") None None "u1".

Definition upload_nameless : FileUploadData.t :=
  FileUploadData.mk "" [Byte.x89] "image/png" 1 None None None "u1".

(** The image library throws. *)
Definition env_sharp_fails : Env :=
  mkEnv mime_table "123e4567-e89b-42d3-a456-426614174000" 1000
    (fun _ => "1970-01-01T00:00:01.000Z")
    (fun _ => None) (fun _ => None) (fun _ => None)
    (fun _ _ _ _ => None) "row-1" true (fun _ => None).

(** The bucket refuses the preview of [cat.png] and nothing else. *)
Definition env_preview_store_fails : Env :=
  mkEnv mime_table "123e4567-e89b-42d3-a456-426614174000" 1000
    (fun _ => "1970-01-01T00:00:01.000Z")
    (fun _ => None)
    (fun k => if String.eqb k "u1/image/cat.png_preview.jpg"
              then Some "SlowDown" else None)
    (fun _ => None)
    (fun b _ _ _ => Some b) "row-1" true (fun _ => None).

(** Every HEAD request is refused. *)
Definition env_head_fails : Env :=
  mkEnv mime_table "123e4567-e89b-42d3-a456-426614174000" 1000
    (fun _ => "1970-01-01T00:00:01.000Z")
    (fun _ => Some "Forbidden") (fun _ => None) (fun _ => None)
    (fun b _ _ _ => Some b) "row-2" true (fun _ => None).

(** A bucket that already has an object at the key of [report.PDF]. *)
Definition old_report : S3Object :=
  mkS3Object [Byte.x00] "application/pdf" [].

Definition world_with_report : World :=
  mkWorld (<["u1/files/report.PDF" := old_report]> ∅) [] [].

(** A signer that signs everything, and one that refuses everything. *)
Definition signer_ok : Signer :=
  mkSigner (fun op key _ _ => Ok ("https://s3/" ++ op ++ "/" ++ key)).

Definition signer_fails : Signer :=
  mkSigner (fun _ _ _ _ => Throw (AWSError "CredentialsError" "Missing credentials")).

Definition penv_dev : ProcessEnv := mkProcessEnv None None None.

Definition penv_production : ProcessEnv :=
  mkProcessEnv (Some "production") None None.

(** A file of [u1] in the trash, in a folder. *)
Definition file_f : File.t :=
  File.mk "f" "tax.pdf" "tax.pdf" 10 "application/pdf" "u1/files/tax.pdf"
    None [] (Some "documents") true (Some 7) "u1" 6 6.

(** A file of another user. *)
Definition file_o : File.t :=
  File.mk "o" "other.txt" "other.txt" 10 "text/plain" "u2/files/other.txt"
    None [] None false None "u2" 8 8.

Definition share_old : Share.t :=
  Share.mk "s2" "tok-2" 500 true "a" "u1" 11.

Definition share_off : Share.t :=
  Share.mk "s3" "tok-3" 5000 false "b" "u2" 12.

Definition world_6 : World :=
  mkWorld ∅ [file_a; file_b; file_c; file_d; file_t; file_f; file_o]
    [share_c; share_old; share_off].

(** Only [image/*] and [application/pdf] are allowed. *)
Definition penv_images_pdf : ProcessEnv :=
  mkProcessEnv None None (Some "image/*,application/pdf").

End Fixtures.

(** * Properties *)

(** Unfolds the plumbing of computations. *)
Ltac run_M :=
  unfold PrismaShare.findFirst, PrismaShare.update, PrismaShare.updateMany,
    Prisma.file.findFirst, Prisma.file.findMany, Prisma.file.findMany_desc,
    Prisma.file.findMany_page, Prisma.file.count, Prisma.file.create,
    Prisma.file.update, Prisma.file.updateMany, Prisma.file.deleteMany in *;
  unfold mbind, M_bind, bind, mret, M_ret, ret, throw, try_catch,
    get_bucket, get_files, get_shares, put_bucket, put_files, put_shares in *;
  cbv beta iota in *;
  cbn [fst snd bucket fileTable shareTable] in *.

(** ** Generic facts about tables *)

Section Tables.
Context {A : Type}.

(** Two rows with the same value in a column without duplicates are the
    same row. *)
Lemma unique_column (key : A -> string) (t : list A) (a b : A) :
  List.NoDup (map key t) -> In a t -> In b t -> key a = key b -> a = b.
Proof.
  induction t as [|x t IH]; cbn; intros Hnd Ha Hb Hk; [contradiction|].
  inversion Hnd as [|? ? Hx Ht]; subst.
  destruct Ha as [->|Ha], Hb as [->|Hb]; auto.
  - exfalso. apply Hx. rewrite Hk. now apply in_map.
  - exfalso. apply Hx. rewrite <- Hk. now apply in_map.
Qed.

Lemma update_row_unique (key : A -> string) i data (t t' : list A) :
  List.NoDup (map key t) ->
  (forall x, key (data x) = key x) ->
  update_row key i data t = Some t' ->
  t' = map (fun x => if String.eqb (key x) i then data x else x) t.
Proof.
  intros Hnd Hid. revert t'.
  induction t as [|x t IH]; cbn; intros t' H; [discriminate|].
  inversion Hnd as [|? ? Hx Ht]; subst.
  destruct (String.eqb (key x) i) eqn:E.
  - injection H as <-. f_equal.
    apply String.eqb_eq in E. subst i.
    clear IH Ht Hnd. induction t as [|y t IH]; cbn; [reflexivity|].
    destruct (String.eqb (key y) (key x)) eqn:Ey.
    + apply String.eqb_eq in Ey. exfalso. apply Hx. cbn. now left.
    + f_equal. apply IH. intros Hin. apply Hx. cbn. now right.
  - destruct (update_row key i data t) as [t0|]; [|discriminate].
    injection H as <-. f_equal. now apply IH.
Qed.

Lemma update_row_present (key : A -> string) i data (t : list A) a :
  In a t -> key a = i -> exists t', update_row key i data t = Some t'.
Proof.
  induction t as [|x t IH]; cbn; [contradiction|].
  intros [->|Hin] Hi.
  - apply String.eqb_eq in Hi. rewrite Hi. eauto.
  - destruct (String.eqb (key x) i); [eauto|].
    destruct (IH Hin Hi) as [t' ->]. cbn. eauto.
Qed.

Lemma find_Some_iff_first (p : A -> bool) (t : list A) :
  (exists a, find p t = Some a) <-> (exists a, In a t /\ p a = true).
Proof.
  split.
  - intros [a Ha]. exists a. now apply find_some in Ha.
  - intros [a [Hin Hp]]. destruct (find p t) as [b|] eqn:E; [eauto|].
    rewrite (find_none _ _ E a Hin) in Hp. discriminate.
Qed.
End Tables.

Lemma String_eqb_true (a b : string) : String.eqb a b = true <-> a = b.
Proof. apply String.eqb_eq. Qed.

Lemma Bool_eqb_true (a b : bool) : Bool.eqb a b = true <-> a = b.
Proof. apply Bool.eqb_true_iff. Qed.

(** ** Share links *)

Module ShareProps.
Import ShareService Spec.

Lemma resolve_where_matches now token s :
  PrismaShare.share_matches (resolve_where now token) s = true
  <-> Share.token s = token /\ Share.isActive s = true /\ now < Share.expiresAt s.
Proof.
  unfold PrismaShare.share_matches, resolve_where; cbn.
  rewrite !andb_true_iff, String_eqb_true, Bool_eqb_true, Z.ltb_lt. tauto.
Qed.

Lemma live_file_where_matches i f :
  Prisma.file_matches (live_file_where i) f = true
  <-> File.id f = i /\ File.isDeleted f = false.
Proof.
  cbn. rewrite !andb_true_r, andb_true_iff, String_eqb_true, Bool_eqb_true. tauto.
Qed.

(** When resolution answers, it answers with a usable share and its file,
    and the world is as before. *)
Lemma getFileByToken_Ok env token w f s w' :
  getFileByToken env token w = (Ok (f, s), w') ->
  w' = w /\ In s (shareTable w) /\ Share.token s = token
  /\ Share.isActive s = true /\ clock env < Share.expiresAt s
  /\ In f (fileTable w) /\ File.id f = Share.fileId s
  /\ File.isDeleted f = false.
Proof.
  unfold getFileByToken. run_M.
  fold (resolve_where (clock env) token).
  destruct (find _ (shareTable w)) as [s0|] eqn:Es; [|discriminate].
  fold (live_file_where (Share.fileId s0)).
  destruct (find _ (fileTable w)) as [f0|] eqn:Ef; [|discriminate].
  intros [= -> -> <-].
  apply find_some in Es as [Hs Hm]. apply resolve_where_matches in Hm.
  apply find_some in Ef as [Hf Hl]. apply live_file_where_matches in Hl.
  tauto.
Qed.

(** Every failure of resolution is a [CustomError] with status 404. *)
Lemma getFileByToken_Throw env token w e w' :
  getFileByToken env token w = (Throw e, w') ->
  w' = w /\ statusCode_of e = 404.
Proof.
  unfold getFileByToken. run_M.
  destruct (find _ (shareTable w)) as [s0|]; [|now intros [= <- <-]].
  destruct (find _ (fileTable w)) as [f0|]; [discriminate|now intros [= <- <-]].
Qed.

Lemma getFileByToken_usable env token w :
  unique_tokens w ->
  usable w (clock env) token ->
  exists f s, getFileByToken env token w = (Ok (f, s), w).
Proof.
  intros Hu (s & f & Hs & Ht & Ha & He & Hf & Hi & Hd).
  unfold getFileByToken. run_M.
  fold (resolve_where (clock env) token).
  destruct (find _ (shareTable w)) as [s0|] eqn:Es.
  - apply find_some in Es as [Hs0 Hm]. apply resolve_where_matches in Hm.
    assert (s0 = s) as ->.
    { apply (unique_column Share.token (shareTable w)); auto.
      destruct Hm as [-> _]. now rewrite Ht. }
    fold (live_file_where (Share.fileId s)).
    destruct (find _ (fileTable w)) as [f0|] eqn:Ef; [eauto|].
    pose proof (find_none _ _ Ef f Hf) as Hn.
    assert (Prisma.file_matches (live_file_where (Share.fileId s)) f = true) as Hy
      by now apply live_file_where_matches.
    congruence.
  - pose proof (find_none _ _ Es s Hs) as Hn.
    assert (PrismaShare.share_matches (resolve_where (clock env) token) s = true) as Hy
      by now apply resolve_where_matches.
    congruence.
Qed.

(** *** Deactivation *)

(** The owner's deactivation of a share in the table succeeds and rewrites
    that row, and only it, with [isActive = false]. *)
Lemma deactivateShare_Ok s w :
  unique_share_ids w -> In s (shareTable w) ->
  deactivateShare (Share.id s) (Share.createdById s) w
  = (Ok tt,
     mkWorld (bucket w) (fileTable w)
       (map (fun x => if String.eqb (Share.id x) (Share.id s)
                      then set_isActive false x else x) (shareTable w))).
Proof.
  intros Hu Hs. unfold deactivateShare. run_M.
  destruct (find _ (shareTable w)) as [s0|] eqn:Es.
  - destruct (update_row_present Share.id (Share.id s) (set_isActive false)
                _ s Hs eq_refl) as [t' Ht'].
    rewrite Ht'. f_equal. f_equal.
    now apply update_row_unique in Ht'.
  - pose proof (find_none _ _ Es s Hs) as Hn.
    unfold PrismaShare.share_matches in Hn. cbn in Hn.
    now rewrite !String.eqb_refl in Hn.
Qed.

Lemma getFileByToken_after_deactivate env s w :
  unique_share_ids w -> unique_tokens w -> In s (shareTable w) ->
  forall w1, deactivateShare (Share.id s) (Share.createdById s) w = (Ok tt, w1) ->
  getFileByToken env (Share.token s) w1
  = (Throw (CustomError "Share link not found or expired" 404), w1).
Proof.
  intros Hi Ht Hs w1 Hd.
  rewrite (deactivateShare_Ok s w Hi Hs) in Hd. injection Hd as <-.
  unfold getFileByToken. run_M.
  fold (resolve_where (clock env) (Share.token s)).
  destruct (find _ _) as [x'|] eqn:E; [|reflexivity].
  exfalso. apply find_some in E as [Hin Hm].
  apply resolve_where_matches in Hm as (Htok & Hact & _).
  apply in_map_iff in Hin as (x & Hx & Hxin).
  assert (x = s) as ->.
  { apply (unique_column Share.token (shareTable w)); auto.
    rewrite <- Htok, <- Hx. now destruct (String.eqb _ _). }
  rewrite String.eqb_refl in Hx. subst x'. discriminate.
Qed.

(** C2. Resolution of a token answers exactly when a share with the token
    is active, expires strictly after the present time and refers to a file
    of the table that is not deleted; every failure carries status 404; and
    after its owner deactivated a share, resolving its token fails with 404
    at every time, also before the expiry. Ids and tokens of shares are
    unique, as the schema has them. *)
Theorem resolve_iff_usable env env' token s w :
  unique_share_ids w -> unique_tokens w -> In s (shareTable w) ->
  ((exists f s', getFileByToken env token w = (Ok (f, s'), w))
   <-> usable w (clock env) token)
  /\ (forall e w', getFileByToken env token w = (Throw e, w') ->
      w' = w /\ statusCode_of e = 404)
  /\ (exists w1,
        deactivateShare (Share.id s) (Share.createdById s) w = (Ok tt, w1)
        /\ exists e, getFileByToken env' (Share.token s) w1 = (Throw e, w1)
                     /\ statusCode_of e = 404).
Proof.
  intros Hi Ht Hs. split; [split|split].
  - intros (f & s' & H). apply getFileByToken_Ok in H.
    exists s', f. tauto.
  - now apply getFileByToken_usable.
  - intros e w'. apply getFileByToken_Throw.
  - eexists. split; [now apply deactivateShare_Ok|].
    eexists. split.
    + eapply getFileByToken_after_deactivate; eauto using deactivateShare_Ok.
    + reflexivity.
Qed.

Lemma resolve_iff_usable_witness :
  (exists f s',
     getFileByToken (Fixtures.env_at 1000) "tok-1" Fixtures.world_4
     = (Ok (f, s'), Fixtures.world_4))
  /\ exists w1,
       deactivateShare "s1" "u1" Fixtures.world_4 = (Ok tt, w1)
       /\ exists e,
            getFileByToken (Fixtures.env_at 1000) "tok-1" w1 = (Throw e, w1)
            /\ statusCode_of e = 404.
Proof.
  destruct (resolve_iff_usable (Fixtures.env_at 1000) (Fixtures.env_at 1000)
              "tok-1" Fixtures.share_c Fixtures.world_4) as (Hiff & _ & Hd).
  - repeat (constructor; [cbn; intuition discriminate|]). constructor.
  - repeat (constructor; [cbn; intuition discriminate|]). constructor.
  - cbn. now left.
  - split; [|exact Hd]. apply Hiff.
    exists Fixtures.share_c, Fixtures.file_c. cbn. intuition reflexivity.
Defined.

End ShareProps.

(** ** Files: trash and restore *)

Module TrashProps.
Import FileService Spec.

Lemma owned_where_matches i u d f :
  Prisma.file_matches (owned_where i u d) f = true
  <-> File.id f = i /\ File.ownerId f = u /\ File.isDeleted f = d.
Proof.
  cbn. rewrite !andb_true_r, !andb_true_iff, !String_eqb_true, Bool_eqb_true.
  tauto.
Qed.

Lemma find_owned_iff w i u d :
  (exists g, find (Prisma.file_matches (owned_where i u d)) (fileTable w) = Some g)
  <-> has_row w i u d.
Proof.
  rewrite find_Some_iff_first. unfold has_row.
  split; intros (g & Hg & Hm); exists g; split; auto; now apply owned_where_matches.
Qed.

Lemma written_id env data x :
  (forall y, File.id (data y) = File.id y) ->
  File.id (Prisma.file.written env data x) = File.id x.
Proof.
  intros H. unfold Prisma.file.written.
  destruct (schema_updatedAt env); cbn; apply H.
Qed.

Lemma update_Ok env i data w g :
  unique_file_ids w -> In g (fileTable w) -> File.id g = i ->
  (forall y, File.id (data y) = File.id y) ->
  Prisma.file.update env i data w = (Ok tt, rewritten env i data w).
Proof.
  intros Hu Hg Hi Hd. run_M.
  destruct (update_row_present File.id i (Prisma.file.written env data)
              _ g Hg Hi) as [t' Ht'].
  rewrite Ht'. unfold rewritten. do 2 f_equal.
  apply update_row_unique in Ht'; auto.
  intros x. now apply written_id.
Qed.

(** Soft deletion of a live row of the caller rewrites that row. *)
Lemma deleteFile_Ok env i u w :
  unique_file_ids w -> has_row w i u false ->
  deleteFile env i u w
  = (Ok tt, rewritten env i (set_deleted true (Some (clock env))) w).
Proof.
  intros Hu Hr. unfold deleteFile.
  apply find_owned_iff in Hr as [g Hg].
  unfold mbind at 1, M_bind at 1, bind at 1, Prisma.file.findFirst.
  run_M. rewrite Hg.
  apply find_some in Hg as [Hin Hm]. apply owned_where_matches in Hm.
  eapply update_Ok; eauto; tauto.
Qed.

Lemma deleteFile_NotFound env i u w :
  ~ has_row w i u false ->
  deleteFile env i u w = (Throw (CustomError "File not found" 404), w).
Proof.
  intros Hr. unfold deleteFile. run_M.
  destruct (find _ _) as [g|] eqn:E; [|reflexivity].
  exfalso. apply Hr. apply find_owned_iff. eauto.
Qed.

Lemma restoreFile_Ok env i u w :
  unique_file_ids w -> has_row w i u true ->
  restoreFile env i u w = (Ok tt, rewritten env i (set_deleted false None) w).
Proof.
  intros Hu Hr. unfold restoreFile.
  apply find_owned_iff in Hr as [g Hg].
  unfold mbind at 1, M_bind at 1, bind at 1, Prisma.file.findFirst.
  run_M. rewrite Hg.
  apply find_some in Hg as [Hin Hm]. apply owned_where_matches in Hm.
  eapply update_Ok; eauto; tauto.
Qed.

Lemma restoreFile_NotFound env i u w :
  ~ has_row w i u true ->
  restoreFile env i u w = (Throw (CustomError "File not found in trash" 404), w).
Proof.
  intros Hr. unfold restoreFile. run_M.
  destruct (find _ _) as [g|] eqn:E; [|reflexivity].
  exfalso. apply Hr. apply find_owned_iff. eauto.
Qed.

(** Ordering a result keeps its rows. *)
Lemma insert_desc_perm f l : Permutation (Prisma.insert_desc f l) (f :: l).
Proof.
  induction l as [|g l IH]; cbn; [reflexivity|].
  destruct (File.createdAt g <=? File.createdAt f); [reflexivity|].
  rewrite IH. apply perm_swap.
Qed.

Lemma orderBy_perm l : Permutation (Prisma.orderBy_createdAt_desc l) l.
Proof.
  induction l as [|f l IH]; cbn; [reflexivity|].
  rewrite insert_desc_perm. now constructor.
Qed.

Lemma listFiles_live_matches u f :
  Prisma.file_matches (listFiles_where u false) f = true
  <-> File.ownerId f = u /\ File.isDeleted f = false.
Proof.
  cbn. rewrite !andb_true_r, !andb_true_iff, !String_eqb_true, Bool_eqb_true.
  tauto.
Qed.

(** The listing without trash has exactly the live rows of the owner. *)
Lemma listFiles_live u w :
  exists l, listFiles u false w = (Ok l, w)
    /\ forall r, In r l <->
         exists f, In f (fileTable w) /\ File.ownerId f = u
                   /\ File.isDeleted f = false /\ r = mapFileToResponse f.
Proof.
  unfold listFiles. run_M. eexists. split; [reflexivity|].
  intros r. rewrite in_map_iff. split.
  - intros (f & <- & Hf).
    apply (Permutation_in _ (orderBy_perm _)) in Hf.
    apply filter_In in Hf as [Hf Hm]. apply listFiles_live_matches in Hm.
    exists f. tauto.
  - intros (f & Hf & Hu & Hd & ->). exists f. split; [reflexivity|].
    apply (Permutation_in _ (Permutation_sym (orderBy_perm _))).
    apply filter_In. split; [assumption|]. now apply listFiles_live_matches.
Qed.

Lemma rewritten_ids env i data w :
  (forall y, File.id (data y) = File.id y) ->
  map File.id (fileTable (rewritten env i data w)) = map File.id (fileTable w).
Proof.
  intros Hd. cbn. rewrite map_map. apply map_ext. intros x.
  destruct (String.eqb (File.id x) i); [|reflexivity]. now apply written_id.
Qed.

Lemma restored_spec env1 env2 f :
  same_content (restored env1 env2 f) f
  /\ File.isDeleted (restored env1 env2 f) = false
  /\ File.deletedAt (restored env1 env2 f) = None.
Proof.
  unfold restored, same_content, Prisma.file.written.
  destruct (schema_updatedAt env1), (schema_updatedAt env2); cbn; tauto.
Qed.

(** C7. Soft deletion of a live file by its owner followed by its restore
    both succeed and leave the row live again, with no deletion date, its
    content as before, every other row untouched, and the listing of the
    owner's live files has it again. A soft deletion of anything but a live
    row of the caller, and a restore of anything but a deleted row of the
    caller, fail with status 404 and change nothing. *)
Theorem softDelete_restore_roundtrip env1 env2 f w :
  unique_file_ids w -> In f (fileTable w) -> File.isDeleted f = false ->
  exists w1 w2 f',
    deleteFile env1 (File.id f) (File.ownerId f) w = (Ok tt, w1)
    /\ restoreFile env2 (File.id f) (File.ownerId f) w1 = (Ok tt, w2)
    /\ fileTable w2
       = map (fun x => if String.eqb (File.id x) (File.id f) then f' else x)
           (fileTable w)
    /\ In f' (fileTable w2)
    /\ same_content f' f
    /\ File.isDeleted f' = false /\ File.deletedAt f' = None
    /\ (exists l, listFiles (File.ownerId f) false w2 = (Ok l, w2)
                  /\ In (mapFileToResponse f') l)
    /\ (forall env i u w0, ~ has_row w0 i u false ->
         deleteFile env i u w0 = (Throw (CustomError "File not found" 404), w0))
    /\ (forall env i u w0, ~ has_row w0 i u true ->
         restoreFile env i u w0
         = (Throw (CustomError "File not found in trash" 404), w0)).
Proof.
  intros Hu Hf Hd.
  set (i := File.id f). set (u := File.ownerId f).
  set (d1 := set_deleted true (Some (clock env1))).
  set (w1 := rewritten env1 i d1 w).
  assert (Hid1 : forall y, File.id (d1 y) = File.id y) by reflexivity.
  assert (Hu1 : unique_file_ids w1).
  { unfold unique_file_ids, w1. now rewrite rewritten_ids. }
  assert (Hrow1 : has_row w1 i u true).
  { exists (Prisma.file.written env1 d1 f). repeat split.
    - cbn. apply in_map_iff. exists f. split; [|assumption].
      unfold i. now rewrite String.eqb_refl.
    - now apply written_id.
    - unfold Prisma.file.written. now destruct (schema_updatedAt env1).
    - unfold Prisma.file.written. now destruct (schema_updatedAt env1). }
  destruct (restored_spec env1 env2 f) as (Hsame & Hdel & Hat).
  assert (Htab : fileTable (rewritten env2 i (set_deleted false None) w1)
                 = map (fun x => if String.eqb (File.id x) i
                                 then restored env1 env2 f else x) (fileTable w)).
  { cbn. rewrite map_map. apply map_ext_in. intros x Hx.
    destruct (String.eqb (File.id x) i) eqn:E.
    - rewrite written_id by reflexivity. rewrite E.
      apply String_eqb_true in E.
      now rewrite (unique_column File.id (fileTable w) x f Hu Hx Hf E).
    - now rewrite E. }
  assert (Hin : In (restored env1 env2 f)
                   (fileTable (rewritten env2 i (set_deleted false None) w1))).
  { rewrite Htab. apply in_map_iff. exists f. split; [|assumption].
    unfold i. now rewrite String.eqb_refl. }
  exists w1, (rewritten env2 i (set_deleted false None) w1), (restored env1 env2 f).
  split; [|split; [|split; [|split; [|split; [|split; [|split; [|split; [|split]]]]]]]];
    auto.
  - apply deleteFile_Ok; [assumption|]. exists f. auto.
  - now apply restoreFile_Ok.
  - destruct (listFiles_live u (rewritten env2 i (set_deleted false None) w1))
      as (l & Hl & Hspec).
    exists l. split; [assumption|]. apply Hspec.
    exists (restored env1 env2 f). repeat split; auto.
    destruct Hsame as (_ & _ & _ & _ & _ & _ & _ & _ & _ & Ho & _). exact Ho.
  - intros. now apply deleteFile_NotFound.
  - intros. now apply restoreFile_NotFound.
Qed.

Lemma softDelete_restore_roundtrip_witness :
  exists w1 w2,
    deleteFile Fixtures.env_ok "a" "u1" Fixtures.world_4 = (Ok tt, w1)
    /\ restoreFile (Fixtures.env_at 2000) "a" "u1" w1 = (Ok tt, w2)
    /\ exists l, listFiles "u1" false w2 = (Ok l, w2)
                 /\ In "a" (map FileResponse.id l).
Proof.
  destruct (softDelete_restore_roundtrip Fixtures.env_ok (Fixtures.env_at 2000)
              Fixtures.file_a Fixtures.world_4)
    as (w1 & w2 & f' & Hd & Hr & _ & _ & Hsame & _ & _ & (l & Hl & Hin) & _).
  - repeat (constructor; [cbn; intuition discriminate|]). constructor.
  - cbn. now left.
  - reflexivity.
  - exists w1, w2. split; [exact Hd|]. split; [exact Hr|].
    exists l. split; [exact Hl|].
    apply in_map_iff. exists (mapFileToResponse f'). split; [|exact Hin].
    destruct Hsame as [Hid _]. exact Hid.
Defined.

End TrashProps.

(** ** Files: permanent deletion *)

Module PurgeProps.
Import FileService Spec.

Lemma string_in_In s l : Prisma.string_in s l = true <-> In s l.
Proof.
  unfold Prisma.string_in. rewrite existsb_exists. split.
  - intros (x & Hx & E). apply String_eqb_true in E. now subst.
  - intros H. exists s. split; [assumption|apply String.eqb_refl].
Qed.

Lemma trash_where_matches u ids f :
  Prisma.file_matches (trash_where u ids) f = purgeable u ids f.
Proof.
  unfold purgeable. cbn. rewrite !andb_true_r.
  rewrite (andb_comm (Prisma.string_in _ _)).
  f_equal. now destruct (File.isDeleted f).
Qed.

(** Asking again with the ids of the rows found finds the same rows. *)
Lemma purgeable_found u ids t f :
  In f t ->
  purgeable u (map File.id (List.filter (purgeable u ids) t)) f = purgeable u ids f.
Proof.
  intros Hf. unfold purgeable.
  destruct (String.eqb (File.ownerId f) u) eqn:Eo; cbn; [|reflexivity].
  destruct (File.isDeleted f) eqn:Ed; [|now rewrite !andb_false_r].
  rewrite !andb_true_r. apply eq_true_iff_eq. rewrite !string_in_In. split.
  - intros Hin. apply in_map_iff in Hin as (g & Hg & Hin).
    apply filter_In in Hin as [_ Hp]. unfold purgeable in Hp.
    apply andb_true_iff in Hp as [Hp _]. apply andb_true_iff in Hp as [_ Hp].
    rewrite <- Hg. now apply string_in_In.
  - intros Hin. apply in_map_iff. exists f. split; [reflexivity|].
    apply filter_In. split; [assumption|]. unfold purgeable.
    rewrite Eo, Ed. cbn. rewrite andb_true_r. now apply string_in_In.
Qed.

Lemma filter_split_length {A} (p : A -> bool) (l : list A) :
  (List.length (List.filter p l)
   + List.length (List.filter (fun x => negb (p x)) l))%nat = List.length l.
Proof.
  induction l as [|x l IH]; cbn; [reflexivity|].
  destruct (p x); cbn; lia.
Qed.

(** Deleting one object, errors ignored: tables untouched, and no other key
    of the bucket changes. *)
Lemma ignore_deleteFile env k w :
  exists b, ignore_errors (StorageService.deleteFile env k) w
            = (Ok tt, mkWorld b (fileTable w) (shareTable w))
    /\ forall k', k' <> k -> b !! k' = bucket w !! k'.
Proof.
  unfold ignore_errors, StorageService.deleteFile, S3.deleteObject.
  destruct (deleteObject_fails env k); run_M.
  - exists (bucket w). now destruct w.
  - exists (delete k (bucket w)). split; [reflexivity|].
    intros k' Hk. now apply lookup_delete_ne.
Qed.

Lemma delete_objects_frame env files w :
  exists b, delete_objects env files w
            = (Ok tt, mkWorld b (fileTable w) (shareTable w))
    /\ forall k, ~ In k (flat_map object_keys files) -> b !! k = bucket w !! k.
Proof.
  revert w. induction files as [|f files IH]; intros w.
  - exists (bucket w). split; [now destruct w|reflexivity].
  - cbn [delete_objects flat_map].
    destruct (ignore_deleteFile env (File.storageKey f) w) as (b1 & E1 & F1).
    unfold mbind at 1, M_bind at 1, bind at 1. rewrite E1.
    set (w1 := mkWorld b1 (fileTable w) (shareTable w)).
    assert (exists b2,
      (match File.previewKey f with
       | Some k => if Js.truthy k
                   then ignore_errors (StorageService.deleteFile env k)
                   else mret tt
       | None => mret tt
       end) w1 = (Ok tt, mkWorld b2 (fileTable w) (shareTable w))
      /\ forall k, ~ In k (object_keys f) -> b2 !! k = bucket w !! k)
      as (b2 & E2 & F2).
    { unfold object_keys. destruct (File.previewKey f) as [k|].
      - destruct (Js.truthy k).
        + destruct (ignore_deleteFile env k w1) as (b2 & E2 & F2).
          exists b2. split; [exact E2|]. intros k' Hk'. cbn in Hk'.
          rewrite F2 by intuition congruence. apply F1. intuition congruence.
        + exists b1. split; [reflexivity|]. intros k' Hk'. cbn in Hk'.
          apply F1. intuition congruence.
      - exists b1. split; [reflexivity|]. intros k' Hk'. cbn in Hk'.
        apply F1. intuition congruence. }
    unfold mbind at 1, M_bind at 1, bind at 1. rewrite E2.
    destruct (IH (mkWorld b2 (fileTable w) (shareTable w))) as (b3 & E3 & F3).
    exists b3. split; [exact E3|].
    intros k Hk. rewrite in_app_iff in Hk.
    rewrite F3 by tauto. apply F2. tauto.
Qed.

Lemma permanentlyDeleteFiles_empty env u w :
  permanentlyDeleteFiles env u [] w
  = (Throw (CustomError "fileIds array is required" 400), w).
Proof. reflexivity. Qed.

Lemma permanentlyDeleteFiles_run env u ids w :
  ids <> [] ->
  exists b,
    permanentlyDeleteFiles env u ids w
    = (Ok (Z.of_nat (List.length (List.filter (purgeable u ids) (fileTable w)))),
       mkWorld b
         (List.filter (fun f => negb (purgeable u ids f)) (fileTable w))
         (shareTable w))
    /\ forall k,
         ~ In k (flat_map object_keys (List.filter (purgeable u ids) (fileTable w))) ->
         b !! k = bucket w !! k.
Proof.
  intros Hne. destruct ids as [|i ids]; [congruence|].
  unfold permanentlyDeleteFiles.
  set (found := List.filter (Prisma.file_matches (trash_where u (i :: ids)))
                  (fileTable w)).
  destruct (delete_objects_frame env found w) as (b & Eb & Fb).
  assert (Hfound : found = List.filter (purgeable u (i :: ids)) (fileTable w)).
  { apply filter_ext. intros f. apply trash_where_matches. }
  exists b. split.
  - unfold mbind at 1, M_bind at 1, bind at 1, Prisma.file.findMany.
    run_M. fold found. rewrite Eb. cbn [fst snd bucket fileTable shareTable].
    f_equal.
    + do 3 f_equal. rewrite Hfound. apply filter_ext_in. intros f Hf.
      rewrite trash_where_matches. now apply purgeable_found.
    + f_equal. rewrite Hfound. apply filter_ext_in. intros f Hf.
      rewrite trash_where_matches. f_equal. now apply purgeable_found.
  - intros k Hk. apply Fb. now rewrite Hfound.
Qed.

(** C6. A purge with a list of ids that is not empty answers with a count
    and removes from the [File] table exactly the rows that are owned by
    the caller, listed, and in the trash. The rows that are not deleted all
    stay as they are, the count is the number of rows removed, a purge that
    lists no deleted row answers 0 and changes no row, and no object of the
    bucket changes but those of the rows removed. *)
Theorem purge_removes_only_trash env u ids w :
  ids <> [] ->
  exists n w',
    permanentlyDeleteFiles env u ids w = (Ok n, w')
    /\ fileTable w'
       = List.filter (fun f => negb (purgeable u ids f)) (fileTable w)
    /\ shareTable w' = shareTable w
    /\ n = Z.of_nat (List.length (fileTable w))
           - Z.of_nat (List.length (fileTable w'))
    /\ (forall f, In f (fileTable w) -> File.isDeleted f = false ->
         In f (fileTable w'))
    /\ (forall f, In f (fileTable w) -> ~ In f (fileTable w') ->
         File.ownerId f = u /\ In (File.id f) ids /\ File.isDeleted f = true)
    /\ ((forall f, In f (fileTable w) -> In (File.id f) ids ->
          File.isDeleted f = false) ->
        n = 0 /\ fileTable w' = fileTable w)
    /\ (forall k,
         ~ In k (flat_map object_keys
                   (List.filter (purgeable u ids) (fileTable w))) ->
         bucket w' !! k = bucket w !! k).
Proof.
  intros Hne.
  destruct (permanentlyDeleteFiles_run env u ids w Hne) as (b & E & Fb).
  eexists _, _. split; [exact E|]. cbn [bucket fileTable shareTable].
  pose proof (filter_split_length (purgeable u ids) (fileTable w)) as Hlen.
  split; [reflexivity|]. split; [reflexivity|]. split; [lia|].
  split; [|split; [|split; [|exact Fb]]].
  - intros f Hf Hd. apply filter_In. split; [assumption|].
    unfold purgeable. rewrite Hd. now rewrite andb_false_r.
  - intros f Hf Hout.
    destruct (purgeable u ids f) eqn:Ep.
    + unfold purgeable in Ep. rewrite !andb_true_iff in Ep.
      rewrite String_eqb_true, string_in_In in Ep. tauto.
    + exfalso. apply Hout. apply filter_In. now rewrite Ep.
  - intros Hlive.
    assert (Hnone : forall f, In f (fileTable w) -> purgeable u ids f = false).
    { intros f Hf. unfold purgeable.
      destruct (Prisma.string_in (File.id f) ids) eqn:Ei.
      - apply string_in_In in Ei. rewrite (Hlive f Hf Ei).
        now rewrite andb_false_r.
      - now rewrite andb_false_r. }
    assert (Hkeep : List.filter (fun f => negb (purgeable u ids f)) (fileTable w)
                    = fileTable w).
    { clear -Hnone. induction (fileTable w) as [|f t IH]; cbn; [reflexivity|].
      rewrite (Hnone f) by now left. cbn. f_equal. apply IH.
      intros g Hg. apply Hnone. now right. }
    split; [|exact Hkeep]. rewrite Hkeep in Hlen. lia.
Qed.

Lemma purge_removes_only_trash_witness :
  (exists w',
     permanentlyDeleteFiles Fixtures.env_ok "u1" ["t"; "a"] Fixtures.world_4
     = (Ok 1, w')
     /\ fileTable w'
        = [Fixtures.file_a; Fixtures.file_b; Fixtures.file_c; Fixtures.file_d])
  /\ (exists w',
        permanentlyDeleteFiles Fixtures.env_ok "u1" ["a"; "b"] Fixtures.world_4
        = (Ok 0, w')
        /\ fileTable w' = fileTable Fixtures.world_4).
Proof.
  split.
  - destruct (purge_removes_only_trash Fixtures.env_ok "u1" ["t"; "a"]
                Fixtures.world_4) as (n & w' & E & Ht & _ & Hn & _);
      [discriminate|].
    exists w'. rewrite Hn, Ht in E. rewrite Ht. split; [exact E|reflexivity].
  - destruct (purge_removes_only_trash Fixtures.env_ok "u1" ["a"; "b"]
                Fixtures.world_4) as (n & w' & E & Ht & _ & Hn & _);
      [discriminate|].
    exists w'. rewrite Hn, Ht in E. rewrite Ht. split; [exact E|reflexivity].
Defined.

End PurgeProps.

(** ** Files: search *)

Module SearchProps.
Import FileService Spec.

Lemma append_cons c (p r : string) : String c p ++ r = String c (p ++ r).
Proof. reflexivity. Qed.


Lemma prefix_app (p s : string) :
  String.prefix p s = true <-> exists rest, s = p ++ rest.
Proof.
  revert s. induction p as [|c p IH]; intros s.
  - split; [intros _; now exists s|intros _; now destruct s].
  - destruct s as [|c' s]; cbn.
    + split; [discriminate|]. intros [r Hr]. discriminate.
    + destruct (Ascii.ascii_dec c c') as [->|Hne].
      * rewrite IH. split; intros [r Hr]; exists r.
        -- now rewrite append_cons, Hr.
        -- rewrite append_cons in Hr. congruence.
      * split; [discriminate|]. intros [r Hr].
        rewrite append_cons in Hr. congruence.
Qed.


(** *** Patterns of [LIKE] *)

Lemma like_tokens_cons c p :
  Prisma.like_tokens (String c p)
  = if Ascii.eqb c "\"%char
    then match p with
         | String d p'' =>
             option_map (cons (Prisma.LikeChar d)) (Prisma.like_tokens p'')
         | EmptyString => None
         end
    else if Ascii.eqb c "%"%char
    then option_map (cons Prisma.LikeSeq) (Prisma.like_tokens p)
    else if Ascii.eqb c "_"%char
    then option_map (cons Prisma.LikeOne) (Prisma.like_tokens p)
    else option_map (cons (Prisma.LikeChar c)) (Prisma.like_tokens p).
Proof. reflexivity. Qed.

Lemma option_map_not_None {A B} (g : A -> B) (o : option A) :
  o <> None -> option_map g o <> None.
Proof. now destruct o. Qed.

(** A pattern that ends in [%] is read whatever is before it: the patterns
    of [contains] and [startsWith] are never refused. *)
Lemma like_pattern_parses_step q :
  Prisma.like_tokens (q ++ "%") <> None
  /\ forall c, Prisma.like_tokens (String c (q ++ "%")) <> None.
Proof.
  induction q as [|d q [IH1 IH2]].
  - split; [discriminate|]. intros c. rewrite like_tokens_cons.
    change ("" ++ "%") with "%".
    destruct (Ascii.eqb c "\"%char); [discriminate|].
    destruct (Ascii.eqb c "%"%char); [discriminate|].
    destruct (Ascii.eqb c "_"%char); discriminate.
  - split; [apply IH2|]. intros c.
    rewrite like_tokens_cons, append_cons.
    destruct (Ascii.eqb c "\"%char); [now apply option_map_not_None|].
    destruct (Ascii.eqb c "%"%char); [apply option_map_not_None, IH2|].
    destruct (Ascii.eqb c "_"%char); apply option_map_not_None, IH2.
Qed.

Lemma like_pattern_parses q : Prisma.like_tokens (q ++ "%") <> None.
Proof. apply like_pattern_parses_step. Qed.








Lemma toLowerCase_app a b :
  Js.toLowerCase (a ++ b) = Js.toLowerCase a ++ Js.toLowerCase b.
Proof.
  induction a as [|c a IH]; [reflexivity|].
  rewrite append_cons. cbn [Js.toLowerCase]. now rewrite IH, append_cons.
Qed.

(** The patterns that the two string filters send are read, whatever the
    text of the request. *)
Lemma filter_patterns_parse q :
  Prisma.like_tokens (Js.toLowerCase ("%" ++ q ++ "%")) <> None
  /\ Prisma.like_tokens (q ++ "%") <> None.
Proof.
  split; [|apply like_pattern_parses].
  rewrite !toLowerCase_app. change (Js.toLowerCase "%") with "%".
  apply (like_pattern_parses (String "%" (Js.toLowerCase q))).
Qed.








Lemma matching_rows_In params w f :
  In f (matching_rows params w)
  <-> In f (fileTable w) /\ Prisma.file_matches (search_where params) f = true.
Proof.
  unfold matching_rows. rewrite <- filter_In.
  split; apply Permutation_in;
    [apply TrashProps.orderBy_perm|apply Permutation_sym, TrashProps.orderBy_perm].
Qed.

Lemma matching_rows_length params w :
  List.length (matching_rows params w)
  = List.length (List.filter (Prisma.file_matches (search_where params)) (fileTable w)).
Proof.
  unfold matching_rows. apply Permutation_length, TrashProps.orderBy_perm.
Qed.

(** What a search answers for a page and a page size of at least 1. *)
Lemma searchFiles_run params w :
  0 < search_page params -> 0 < search_limit params ->
  searchFiles params w
  = (Ok (mkSearchResult
           (map mapFileToResponse
              (page_from_one (search_page params) (search_limit params)
                 (matching_rows params w)))
           (Z.of_nat (List.length (matching_rows params w)))
           (search_page params) (search_limit params)
           (ceil_div (Z.of_nat (List.length (matching_rows params w)))
              (search_limit params))),
     w).
Proof.
  intros Hp Hl. unfold searchFiles. run_M.
  assert ((search_skip params <? 0) = false) as ->
    by (apply Z.ltb_ge; unfold search_skip; nia).
  assert ((0 <=? search_limit params) = true) as -> by (apply Z.leb_le; lia).
  cbv iota. cbn [fst snd]. rewrite <- matching_rows_length.
  reflexivity.
Qed.

(** A page or a page size below 0 that makes the number of rows to skip
    negative is refused by the database: the search fails, with status 500. *)
Lemma searchFiles_negative_skip params w :
  search_skip params < 0 ->
  exists e, searchFiles params w = (Throw e, w) /\ statusCode_of e = 500.
Proof.
  intros Hs. unfold searchFiles. run_M.
  assert ((search_skip params <? 0) = true) as -> by now apply Z.ltb_lt.
  eexists. split; reflexivity.
Qed.

Lemma firstn_add {A} (a b : nat) (l : list A) :
  firstn (a + b) l = (firstn a l ++ firstn b (skipn a l))%list.
Proof.
  revert l. induction a as [|a IH]; intros l; [reflexivity|].
  destruct l as [|x l]; cbn; [now rewrite firstn_nil|].
  now rewrite IH.
Qed.

(** The first [m] pages of [n] rows, one after the other, are the first
    [m * n] rows. *)
Lemma pages_concat {A} (n m : nat) (l : list A) :
  concat (map (fun k => firstn n (skipn (k * n) l)) (seq 0 m)) = firstn (m * n) l.
Proof.
  induction m as [|m IH]; [reflexivity|].
  rewrite seq_S, map_app, concat_app, IH. cbn [map concat Nat.add].
  rewrite app_nil_r.
  replace (S m * n)%nat with (m * n + n)%nat by lia.
  now rewrite firstn_add.
Qed.

(** For a divisor above 0 the quotient rounded up is the well-known one. *)
Lemma ceil_div_pos (a b : Z) : 0 < b -> ceil_div a b = (a + b - 1) / b.
Proof.
  intros Hb. unfold ceil_div.
  pose proof (Z.div_mod (- a) b ltac:(lia)) as E.
  pose proof (Z.mod_pos_bound (- a) b Hb) as B.
  apply (Z.div_unique _ _ _ (b - 1 - (- a) mod b)); lia.
Qed.

Lemma ceil_div_covers (a b : Z) : 0 <= a -> 0 < b -> a <= ceil_div a b * b.
Proof.
  intros Ha Hb. rewrite ceil_div_pos by assumption.
  pose proof (Z.div_mod (a + b - 1) b ltac:(lia)) as E.
  pose proof (Z.mod_pos_bound (a + b - 1) b Hb) as B.
  nia.
Qed.

Lemma ceil_div_nonneg (a b : Z) : 0 <= a -> 0 < b -> 0 <= ceil_div a b.
Proof.
  intros Ha Hb. rewrite ceil_div_pos by assumption. apply Z.div_pos; lia.
Qed.

(** C3, as the code has it. A search answers with the page that starts after
    [(page - 1) * pageSize] of the matching rows, newest first, and has at
    most [pageSize] of them, where [page] is 1 and [pageSize] is 20 when the
    request has none (or has 0); [total] is the number of rows of the table
    that satisfy the very [where] object the page is taken with; and the pages
    1 to [totalPages] are, one after the other, all the matching rows. *)
Theorem search_pagination params w :
  0 < search_page params -> 0 < search_limit params ->
  exists r, searchFiles params w = (Ok r, w)
    /\ page r = num_or (FileSearchParams.page params) 1
    /\ limit r = num_or (FileSearchParams.limit params) 20
    /\ files r
       = map mapFileToResponse
           (page_from_one (page r) (limit r) (matching_rows params w))
    /\ (forall f, In f (matching_rows params w) <->
         In f (fileTable w) /\ Prisma.file_matches (search_where params) f = true)
    /\ total r
       = Z.of_nat (List.length
           (List.filter (Prisma.file_matches (search_where params)) (fileTable w)))
    /\ totalPages r = ceil_div (total r) (limit r)
    /\ Z.of_nat (List.length (files r)) <= limit r
    /\ concat (map (fun k => page_from_one (Z.of_nat k + 1) (limit r)
                               (matching_rows params w))
                  (seq 0 (Z.to_nat (totalPages r))))
       = matching_rows params w.
Proof.
  intros Hp Hl. eexists. split; [now apply searchFiles_run|].
  cbn [files total page limit totalPages].
  split; [reflexivity|]. split; [reflexivity|]. split; [reflexivity|].
  split; [|split; [|split; [reflexivity|split]]].
  - intros f. apply matching_rows_In.
  - now rewrite matching_rows_length.
  - rewrite length_map. unfold page_from_one. rewrite length_firstn. lia.
  - set (rows := matching_rows params w).
    set (n := Z.to_nat (search_limit params)).
    set (m := Z.to_nat (ceil_div (Z.of_nat (List.length rows)) (search_limit params))).
    rewrite (map_ext _ (fun k => firstn n (skipn (k * n) rows))).
    + rewrite pages_concat. apply firstn_all2.
      pose proof (ceil_div_covers (Z.of_nat (List.length rows)) (search_limit params)
                    ltac:(lia) Hl).
      pose proof (ceil_div_nonneg (Z.of_nat (List.length rows)) (search_limit params)
                    ltac:(lia) Hl).
      unfold m, n. nia.
    + intros k. unfold page_from_one. fold n. do 2 f_equal. unfold n. nia.
Qed.

Lemma search_pagination_witness :
  exists r,
    searchFiles (Fixtures.page_request 2 2) Fixtures.world_4
    = (Ok r, Fixtures.world_4)
    /\ page r = 2 /\ limit r = 2 /\ total r = 4 /\ totalPages r = 2
    /\ files r = map mapFileToResponse [Fixtures.file_c; Fixtures.file_d].
Proof.
  destruct (search_pagination (Fixtures.page_request 2 2) Fixtures.world_4)
    as (r & E & Hp & Hl & Hf & _ & Ht & Htp & _); [reflexivity|reflexivity|].
  exists r. rewrite Htp, Ht, Hf, Hl, Hp. split; [exact E|].
  vm_compute. repeat split; reflexivity.
Defined.

(** C3, as the specification words it, fails: with four matching rows, page 1
    of size 2 is the two newest rows, not the rows after the first
    [1 * 2]. *)
Lemma search_skip_is_not_page_times_size :
  ~ (forall params w r,
       searchFiles params w = (Ok r, w) ->
       files r
       = map mapFileToResponse
           (page_as_specified (page r) (limit r) (matching_rows params w))).
Proof.
  intros H.
  specialize (H (Fixtures.page_request 1 2) Fixtures.world_4 _
                (searchFiles_run (Fixtures.page_request 1 2) Fixtures.world_4
                   eq_refl eq_refl)).
  vm_compute in H. discriminate H.
Qed.




End SearchProps.

(** ** Files: upload *)

Module UploadProps.
Import FileService Spec.

Ltac run_storage :=
  unfold StorageService.fileExists, StorageService.uploadFile,
    StorageService.deleteFile, S3.headObject, S3.upload, S3.deleteObject,
    PreviewService.generatePreview, PreviewService.generateImagePreview,
    PreviewService.uploadPreview in *;
  run_M.

Lemma truthy_append_preview (s : string) : Js.truthy (s ++ "_preview.jpg") = true.
Proof. now destruct s. Qed.

(** The existence check of the storage service: it answers for an object that
    is there or is missing, and throws when the request fails otherwise. *)
Lemma fileExists_run env key w :
  StorageService.fileExists env key w
  = match headObject_fails env key with
    | Some msg => (Throw (Error ("Failed to check if file exists: " ++ msg)), w)
    | None => (Ok (match bucket w !! key with Some _ => true | None => false end), w)
    end.
Proof.
  run_storage. destruct (headObject_fails env key); [reflexivity|].
  now destruct (bucket w !! key).
Qed.

(** The check as [uploadFile] makes it, with its [.catch(() => false)]. *)
Lemma conflict_check_run env key w :
  try_catch (StorageService.fileExists env key) (fun _ => mret false) w
  = (Ok (exists_answer env w key), w).
Proof.
  unfold try_catch at 1. rewrite fileExists_run. unfold exists_answer.
  destruct (headObject_fails env key); [reflexivity|].
  now destruct (bucket w !! key).
Qed.

(** Every run of [uploadFile] is one of the outcomes. *)
Lemma uploadFile_outcome env data w :
  uploadFile env data w = upload_outcome env data w.
Proof.
  unfold uploadFile, upload_outcome.
  unfold mbind at 1, M_bind at 1, bind at 1.
  rewrite conflict_check_run.
  destruct (exists_answer env w (storageKey env data)); [reflexivity|].
  unfold is_image, sharp_preview, preview_key, new_row, preview_object, main_object.
  run_storage.
  destruct (upload_fails env (storageKey env data)) as [m|]; [reflexivity|].
  destruct (Js.startsWith (FileUploadData.mimetype data) "image/");
    [destruct (sharp_jpeg env _ _ _ _) as [preview|]|];
    run_storage;
    try (destruct (upload_fails env (storageKey env data ++ "_preview.jpg"));
         [reflexivity|]);
    run_storage; rewrite ?truthy_append_preview;
    now destruct (file_create_fails env (fileTable w)).
Qed.

Lemma append_neq (s t : string) c : s ++ String c t <> s.
Proof.
  induction s as [|a s IH]; [discriminate|].
  intros [= H]. now apply IH.
Qed.

Lemma preview_key_neq env data : preview_key env data <> storageKey env data.
Proof. apply append_neq. Qed.

(** After an upload that answered, an object is at its key. *)
Lemma uploadFile_Ok_stored env data w r w' :
  uploadFile env data w = (Ok r, w') ->
  bucket w' !! storageKey env data = Some (main_object env data).
Proof.
  rewrite uploadFile_outcome. unfold upload_outcome.
  destruct (exists_answer _ _ _); [discriminate|].
  destruct (upload_fails env (storageKey env data)); [discriminate|].
  destruct (if is_image data then _ else _).
  - destruct (upload_fails env (preview_key env data)); [discriminate|].
    destruct (file_create_fails _ _); [discriminate|].
    intros [= _ <-]. cbn.
    rewrite lookup_insert_ne by apply preview_key_neq.
    apply lookup_insert_eq.
  - destruct (file_create_fails _ _); [discriminate|].
    intros [= _ <-]. cbn. apply lookup_insert_eq.
Qed.

(** C8, as the code has it. When the bucket answers the existence check and an object is at the
    key of the upload, be it from before or from an earlier upload that
    resolved to the same key, the upload fails with status 409 and the world
    is as before: no object is written and no row is added. *)
Theorem upload_conflict env data w :
  headObject_fails env (storageKey env data) = None ->
  (is_Some (bucket w !! storageKey env data)
   \/ exists env0 data0 w0 r,
        uploadFile env0 data0 w0 = (Ok r, w)
        /\ storageKey env0 data0 = storageKey env data) ->
  exists e w',
    uploadFile env data w = (Throw e, w')
    /\ e = CustomError "A file with this name already exists" 409
    /\ statusCode_of e = 409
    /\ w' = w /\ bucket w' = bucket w /\ fileTable w' = fileTable w.
Proof.
  intros Hh Hex.
  assert (Hsome : is_Some (bucket w !! storageKey env data)).
  { destruct Hex as [H|(env0 & data0 & w0 & r & Hup & Hk)]; [exact H|].
    rewrite <- Hk. rewrite (uploadFile_Ok_stored _ _ _ _ _ Hup). eauto. }
  destruct Hsome as [o Ho].
  exists (CustomError "A file with this name already exists" 409), w.
  rewrite uploadFile_outcome. unfold upload_outcome, exists_answer.
  rewrite Hh, Ho. repeat split.
Qed.

(** C8, as the specification words it, fails: an object is at the key, the
    existence check is refused, and the upload answers with a file. *)
Lemma existing_object_overwritten_when_check_fails :
  ~ (forall env data w,
       is_Some (bucket w !! storageKey env data) ->
       exists e w', uploadFile env data w = (Throw e, w')
                    /\ statusCode_of e = 409 /\ w' = w).
Proof.
  intros H.
  destruct (H Fixtures.env_head_fails Fixtures.upload_report
              Fixtures.world_with_report) as (e & w' & Hup & _).
  - exists Fixtures.old_report. reflexivity.
  - vm_compute in Hup. discriminate Hup.
Qed.

Lemma upload_conflict_witness :
  exists r w1,
    uploadFile Fixtures.env_ok Fixtures.upload_report Fixtures.empty_world
    = (Ok r, w1)
    /\ uploadFile Fixtures.env_ok Fixtures.upload_report w1
       = (Throw (CustomError "A file with this name already exists" 409), w1).
Proof.
  destruct (uploadFile Fixtures.env_ok Fixtures.upload_report Fixtures.empty_world)
    as [[r|e] w1] eqn:E; [|vm_compute in E; discriminate E].
  exists r, w1. split; [reflexivity|].
  destruct (upload_conflict Fixtures.env_ok Fixtures.upload_report w1)
    as (e & w' & Hup & -> & _ & -> & _).
  - reflexivity.
  - right. exists Fixtures.env_ok, Fixtures.upload_report, Fixtures.empty_world, r.
    split; [exact E|reflexivity].
  - exact Hup.
Defined.

(** C9. When the existence check fails with an error other than a missing
    object, [fileExists] throws, [uploadFile] takes this for a free key: it
    never answers 409, it goes on to the write, and when the write goes
    through the object at the key is the new one, whatever was there. *)
Theorem upload_check_error_swallowed env data w msg :
  headObject_fails env (storageKey env data) = Some msg ->
  StorageService.fileExists env (storageKey env data) w
  = (Throw (Error ("Failed to check if file exists: " ++ msg)), w)
  /\ try_catch (StorageService.fileExists env (storageKey env data))
       (fun _ => mret false) w = (Ok false, w)
  /\ (forall e, fst (uploadFile env data w) = Throw e -> statusCode_of e <> 409)
  /\ (upload_fails env (storageKey env data) = None ->
      bucket (snd (uploadFile env data w)) !! storageKey env data
      = Some (main_object env data)).
Proof.
  intros Hh. split; [|split; [|split]].
  - rewrite fileExists_run. now rewrite Hh.
  - rewrite conflict_check_run. unfold exists_answer. now rewrite Hh.
  - intros e. rewrite uploadFile_outcome. unfold upload_outcome, exists_answer.
    rewrite Hh.
    destruct (upload_fails env (storageKey env data)); [now intros [= <-]|].
    destruct (if is_image data then _ else _).
    + destruct (upload_fails env (preview_key env data)); [now intros [= <-]|].
      destruct (file_create_fails _ _); [now intros [= <-]|discriminate].
    + destruct (file_create_fails _ _); [now intros [= <-]|discriminate].
  - intros Hput. rewrite uploadFile_outcome. unfold upload_outcome, exists_answer.
    rewrite Hh, Hput.
    destruct (if is_image data then _ else _).
    + destruct (upload_fails env (preview_key env data)); cbn;
        [apply lookup_insert_eq|].
      destruct (file_create_fails _ _); cbn;
        (rewrite lookup_insert_ne by apply preview_key_neq; apply lookup_insert_eq).
    + destruct (file_create_fails _ _); cbn; apply lookup_insert_eq.
Qed.

Lemma upload_check_error_swallowed_witness :
  bucket Fixtures.world_with_report !! "u1/files/report.PDF"
  = Some Fixtures.old_report
  /\ fst (uploadFile Fixtures.env_head_fails Fixtures.upload_report
            Fixtures.world_with_report)
     = Ok (mapFileToResponse
             (new_row Fixtures.env_head_fails Fixtures.upload_report None))
  /\ bucket (snd (uploadFile Fixtures.env_head_fails Fixtures.upload_report
                    Fixtures.world_with_report)) !! "u1/files/report.PDF"
     = Some (main_object Fixtures.env_head_fails Fixtures.upload_report).
Proof.
  destruct (upload_check_error_swallowed Fixtures.env_head_fails
              Fixtures.upload_report Fixtures.world_with_report "Forbidden")
    as (_ & _ & _ & Hb); [reflexivity|].
  split; [reflexivity|]. split; [reflexivity|].
  apply Hb. reflexivity.
Defined.

(** C1, as the code has it. For an upload of an image type whose key is
    free, whose bytes are written and whose row is created: when the image
    library makes a preview and the bucket takes it, the preview is at
    [{storageKey}_preview.jpg] and the file answers with that preview key;
    when the image library fails, the upload answers all the same, with a
    file without preview key, and no preview is written; when the bucket
    refuses the preview, the upload fails with the error of the preview
    (status 500) and no row is added. *)
Theorem image_preview_outcomes env data w :
  is_image data = true ->
  exists_answer env w (storageKey env data) = false ->
  upload_fails env (storageKey env data) = None ->
  file_create_fails env (fileTable w) = None ->
  (forall preview,
     sharp_preview env data = Some preview ->
     upload_fails env (preview_key env data) = None ->
     exists r w',
       uploadFile env data w = (Ok r, w')
       /\ FileResponse.previewKey r = Some (storageKey env data ++ "_preview.jpg")
       /\ bucket w' !! (storageKey env data ++ "_preview.jpg")
          = Some (preview_object env data preview)
       /\ fileTable w'
          = (fileTable w ++ [new_row env data (Some (preview_key env data))])%list)
  /\ (sharp_preview env data = None ->
      exists r w',
        uploadFile env data w = (Ok r, w')
        /\ FileResponse.previewKey r = None
        /\ bucket w' !! preview_key env data = bucket w !! preview_key env data
        /\ fileTable w' = (fileTable w ++ [new_row env data None])%list)
  /\ (forall preview m,
       sharp_preview env data = Some preview ->
       upload_fails env (preview_key env data) = Some m ->
       exists e w',
         uploadFile env data w = (Throw e, w')
         /\ e = Error "Failed to upload preview"
         /\ statusCode_of e = 500
         /\ fileTable w' = fileTable w
         /\ bucket w' = <[storageKey env data := main_object env data]> (bucket w)).
Proof.
  intros Himg Hfree Hput Hrow.
  rewrite uploadFile_outcome. unfold upload_outcome.
  rewrite Himg, Hfree, Hput, Hrow. split; [|split].
  - intros preview Hs Hp. rewrite Hs, Hp.
    eexists _, _. split; [reflexivity|]. cbn.
    unfold preview_key. rewrite truthy_append_preview.
    split; [reflexivity|]. split; [apply lookup_insert_eq|reflexivity].
  - intros Hs. rewrite Hs. eexists _, _. split; [reflexivity|]. cbn.
    split; [reflexivity|]. split; [|reflexivity].
    apply lookup_insert_ne. intros E. symmetry in E. now apply preview_key_neq in E.
  - intros preview m Hs Hp. rewrite Hs, Hp.
    eexists _, _. split; [reflexivity|]. repeat split.
Qed.

Lemma image_preview_outcomes_witness :
  (exists r w',
     uploadFile Fixtures.env_ok Fixtures.upload_cat Fixtures.empty_world = (Ok r, w')
     /\ FileResponse.previewKey r = Some "u1/image/cat.png_preview.jpg")
  /\ (exists r w',
        uploadFile Fixtures.env_sharp_fails Fixtures.upload_cat Fixtures.empty_world
        = (Ok r, w')
        /\ FileResponse.previewKey r = None).
Proof.
  split.
  - destruct (image_preview_outcomes Fixtures.env_ok Fixtures.upload_cat
                Fixtures.empty_world) as (H & _ & _);
      [reflexivity|reflexivity|reflexivity|reflexivity|].
    destruct (H [Byte.x89; Byte.x50; Byte.x4e]) as (r & w' & E & Hk & _);
      [reflexivity|reflexivity|].
    exists r, w'. split; [exact E|exact Hk].
  - destruct (image_preview_outcomes Fixtures.env_sharp_fails Fixtures.upload_cat
                Fixtures.empty_world) as (_ & H & _);
      [reflexivity|reflexivity|reflexivity|reflexivity|].
    destruct H as (r & w' & E & Hk & _); [reflexivity|].
    exists r, w'. split; [exact E|exact Hk].
Defined.

(** C1, as the specification words it, fails: the key is free, the bytes are
    written, the preview is made, the bucket refuses the preview, and the
    upload throws instead of answering with a file. *)
Lemma preview_store_failure_fails_upload :
  ~ (forall env data w,
       is_image data = true ->
       exists_answer env w (storageKey env data) = false ->
       upload_fails env (storageKey env data) = None ->
       file_create_fails env (fileTable w) = None ->
       exists r w', uploadFile env data w = (Ok r, w')).
Proof.
  intros H.
  destruct (H Fixtures.env_preview_store_fails Fixtures.upload_cat
              Fixtures.empty_world) as (r & w' & Hup);
    try reflexivity.
  vm_compute in Hup. discriminate Hup.
Qed.

(** *** Names *)

Lemma drop_alnum_In c l : In c (Js.drop_alnum l) -> In c l.
Proof.
  induction l as [|x l IH]; cbn; [contradiction|].
  destruct (Js.is_alnum x); [right; now apply IH|exact id].
Qed.

(** A name with an extension has a dot. *)
Lemma test_ext_dot s :
  Js.test_ext s = true -> In "."%char (list_ascii_of_string s).
Proof.
  unfold Js.test_ext. rewrite !andb_true_iff. intros [_ H].
  destruct (Js.drop_alnum (rev (list_ascii_of_string s))) as [|c r] eqn:E;
    [discriminate|].
  apply Ascii.eqb_eq in H. subst c.
  apply in_rev. apply drop_alnum_In. rewrite E. now left.
Qed.

Lemma list_ascii_of_append (a b : string) :
  list_ascii_of_string (a ++ b)
  = (list_ascii_of_string a ++ list_ascii_of_string b)%list.
Proof.
  induction a as [|c a IH]; [reflexivity|].
  change (String c a ++ b) with (String c (a ++ b)). cbn. now rewrite IH.
Qed.

Lemma uuid_text_no_dot u :
  uuid_text u = true -> ~ In "."%char (list_ascii_of_string u).
Proof.
  unfold uuid_text. rewrite forallb_forall. intros H Hin.
  now specialize (H _ Hin).
Qed.

Lemma fallback_name_no_ext u : uuid_text u = true -> Js.test_ext ("file-" ++ u) = false.
Proof.
  intros Hu. destruct (Js.test_ext ("file-" ++ u)) eqn:E; [|reflexivity].
  apply test_ext_dot in E. rewrite list_ascii_of_append in E.
  apply in_app_iff in E as [E|E].
  - cbn in E. intuition discriminate.
  - now apply uuid_text_no_dot in E.
Qed.

(** The upload of [env] and [data] in a world where nothing refuses it. *)
Lemma uploadFile_succeeds env data w :
  exists_answer env w (storageKey env data) = false ->
  upload_fails env (storageKey env data) = None ->
  upload_fails env (preview_key env data) = None ->
  file_create_fails env (fileTable w) = None ->
  exists r w',
    uploadFile env data w = (Ok r, w')
    /\ FileResponse.name r = finalName env data
    /\ FileResponse.storageKey r = storageKey env data.
Proof.
  intros Hfree Hput Hprev Hrow.
  rewrite uploadFile_outcome. unfold upload_outcome.
  rewrite Hfree, Hput, Hprev, Hrow.
  destruct (if is_image data then _ else _); eexists _, _; repeat split.
Qed.

(** C10. An upload without desired name whose original name is empty takes
    [file-{fileId}] as its base name, [fileId] being the UUID made for the
    upload; the final name is the base name, with a dot and the extension of
    the type when the type has one; the storage key is
    [{ownerId}/{category}/{finalName}]; and the upload, where nothing else
    refuses it, answers with a file under that name and key. *)
Theorem nameless_upload_falls_back env data :
  FileUploadData.name data = None ->
  FileUploadData.originalname data = "" ->
  uuid_text (uuidv4 env) = true ->
  sanitizedBase env data = "file-" ++ fileId env
  /\ fileId env = uuidv4 env
  /\ (forall e, mime_extension env (FileUploadData.mimetype data) = Some e ->
       e <> "" ->
       finalName env data = ("file-" ++ uuidv4 env) ++ "." ++ e)
  /\ (mime_extension env (FileUploadData.mimetype data) = None ->
      finalName env data = "file-" ++ uuidv4 env)
  /\ storageKey env data
     = FileUploadData.userId data ++ "/" ++ category data ++ "/"
       ++ finalName env data
  /\ (forall w,
       exists_answer env w (storageKey env data) = false ->
       upload_fails env (storageKey env data) = None ->
       upload_fails env (preview_key env data) = None ->
       file_create_fails env (fileTable w) = None ->
       exists r w',
         uploadFile env data w = (Ok r, w')
         /\ FileResponse.name r = finalName env data
         /\ FileResponse.storageKey r = storageKey env data).
Proof.
  intros Hname Horig Hu.
  assert (Hbase : sanitizedBase env data = "file-" ++ uuidv4 env).
  { unfold sanitizedBase, providedName. now rewrite Hname, Horig. }
  assert (Hext : hasExt env data = false).
  { unfold hasExt. rewrite Hbase. now apply fallback_name_no_ext. }
  split; [exact Hbase|]. split; [reflexivity|].
  split; [|split; [|split; [reflexivity|]]].
  - intros e He Hne. unfold finalName, extension. rewrite Hext, He, Hbase.
    destruct e; [congruence|reflexivity].
  - intros He. unfold finalName, extension. now rewrite Hext, He, Hbase.
  - intros w. apply uploadFile_succeeds.
Qed.

Lemma nameless_upload_falls_back_witness :
  finalName Fixtures.env_ok Fixtures.upload_nameless
  = "file-123e4567-e89b-42d3-a456-426614174000.png"
  /\ storageKey Fixtures.env_ok Fixtures.upload_nameless
     = "u1/image/file-123e4567-e89b-42d3-a456-426614174000.png"
  /\ exists r w',
       uploadFile Fixtures.env_ok Fixtures.upload_nameless Fixtures.empty_world
       = (Ok r, w')
       /\ FileResponse.storageKey r
          = "u1/image/file-123e4567-e89b-42d3-a456-426614174000.png".
Proof.
  destruct (nameless_upload_falls_back Fixtures.env_ok Fixtures.upload_nameless)
    as (_ & _ & Hf & _ & Hk & Hup); [reflexivity|reflexivity|reflexivity|].
  split; [apply (Hf "png"); [reflexivity|discriminate]|].
  split; [rewrite Hk; reflexivity|].
  destruct (Hup Fixtures.empty_world) as (r & w' & E & _ & Hr);
    [reflexivity|reflexivity|reflexivity|reflexivity|].
  exists r, w'. split; [exact E|]. rewrite Hr, Hk. reflexivity.
Defined.

Lemma category_cases data :
  (is_image data = true -> category data = "image")
  /\ (is_image data = false ->
      Js.startsWith (FileUploadData.mimetype data) "video/" = true ->
      category data = "video")
  /\ (is_image data = false ->
      Js.startsWith (FileUploadData.mimetype data) "video/" = false ->
      category data = "files").
Proof.
  unfold category, is_image.
  destruct (Js.startsWith _ "image/"), (Js.startsWith _ "video/");
    repeat split; congruence.
Qed.

(** No path separator is left by [replace_sep]. *)
Lemma replace_sep_clean s c :
  In c (list_ascii_of_string (Js.replace_sep s)) -> c <> "/"%char /\ c <> "\"%char.
Proof.
  induction s as [|a s IH]; cbn; [contradiction|].
  intros [<-|H]; [|now apply IH].
  destruct (Ascii.eqb a "/") eqn:E1; cbn; [split; discriminate|].
  destruct (Ascii.eqb a "\") eqn:E2; cbn; [split; discriminate|].
  apply Ascii.eqb_neq in E1, E2. now split.
Qed.

(** C4, as the code has it. For every upload whose preferred name, the
    desired name when it is given and not empty and the original name
    otherwise, is not blank: the final name is that name with leading and
    trailing white space removed, every run of white space collapsed to one
    space and every path separator replaced by a dash, followed by a dot and
    the extension of the type only when this base does not end in a dot and
    one to ten letters or digits and the type has an extension; the storage
    key is [{ownerId}/{category}/{finalName}], with category [image] for
    [image/*], [video] for [video/*] and [files] otherwise. *)
Theorem upload_name_resolution env data :
  Js.trim (preferred_name data) <> "" ->
  finalName env data = with_extension env data (sanitize_name (preferred_name data))
  /\ (forall n, FileUploadData.name data = Some n -> n <> "" ->
       preferred_name data = n)
  /\ (FileUploadData.name data = None ->
      preferred_name data = FileUploadData.originalname data)
  /\ (forall c, In c (list_ascii_of_string (sanitize_name (preferred_name data))) ->
       c <> "/"%char /\ c <> "\"%char)
  /\ (forall base, Js.test_ext base = true -> with_extension env data base = base)
  /\ (forall base e, Js.test_ext base = false ->
       mime_extension env (FileUploadData.mimetype data) = Some e -> e <> "" ->
       with_extension env data base = base ++ "." ++ e)
  /\ (forall base, Js.test_ext base = false ->
       mime_extension env (FileUploadData.mimetype data) = None ->
       with_extension env data base = base)
  /\ storageKey env data
     = FileUploadData.userId data ++ "/" ++ category data ++ "/"
       ++ finalName env data
  /\ (is_image data = true -> category data = "image")
  /\ (is_image data = false ->
      Js.startsWith (FileUploadData.mimetype data) "video/" = true ->
      category data = "video")
  /\ (is_image data = false ->
      Js.startsWith (FileUploadData.mimetype data) "video/" = false ->
      category data = "files").
Proof.
  intros Hne.
  assert (Hp : providedName data = Js.trim (preferred_name data)).
  { unfold providedName, preferred_name.
    destruct (FileUploadData.name data) as [n|]; cbn;
      [destruct n; cbn|]; now destruct (FileUploadData.originalname data). }
  assert (Hb : sanitizedBase env data = sanitize_name (preferred_name data)).
  { unfold sanitizedBase, sanitize_name. rewrite Hp.
    destruct (Js.trim (preferred_name data)); [congruence|reflexivity]. }
  split; [|split; [|split; [|split; [|split; [|split; [|split; [|split]]]]]]].
  - unfold finalName, hasExt, extension, with_extension. rewrite Hb.
    destruct (Js.test_ext _); [reflexivity|].
    now destruct (mime_extension env (FileUploadData.mimetype data)).
  - intros n Hn Hnn. unfold preferred_name. rewrite Hn. cbn.
    destruct n; [congruence|reflexivity].
  - intros Hn. unfold preferred_name. now rewrite Hn.
  - intros c. apply replace_sep_clean.
  - intros base Hx. unfold with_extension. now rewrite Hx.
  - intros base e Hx He Hne'. unfold with_extension. rewrite Hx, He.
    destruct e; [congruence|reflexivity].
  - intros base Hx He. unfold with_extension. now rewrite Hx, He.
  - reflexivity.
  - apply category_cases.
Qed.

(** The scenario of the specification: [report.PDF] without desired name,
    owner [u1]. *)
Lemma upload_name_resolution_witness :
  finalName Fixtures.env_ok Fixtures.upload_report = "report.PDF"
  /\ storageKey Fixtures.env_ok Fixtures.upload_report = "u1/files/report.PDF".
Proof.
  destruct (upload_name_resolution Fixtures.env_ok Fixtures.upload_report)
    as (Hf & _ & _ & _ & Hx & _ & _ & Hk & _ & _ & Hc); [vm_compute; discriminate|].
  assert (Hn : finalName Fixtures.env_ok Fixtures.upload_report = "report.PDF").
  { rewrite Hf. apply Hx. reflexivity. }
  split; [exact Hn|]. rewrite Hk, Hn, Hc; reflexivity.
Defined.

(** C4, as the specification words it, fails. With a desired name that is
    blank (one space) the original name is taken as it is: the final name
    [my  file.txt] is the sanitized form neither of the desired name nor of
    the original name, whose white space would be collapsed. *)
Lemma blank_desired_name_skips_sanitizing :
  ~ (forall env data,
       exists n,
         (FileUploadData.name data = Some n \/ FileUploadData.originalname data = n)
         /\ finalName env data = with_extension env data (sanitize_name n)).
Proof.
  intros H.
  destruct (H Fixtures.env_ok Fixtures.upload_blank_name) as (n & [Hn|Hn] & Hf).
  - injection Hn as <-. vm_compute in Hf. discriminate Hf.
  - cbn in Hn. subst n. vm_compute in Hf. discriminate Hf.
Qed.

(** The same with a path separator in the original name: it stays in the
    storage key. *)
Lemma blank_desired_name_keeps_separator env :
  finalName env Fixtures.upload_blank_name = "my  file.txt"
  /\ storageKey env Fixtures.upload_blank_name = "u1/files/my  file.txt"
  /\ storageKey env Fixtures.upload_blank_name_path = "u1/files/a/b.txt".
Proof. repeat split; reflexivity. Qed.

End UploadProps.

(** ** Files: the trash view, reading one file, signed URLs *)

Module FileViewProps.
Import FileService Spec.

Lemma trash_view_matches u f :
  Prisma.file_matches (listFiles_where u true) f = true <-> in_trash_view u f.
Proof.
  unfold in_trash_view. cbn.
  rewrite !andb_true_r, !andb_true_iff, String_eqb_true, Bool_eqb_true.
  destruct (File.folder f) as [d|]; cbn.
  - rewrite orb_false_r, negb_true_iff, String.eqb_neq. split.
    + intros [[-> ->] H]. repeat split. congruence.
    + intros (-> & -> & H). repeat split. congruence.
  - split; [intros [[-> ->] _]|intros (-> & -> & _)]; repeat split; congruence.
Qed.

Lemma listFiles_trash u w :
  exists l, listFiles u true w = (Ok l, w)
    /\ forall r, In r l <->
         exists f, In f (fileTable w) /\ in_trash_view u f
                   /\ r = mapFileToResponse f.
Proof.
  unfold listFiles. run_M. eexists. split; [reflexivity|].
  intros r. rewrite in_map_iff. split.
  - intros (f & <- & Hf).
    apply (Permutation_in _ (TrashProps.orderBy_perm _)) in Hf.
    apply filter_In in Hf as [Hf Hm]. apply trash_view_matches in Hm. eauto.
  - intros (f & Hf & Hv & ->). exists f. split; [reflexivity|].
    apply (Permutation_in _ (Permutation_sym (TrashProps.orderBy_perm _))).
    apply filter_In. split; [assumption|]. now apply trash_view_matches.
Qed.

(** X1. The listing of the trash has exactly the deleted rows of the user
    whose folder is not the sentinel [__hidden_trash], the rows without
    folder among them, and changes nothing. *)
Theorem trash_listing u w :
  exists l, listFiles u true w = (Ok l, w)
    /\ forall r, In r l <->
         exists f, In f (fileTable w) /\ File.ownerId f = u
                   /\ File.isDeleted f = true
                   /\ File.folder f <> Some "__hidden_trash"
                   /\ r = mapFileToResponse f.
Proof.
  destruct (listFiles_trash u w) as (l & Hl & H). exists l.
  split; [exact Hl|]. intros r. rewrite H. unfold in_trash_view.
  split; intros (f & Hf); exists f; tauto.
Qed.

Lemma hide_row_spec env f :
  same_but_folder (hide_row env f) f
  /\ File.folder (hide_row env f) = Some "__hidden_trash".
Proof.
  unfold hide_row, same_but_folder, Prisma.file.written.
  destruct (schema_updatedAt env); cbn; tauto.
Qed.

Lemma hide_row_purgeable env u ids f :
  purgeable u ids (hide_row env f) = purgeable u ids f.
Proof.
  unfold purgeable, hide_row, Prisma.file.written.
  now destruct (schema_updatedAt env).
Qed.

Lemma hideDeletedFiles_run env u ids w :
  hideDeletedFiles env u ids w
  = (Ok (Z.of_nat (List.length (List.filter (purgeable u ids) (fileTable w)))),
     mkWorld (bucket w) (hidden_table env u ids (fileTable w)) (shareTable w)).
Proof.
  unfold hideDeletedFiles. run_M. unfold hidden_table, hide_row.
  f_equal.
  - do 3 f_equal. apply filter_ext. intros f. apply PurgeProps.trash_where_matches.
  - f_equal. apply map_ext. intros f. now rewrite PurgeProps.trash_where_matches.
Qed.

Lemma purgeable_true u ids f :
  purgeable u ids f = true
  <-> File.ownerId f = u /\ In (File.id f) ids /\ File.isDeleted f = true.
Proof.
  unfold purgeable.
  now rewrite !andb_true_iff, String_eqb_true, PurgeProps.string_in_In.
Qed.

Lemma hidden_table_In env u ids t g :
  In g (hidden_table env u ids t) <->
  (In g t /\ purgeable u ids g = false)
  \/ exists f, In f t /\ purgeable u ids f = true /\ g = hide_row env f.
Proof.
  unfold hidden_table. rewrite in_map_iff. split.
  - intros (f & Hg & Hf). destruct (purgeable u ids f) eqn:E.
    + right. eauto.
    + left. subst g. auto.
  - intros [[Hg E]|(f & Hf & E & ->)].
    + exists g. now rewrite E.
    + exists f. now rewrite E.
Qed.

(** X2. Hiding rewrites exactly the rows that are owned by the caller, listed
    and in the trash: each gets the sentinel folder and is otherwise as it
    was (still deleted, still the caller's); every other row, the bucket and
    the shares are untouched, and the count is the number of rows
    rewritten. *)
Theorem hide_marks_only_trash env u ids w :
  exists n w',
    hideDeletedFiles env u ids w = (Ok n, w')
    /\ n = Z.of_nat (List.length (List.filter (purgeable u ids) (fileTable w)))
    /\ bucket w' = bucket w /\ shareTable w' = shareTable w
    /\ map File.id (fileTable w') = map File.id (fileTable w)
    /\ (forall f, In f (fileTable w) ->
         ~ (File.ownerId f = u /\ In (File.id f) ids /\ File.isDeleted f = true) ->
         In f (fileTable w'))
    /\ (forall f, In f (fileTable w) ->
         File.ownerId f = u -> In (File.id f) ids -> File.isDeleted f = true ->
         exists g, In g (fileTable w') /\ same_but_folder g f
                   /\ File.folder g = Some "__hidden_trash")
    /\ (forall g, In g (fileTable w') ->
         In g (fileTable w)
         \/ exists f, In f (fileTable w) /\ File.ownerId f = u
                      /\ In (File.id f) ids /\ File.isDeleted f = true
                      /\ same_but_folder g f
                      /\ File.folder g = Some "__hidden_trash").
Proof.
  eexists _, _. split; [apply hideDeletedFiles_run|].
  cbn [bucket fileTable shareTable].
  split; [reflexivity|]. split; [reflexivity|]. split; [reflexivity|].
  split; [|split; [|split]].
  - unfold hidden_table. rewrite map_map. apply map_ext. intros f.
    destruct (purgeable u ids f); [|reflexivity].
    now destruct (hide_row_spec env f) as [(-> & _) _].
  - intros f Hf Hn. apply hidden_table_In. left. split; [assumption|].
    destruct (purgeable u ids f) eqn:E; [|reflexivity].
    apply purgeable_true in E. tauto.
  - intros f Hf Ho Hi Hd. exists (hide_row env f).
    destruct (hide_row_spec env f) as [Hs Hfo]. repeat split; try apply Hs; auto.
    apply hidden_table_In. right. exists f. repeat split; auto.
    apply purgeable_true. auto.
  - intros g Hg. apply hidden_table_In in Hg as [[Hg _]|(f & Hf & E & ->)].
    + now left.
    + right. exists f. apply purgeable_true in E as (Ho & Hi & Hd).
      destruct (hide_row_spec env f) as [Hs Hfo]. auto 10.
Qed.

(** X3. After hiding, the listing of the trash has none of the listed files,
    and has every other file it had before. *)
Theorem hidden_rows_leave_trash_view env u ids w :
  exists n w' l l',
    hideDeletedFiles env u ids w = (Ok n, w')
    /\ listFiles u true w = (Ok l, w)
    /\ listFiles u true w' = (Ok l', w')
    /\ forall r, In r l' <-> In r l /\ ~ In (FileResponse.id r) ids.
Proof.
  destruct (listFiles_trash u w) as (l & Hl & Hspec).
  set (w' := mkWorld (bucket w) (hidden_table env u ids (fileTable w)) (shareTable w)).
  destruct (listFiles_trash u w') as (l' & Hl' & Hspec').
  eexists _, w', l, l'. split; [apply hideDeletedFiles_run|].
  split; [exact Hl|]. split; [exact Hl'|].
  intros r. rewrite Hspec, Hspec'. cbn [fileTable w']. split.
  - intros (g & Hg & Hv & ->).
    apply hidden_table_In in Hg as [[Hg E]|(f & Hf & E & ->)].
    + split; [eauto|]. cbn. intros Hin.
      destruct Hv as (Ho & Hd & _).
      assert (purgeable u ids g = true) by (apply purgeable_true; auto).
      congruence.
    + exfalso. destruct Hv as (_ & _ & Hfo). apply Hfo.
      apply (hide_row_spec env f).
  - intros [(f & Hf & Hv & ->) Hn]. exists f. split; [|auto].
    apply hidden_table_In. left. split; [assumption|].
    destruct (purgeable u ids f) eqn:E; [|reflexivity].
    apply purgeable_true in E. cbn in Hn. tauto.
Qed.

Lemma hidden_table_purge env u ids t :
  List.filter (fun f => negb (purgeable u ids f)) (hidden_table env u ids t)
  = List.filter (fun f => negb (purgeable u ids f)) t
  /\ List.length (List.filter (purgeable u ids) (hidden_table env u ids t))
     = List.length (List.filter (purgeable u ids) t).
Proof.
  unfold hidden_table.
  induction t as [|f t [IH1 IH2]]; [split; reflexivity|].
  cbn [map List.filter]. destruct (purgeable u ids f) eqn:E.
  - rewrite hide_row_purgeable, E. cbn [negb List.length].
    split; [exact IH1|now rewrite IH2].
  - rewrite E. cbn [negb List.length]. split; [now rewrite IH1|exact IH2].
Qed.

(** X4. Hidden files are still purged: a purge of the same list after hiding
    removes as many rows as were hidden and leaves the table that a purge
    without hiding leaves. *)
Theorem hidden_rows_still_purged env env' u ids w :
  ids <> [] ->
  exists n w1 m w2,
    hideDeletedFiles env u ids w = (Ok n, w1)
    /\ permanentlyDeleteFiles env' u ids w1 = (Ok m, w2)
    /\ m = n
    /\ fileTable w2
       = List.filter (fun f => negb (purgeable u ids f)) (fileTable w).
Proof.
  intros Hne.
  set (w1 := mkWorld (bucket w) (hidden_table env u ids (fileTable w)) (shareTable w)).
  destruct (PurgeProps.permanentlyDeleteFiles_run env' u ids w1 Hne) as (b & E & _).
  destruct (hidden_table_purge env u ids (fileTable w)) as [H1 H2].
  eexists _, w1, _, _. split; [apply hideDeletedFiles_run|].
  split; [exact E|]. cbn [fileTable w1]. split; [now rewrite H2|exact H1].
Qed.

Lemma hidden_rows_still_purged_witness :
  exists w1 w2,
    hideDeletedFiles Fixtures.env_ok "u1" ["f"; "a"] Fixtures.world_6 = (Ok 1, w1)
    /\ permanentlyDeleteFiles Fixtures.env_ok "u1" ["f"; "a"] w1 = (Ok 1, w2)
    /\ map File.id (fileTable w2) = ["a"; "b"; "c"; "d"; "t"; "o"].
Proof.
  destruct (hidden_rows_still_purged Fixtures.env_ok Fixtures.env_ok "u1" ["f"; "a"]
              Fixtures.world_6) as (n & w1 & m & w2 & Hh & Hp & -> & Ht);
    [discriminate|].
  exists w1, w2. rewrite Ht.
  rewrite hideDeletedFiles_run in Hh. injection Hh as <- <-.
  split; [reflexivity|]. split; [exact Hp|reflexivity].
Defined.

(** X5. Hiding overwrites the folder, and a restore does not bring it back:
    a file of the trash that is hidden and then restored is live again, in
    the listing of the owner's files, with the sentinel [__hidden_trash] as
    its folder whatever its folder was. *)
Theorem restore_after_hide_keeps_sentinel env env2 f ids w :
  unique_file_ids w -> In f (fileTable w) -> File.isDeleted f = true ->
  In (File.id f) ids ->
  exists n w1 w2 f',
    hideDeletedFiles env (File.ownerId f) ids w = (Ok n, w1)
    /\ restoreFile env2 (File.id f) (File.ownerId f) w1 = (Ok tt, w2)
    /\ In f' (fileTable w2)
    /\ File.id f' = File.id f
    /\ File.isDeleted f' = false /\ File.deletedAt f' = None
    /\ File.folder f' = Some "__hidden_trash"
    /\ exists l, listFiles (File.ownerId f) false w2 = (Ok l, w2)
                 /\ In (mapFileToResponse f') l
                 /\ FileResponse.folder (mapFileToResponse f')
                    = Some "__hidden_trash".
Proof.
  intros Hu Hf Hd Hi.
  set (u := File.ownerId f). set (i := File.id f).
  set (w1 := mkWorld (bucket w) (hidden_table env u ids (fileTable w)) (shareTable w)).
  destruct (hide_row_spec env f) as [Hs Hfo].
  assert (Hp : purgeable u ids f = true) by (apply purgeable_true; auto).
  assert (Hin1 : In (hide_row env f) (fileTable w1)).
  { apply hidden_table_In. right. eauto. }
  assert (Hu1 : unique_file_ids w1).
  { unfold unique_file_ids, w1. cbn [fileTable]. unfold hidden_table.
    rewrite map_map.
    erewrite map_ext; [exact Hu|]. intros x. cbn.
    destruct (purgeable u ids x); [|reflexivity].
    now destruct (hide_row_spec env x) as [(-> & _) _]. }
  assert (Hrow : has_row w1 i u true).
  { exists (hide_row env f). split; [exact Hin1|].
    destruct Hs as (-> & _ & _ & _ & _ & _ & _ & _ & -> & _ & -> & _). auto. }
  set (f' := Prisma.file.written env2 (set_deleted false None) (hide_row env f)).
  assert (Hf' : File.id f' = i /\ File.isDeleted f' = false
                /\ File.deletedAt f' = None
                /\ File.folder f' = Some "__hidden_trash"
                /\ File.ownerId f' = u).
  { unfold f', Prisma.file.written.
    destruct Hs as (Hid & _ & _ & _ & _ & _ & _ & _ & _ & _ & Ho & _).
    destruct (schema_updatedAt env2); cbn; auto. }
  destruct Hf' as (Hid' & Hd' & Ha' & Hfo' & Ho').
  assert (Hin2 : In f' (fileTable (rewritten env2 i (set_deleted false None) w1))).
  { cbn [rewritten fileTable]. apply in_map_iff. exists (hide_row env f).
    split; [|exact Hin1].
    destruct Hs as (-> & _). fold i. now rewrite String.eqb_refl. }
  eexists _, w1, _, f'. split; [apply hideDeletedFiles_run|].
  split; [now apply TrashProps.restoreFile_Ok|].
  split; [exact Hin2|]. repeat (split; [assumption|]).
  destruct (TrashProps.listFiles_live u (rewritten env2 i (set_deleted false None) w1))
    as (l & Hl & Hspec).
  exists l. split; [exact Hl|]. split.
  - apply Hspec. exists f'. auto.
  - cbn. now rewrite Hfo'.
Qed.

Lemma restore_after_hide_keeps_sentinel_witness :
  File.folder Fixtures.file_f = Some "documents"
  /\ exists w1 w2 f',
       hideDeletedFiles Fixtures.env_ok "u1" ["f"] Fixtures.world_6 = (Ok 1, w1)
       /\ restoreFile Fixtures.env_ok "f" "u1" w1 = (Ok tt, w2)
       /\ In f' (fileTable w2) /\ File.id f' = "f"
       /\ File.isDeleted f' = false
       /\ File.folder f' = Some "__hidden_trash".
Proof.
  split; [reflexivity|].
  destruct (restore_after_hide_keeps_sentinel Fixtures.env_ok Fixtures.env_ok
              Fixtures.file_f ["f"] Fixtures.world_6)
    as (n & w1 & w2 & f' & Hh & Hr & Hin & Hid & Hd & _ & Hfo & _).
  - repeat (constructor; [cbn; intuition discriminate|]). constructor.
  - cbn. tauto.
  - reflexivity.
  - cbn. now left.
  - exists w1, w2, f'. rewrite hideDeletedFiles_run in Hh.
    injection Hh as <- <-. repeat split; auto.
Defined.

(** *** Reading one file *)

Lemma read_where_matches i u d f :
  Prisma.file_matches (read_where i u d) f = true <-> readable i u d f.
Proof.
  unfold readable. destruct d; cbn;
    rewrite !andb_true_r, !andb_true_iff, !String_eqb_true.
  - intuition congruence.
  - rewrite Bool_eqb_true. intuition congruence.
Qed.

Lemma getFileById_run i u d w :
  getFileById i u d w
  = match find (Prisma.file_matches (read_where i u d)) (fileTable w) with
    | Some f => (Ok (mapFileToResponse f), w)
    | None => (Throw (CustomError "File not found" 404), w)
    end.
Proof.
  unfold getFileById. run_M. fold (read_where i u d).
  now destruct (find _ _).
Qed.

Lemma getFileById_Ok i u d w r w' :
  getFileById i u d w = (Ok r, w') ->
  w' = w /\ exists f, In f (fileTable w) /\ readable i u d f
                      /\ r = mapFileToResponse f.
Proof.
  rewrite getFileById_run.
  destruct (find _ _) as [f|] eqn:E; [|discriminate].
  intros [= <- <-]. split; [reflexivity|].
  apply find_some in E as [Hf Hm]. apply read_where_matches in Hm. eauto.
Qed.

Lemma getFileById_missing i u d w :
  ~ (exists f, In f (fileTable w) /\ readable i u d f) ->
  getFileById i u d w = (Throw (CustomError "File not found" 404), w).
Proof.
  intros Hn. rewrite getFileById_run.
  destruct (find _ _) as [f|] eqn:E; [|reflexivity].
  exfalso. apply Hn. apply find_some in E as [Hf Hm].
  apply read_where_matches in Hm. eauto.
Qed.

Lemma getFileById_unique i u d w f :
  unique_file_ids w -> In f (fileTable w) -> readable i u d f ->
  getFileById i u d w = (Ok (mapFileToResponse f), w).
Proof.
  intros Hu Hf Hr. rewrite getFileById_run.
  destruct (find _ _) as [g|] eqn:E.
  - apply find_some in E as [Hg Hm]. apply read_where_matches in Hm.
    assert (g = f) as ->; [|reflexivity].
    apply (unique_column File.id (fileTable w)); auto.
    destruct Hm as [-> _], Hr as [-> _]. reflexivity.
  - pose proof (find_none _ _ E f Hf) as Hn.
    apply read_where_matches in Hr. congruence.
Qed.

(** X6. Reading a file by id answers only with a row of that id that the
    caller owns (and that is not deleted, unless deleted rows are asked
    for), answers whenever there is one, changes nothing, and fails in every
    other case with the same error, status 404: the file of another user is
    refused exactly like a file that does not exist. *)
Theorem getFileById_scoped i u d w :
  (forall r w', getFileById i u d w = (Ok r, w') ->
     w' = w /\ exists f, In f (fileTable w) /\ File.id f = i
                         /\ File.ownerId f = u
                         /\ (d = false -> File.isDeleted f = false)
                         /\ r = mapFileToResponse f)
  /\ ((exists f, In f (fileTable w) /\ File.id f = i /\ File.ownerId f = u
                 /\ (d = false -> File.isDeleted f = false)) ->
      exists r, getFileById i u d w = (Ok r, w))
  /\ (forall e w', getFileById i u d w = (Throw e, w') ->
       e = CustomError "File not found" 404 /\ w' = w)
  /\ (forall f, unique_file_ids w -> In f (fileTable w) -> File.ownerId f <> u ->
       getFileById (File.id f) u d w
       = (Throw (CustomError "File not found" 404), w)).
Proof.
  split; [|split; [|split]].
  - intros r w' H. apply getFileById_Ok in H as (-> & f & Hf & Hr & ->).
    split; [reflexivity|]. exists f. unfold readable in Hr. tauto.
  - intros (f & Hf & Hr). rewrite getFileById_run.
    destruct (find _ _) as [g|] eqn:E; [eauto|].
    pose proof (find_none _ _ E f Hf) as Hn.
    assert (Prisma.file_matches (read_where i u d) f = true)
      by (apply read_where_matches; exact Hr).
    congruence.
  - intros e w'. rewrite getFileById_run.
    destruct (find _ _); [discriminate|]. now intros [= <- <-].
  - intros f Hu Hf Ho. apply getFileById_missing.
    intros (g & Hg & Hid & Hog & _). apply Ho.
    now rewrite <- (unique_column File.id (fileTable w) g f Hu Hg Hf Hid).
Qed.

Lemma getFileById_scoped_witness :
  getFileById "o" "u1" false Fixtures.world_6
  = (Throw (CustomError "File not found" 404), Fixtures.world_6)
  /\ getFileById "nothing" "u1" false Fixtures.world_6
     = (Throw (CustomError "File not found" 404), Fixtures.world_6)
  /\ exists r, getFileById "o" "u2" false Fixtures.world_6 = (Ok r, Fixtures.world_6).
Proof.
  destruct (getFileById_scoped "o" "u1" false Fixtures.world_6) as (_ & _ & _ & H).
  destruct (getFileById_scoped "o" "u2" false Fixtures.world_6) as (_ & H2 & _).
  split; [|split; [reflexivity|]].
  - apply (H Fixtures.file_o).
    + repeat (constructor; [cbn; intuition discriminate|]). constructor.
    + cbn. tauto.
    + discriminate.
  - apply H2. exists Fixtures.file_o. cbn. tauto.
Defined.

(** X7. A soft-deleted file can no longer be read by its id, but is read
    when deleted rows are asked for, with its storage key as before. *)
Theorem deleted_file_read_only_on_request env f w :
  unique_file_ids w -> In f (fileTable w) -> File.isDeleted f = false ->
  exists w1 r,
    deleteFile env (File.id f) (File.ownerId f) w = (Ok tt, w1)
    /\ getFileById (File.id f) (File.ownerId f) false w1
       = (Throw (CustomError "File not found" 404), w1)
    /\ getFileById (File.id f) (File.ownerId f) true w1 = (Ok r, w1)
    /\ FileResponse.id r = File.id f
    /\ FileResponse.storageKey r = File.storageKey f
    /\ FileResponse.originalName r = File.originalName f.
Proof.
  intros Hu Hf Hd.
  set (i := File.id f). set (u := File.ownerId f).
  set (d1 := set_deleted true (Some (clock env))).
  set (w1 := rewritten env i d1 w).
  set (f1 := Prisma.file.written env d1 f).
  assert (Hf1 : File.id f1 = i /\ File.ownerId f1 = u /\ File.isDeleted f1 = true
                /\ File.storageKey f1 = File.storageKey f
                /\ File.originalName f1 = File.originalName f).
  { unfold f1, Prisma.file.written. destruct (schema_updatedAt env); cbn; auto. }
  assert (Hu1 : unique_file_ids w1).
  { unfold unique_file_ids, w1. now rewrite TrashProps.rewritten_ids. }
  assert (Hin1 : In f1 (fileTable w1)).
  { cbn. apply in_map_iff. exists f. split; [|assumption].
    fold i. now rewrite String.eqb_refl. }
  exists w1, (mapFileToResponse f1).
  split; [apply TrashProps.deleteFile_Ok; [assumption|exists f; auto]|].
  split; [|split; [|cbn; tauto]].
  - apply getFileById_missing. intros (g & Hg & Hid & Hog & Hl).
    assert (g = f1) as ->.
    { apply (unique_column File.id (fileTable w1)); auto.
      destruct Hf1 as [-> _]. exact Hid. }
    destruct Hf1 as (_ & _ & Hdel & _). rewrite (Hl eq_refl) in Hdel. discriminate.
  - apply getFileById_unique; auto. unfold readable.
    destruct Hf1 as (-> & -> & _). repeat split. discriminate.
Qed.

Lemma deleted_file_read_only_on_request_witness :
  exists w1 r,
    deleteFile Fixtures.env_ok "a" "u1" Fixtures.world_6 = (Ok tt, w1)
    /\ getFileById "a" "u1" false w1 = (Throw (CustomError "File not found" 404), w1)
    /\ getFileById "a" "u1" true w1 = (Ok r, w1)
    /\ FileResponse.storageKey r = "u1/files/Homework.txt".
Proof.
  destruct (deleted_file_read_only_on_request Fixtures.env_ok Fixtures.file_a
              Fixtures.world_6) as (w1 & r & Hd & Hn & Hy & _ & Hk & _).
  - repeat (constructor; [cbn; intuition discriminate|]). constructor.
  - cbn. tauto.
  - reflexivity.
  - exists w1, r. auto.
Defined.

(** *** Signed URLs *)

Lemma getSignedDownloadUrl_run signer env key n w :
  StorageService.getSignedDownloadUrl signer env key n w
  = match getSignedUrlPromise signer "getObject" key None n with
    | Ok u => (Ok (StorageService.mkSignedUrlResult u (clock env + n * 1000)), w)
    | Throw e =>
        (Throw (Error ("Failed to generate download URL: " ++ message_of e)), w)
    end.
Proof.
  unfold StorageService.getSignedDownloadUrl.
  now destruct (getSignedUrlPromise _ _ _ _ _).
Qed.

Lemma getDownloadUrl_run signer env i u d w :
  getDownloadUrl signer env i u d w
  = match find (Prisma.file_matches (read_where i u d)) (fileTable w) with
    | Some f =>
        match getSignedUrlPromise signer "getObject" (File.storageKey f) None 3600 with
        | Ok url => (Ok url, w)
        | Throw e =>
            (Throw (Error ("Failed to generate download URL: " ++ message_of e)), w)
        end
    | None => (Throw (CustomError "File not found" 404), w)
    end.
Proof.
  unfold getDownloadUrl. unfold mbind at 1, M_bind at 1, bind at 1.
  rewrite getFileById_run. destruct (find _ _) as [f|]; [|reflexivity].
  unfold mbind, M_bind, bind. rewrite getSignedDownloadUrl_run. cbn.
  now destruct (getSignedUrlPromise _ _ _ _ _).
Qed.

(** X8. A download URL is signed only for the storage key of a row of the
    given id that the caller owns (not deleted, unless deleted rows are asked
    for), for one hour, and nothing is changed. The three answers, each
    exactly: without such a row the error "File not found", status 404,
    whatever the signer would do; with such a row and a signer that answers,
    the URL that the signer gives for the storage key of the row; with such
    a row and a signer that fails, the error "Failed to generate download
    URL: ..." with the message of the signer, status 500. *)
Theorem download_url_scoped signer env i u d w :
  (forall url w', getDownloadUrl signer env i u d w = (Ok url, w') ->
     w' = w
     /\ exists f, In f (fileTable w) /\ File.id f = i /\ File.ownerId f = u
                  /\ (d = false -> File.isDeleted f = false)
                  /\ getSignedUrlPromise signer "getObject" (File.storageKey f)
                       None 3600 = Ok url)
  /\ (~ (exists f, In f (fileTable w) /\ File.id f = i /\ File.ownerId f = u
                   /\ (d = false -> File.isDeleted f = false)) ->
      getDownloadUrl signer env i u d w
      = (Throw (CustomError "File not found" 404), w))
  /\ (forall e w', getDownloadUrl signer env i u d w = (Throw e, w') ->
       w' = w /\ (statusCode_of e = 404 \/ statusCode_of e = 500))
  /\ (forall f, unique_file_ids w -> In f (fileTable w) -> File.id f = i ->
       File.ownerId f = u -> (d = false -> File.isDeleted f = false) ->
       (forall url,
          getSignedUrlPromise signer "getObject" (File.storageKey f) None 3600
          = Ok url ->
          getDownloadUrl signer env i u d w = (Ok url, w))
       /\ (forall e,
            getSignedUrlPromise signer "getObject" (File.storageKey f) None 3600
            = Throw e ->
            getDownloadUrl signer env i u d w
            = (Throw (Error ("Failed to generate download URL: " ++ message_of e)),
               w)
            /\ statusCode_of
                 (Error ("Failed to generate download URL: " ++ message_of e))
               = 500)).
Proof.
  rewrite getDownloadUrl_run. split; [|split; [|split]].
  - intros url w'. destruct (find _ _) as [f|] eqn:E; [|discriminate].
    destruct (getSignedUrlPromise _ _ _ _ _) as [x|] eqn:Es; [|discriminate].
    intros [= <- <-]. split; [reflexivity|].
    apply find_some in E as [Hf Hm]. apply read_where_matches in Hm.
    exists f. unfold readable in Hm. tauto.
  - intros Hn. destruct (find _ _) as [f|] eqn:E; [|reflexivity].
    exfalso. apply Hn. apply find_some in E as [Hf Hm].
    apply read_where_matches in Hm. exists f. unfold readable in Hm. tauto.
  - intros e w'. destruct (find _ _) as [f|].
    + destruct (getSignedUrlPromise _ _ _ _ _); [discriminate|].
      intros [= <- <-]. auto.
    + intros [= <- <-]. auto.
  - intros f Hu Hf Hi Ho Hd.
    assert (Hfind : find (Prisma.file_matches (read_where i u d)) (fileTable w)
                    = Some f).
    { destruct (find _ _) as [g|] eqn:E.
      - apply find_some in E as [Hg Hm]. apply read_where_matches in Hm.
        f_equal. apply (unique_column File.id (fileTable w)); auto.
        destruct Hm as [-> _]. now rewrite Hi.
      - pose proof (find_none _ _ E f Hf) as Hn.
        assert (Prisma.file_matches (read_where i u d) f = true)
          by (apply read_where_matches; unfold readable; auto).
        congruence. }
    rewrite Hfind. split.
    + now intros url ->.
    + intros e ->. split; reflexivity.
Qed.

Lemma download_url_scoped_witness :
  getDownloadUrl Fixtures.signer_ok Fixtures.env_ok "o" "u1" true Fixtures.world_6
  = (Throw (CustomError "File not found" 404), Fixtures.world_6)
  /\ getDownloadUrl Fixtures.signer_ok Fixtures.env_ok "f" "u1" true Fixtures.world_6
     = (Ok "https://s3/getObject/u1/files/tax.pdf", Fixtures.world_6)
  /\ getDownloadUrl Fixtures.signer_fails Fixtures.env_ok "f" "u1" true
       Fixtures.world_6
     = (Throw (Error "Failed to generate download URL: Missing credentials"),
        Fixtures.world_6).
Proof.
  assert (Hnd : unique_file_ids Fixtures.world_6).
  { repeat (constructor; [cbn; intuition discriminate|]). constructor. }
  assert (Hin : In Fixtures.file_f (fileTable Fixtures.world_6))
    by (cbn; auto 10).
  split; [|split].
  - destruct (download_url_scoped Fixtures.signer_ok Fixtures.env_ok "o" "u1" true
                Fixtures.world_6) as (_ & H & _).
    apply H. intros (f & Hf & Hid & Ho & _). cbn in Hf.
    repeat (destruct Hf as [<-|Hf]; [discriminate|]). exact Hf.
  - destruct (download_url_scoped Fixtures.signer_ok Fixtures.env_ok "f" "u1" true
                Fixtures.world_6) as (_ & _ & _ & H).
    destruct (H Fixtures.file_f Hnd Hin eq_refl eq_refl) as [Hok _];
      [discriminate|].
    now apply Hok.
  - destruct (download_url_scoped Fixtures.signer_fails Fixtures.env_ok "f" "u1"
                true Fixtures.world_6) as (_ & _ & _ & H).
    destruct (H Fixtures.file_f Hnd Hin eq_refl eq_refl) as [_ Hfail];
      [discriminate|].
    now apply (Hfail (AWSError "CredentialsError" "Missing credentials")).
Defined.

Lemma getPreviewUrl_run signer env i u d w :
  getPreviewUrl signer env i u d w
  = match find (Prisma.file_matches (read_where i u d)) (fileTable w) with
    | Some f =>
        match FileResponse.previewKey (mapFileToResponse f) with
        | Some k =>
            match getSignedUrlPromise signer "getObject" k None 3600 with
            | Ok url => (Ok (Some url), w)
            | Throw e =>
                (Throw (Error ("Failed to generate download URL: " ++ message_of e)),
                 w)
            end
        | None => (Ok None, w)
        end
    | None => (Throw (CustomError "File not found" 404), w)
    end.
Proof.
  unfold getPreviewUrl. unfold mbind at 1, M_bind at 1, bind at 1.
  rewrite getFileById_run. destruct (find _ _) as [f|]; [|reflexivity].
  cbn [FileResponse.previewKey mapFileToResponse].
  destruct (File.previewKey f) as [k|]; [|reflexivity].
  destruct (Js.truthy k) eqn:Ek; [|reflexivity]. rewrite Ek.
  unfold mbind, M_bind, bind. rewrite getSignedDownloadUrl_run.
  now destruct (getSignedUrlPromise _ _ _ _ _).
Qed.

(** X9. For a file without preview the preview URL is "none", not an error,
    and the signer is not asked: the answer is the same with a signer that
    refuses everything. For a file with a preview the URL is the one signed
    for its preview key, for one hour. *)
Theorem preview_url_none_without_preview signer env f d w :
  unique_file_ids w -> In f (fileTable w) ->
  (d = false -> File.isDeleted f = false) ->
  (File.previewKey f = None ->
   getPreviewUrl signer env (File.id f) (File.ownerId f) d w = (Ok None, w))
  /\ (forall k, File.previewKey f = Some k -> k <> "" ->
       getPreviewUrl signer env (File.id f) (File.ownerId f) d w
       = match getSignedUrlPromise signer "getObject" k None 3600 with
         | Ok url => (Ok (Some url), w)
         | Throw e =>
             (Throw (Error ("Failed to generate download URL: " ++ message_of e)), w)
         end).
Proof.
  intros Hu Hf Hd.
  assert (Hfind : find (Prisma.file_matches (read_where (File.id f) (File.ownerId f) d))
                    (fileTable w) = Some f).
  { destruct (find _ _) as [g|] eqn:E.
    - apply find_some in E as [Hg Hm]. apply read_where_matches in Hm.
      f_equal. apply (unique_column File.id (fileTable w)); auto. apply Hm.
    - pose proof (find_none _ _ E f Hf) as Hn.
      assert (Prisma.file_matches (read_where (File.id f) (File.ownerId f) d) f = true)
        by (apply read_where_matches; unfold readable; auto).
      congruence. }
  rewrite getPreviewUrl_run, Hfind. cbn [FileResponse.previewKey mapFileToResponse].
  split.
  - now intros ->.
  - intros k -> Hk. destruct k; [congruence|reflexivity].
Qed.

Lemma preview_url_none_without_preview_witness :
  getPreviewUrl Fixtures.signer_fails Fixtures.env_ok "a" "u1" false Fixtures.world_6
  = (Ok None, Fixtures.world_6)
  /\ getPreviewUrl Fixtures.signer_ok Fixtures.env_ok "d" "u1" false Fixtures.world_6
     = (Ok (Some "https://s3/getObject/u1/image/holiday.png_preview.jpg"),
        Fixtures.world_6).
Proof.
  destruct (preview_url_none_without_preview Fixtures.signer_fails Fixtures.env_ok
              Fixtures.file_a false Fixtures.world_6) as [H _].
  - repeat (constructor; [cbn; intuition discriminate|]). constructor.
  - cbn. tauto.
  - reflexivity.
  - split; [apply H; reflexivity|reflexivity].
Defined.

End FileViewProps.

(** ** Files: more on search *)

Module SearchBoundsProps.
Import FileService Spec.

Lemma search_all_matches u f :
  search_matches (search_all u) f
  = Prisma.file_matches (listFiles_where u false) f.
Proof.
  unfold search_matches. cbn. rewrite !andb_true_r.
  now destruct (File.isDeleted f).
Qed.

(** X10. A search without any filter and without page answers with the first
    20 files of the listing of the user's live files, in the same order, and
    its total is the length of that listing. *)
Theorem unfiltered_search_is_listing u w :
  exists r l,
    searchFiles (search_all u) w = (Ok r, w)
    /\ listFiles u false w = (Ok l, w)
    /\ total r = Z.of_nat (List.length l)
    /\ files r = firstn 20 l
    /\ (List.length l <= 20 -> files r = l)%nat.
Proof.
  eexists _, _. split; [apply SearchProps.searchFiles_run; reflexivity|].
  assert (Hrows : matching_rows (search_all u) w
                  = Prisma.orderBy_createdAt_desc
                      (List.filter (Prisma.file_matches (listFiles_where u false))
                         (fileTable w))).
  { reflexivity. }
  split; [unfold listFiles; run_M; reflexivity|].
  cbn [files total]. rewrite Hrows, length_map.
  split; [reflexivity|].
  assert (Hpage : forall rows : list File.t,
                    page_from_one (search_page (search_all u))
                      (search_limit (search_all u)) rows = firstn 20 rows)
    by reflexivity.
  rewrite Hpage, firstn_map. split; [reflexivity|].
  intros Hlen. now rewrite firstn_all2.
Qed.

Lemma ceil_div_below (a b : Z) : 0 < a -> 0 < b -> (ceil_div a b - 1) * b < a.
Proof.
  intros Ha Hb. rewrite SearchProps.ceil_div_pos by assumption.
  pose proof (Z.div_mod (a + b - 1) b ltac:(lia)) as E.
  pose proof (Z.mod_pos_bound (a + b - 1) b Hb) as B.
  nia.
Qed.

Lemma ceil_div_zero (b : Z) : 0 < b -> ceil_div 0 b = 0.
Proof.
  intros Hb. rewrite SearchProps.ceil_div_pos by assumption.
  apply Z.div_small. lia.
Qed.

(** X11. The pages of a search: every page from 1 to [totalPages] has at
    least one file, every page after [totalPages] is empty, and a search
    that matches nothing has no page. *)
Theorem search_pages_bounds params w :
  0 < search_limit params -> 0 < search_page params ->
  exists r,
    searchFiles params w = (Ok r, w)
    /\ (page r <= totalPages r -> files r <> [])
    /\ (totalPages r < page r -> files r = [])
    /\ (total r = 0 <-> totalPages r = 0).
Proof.
  intros Hl Hp. eexists. split; [now apply SearchProps.searchFiles_run|].
  cbn [files total page limit totalPages].
  set (rows := matching_rows params w).
  set (n := Z.of_nat (List.length rows)).
  assert (Hn : 0 <= n) by (unfold n; lia).
  pose proof (SearchProps.ceil_div_covers n (search_limit params) Hn Hl) as Hc.
  pose proof (SearchProps.ceil_div_nonneg n (search_limit params) Hn Hl) as Hnn.
  split; [|split].
  - intros Hle Hnil. apply (f_equal (@List.length _)) in Hnil.
    rewrite length_map in Hnil. unfold page_from_one in Hnil.
    rewrite length_firstn, length_skipn in Hnil. cbn in Hnil.
    assert (Hpos : 0 < n).
    { destruct (Z.eq_dec n 0) as [Hz|]; [|lia].
      rewrite Hz, ceil_div_zero in Hle by assumption. lia. }
    pose proof (ceil_div_below n (search_limit params) Hpos Hl) as Hb.
    fold rows in Hnil. unfold n in *. nia.
  - intros Hlt. unfold page_from_one.
    rewrite skipn_all2; [now rewrite firstn_nil|].
    fold rows. unfold n in *. nia.
  - split.
    + intros ->. now apply ceil_div_zero.
    + intros Hz. rewrite Hz in Hc. lia.
Qed.

Lemma search_pages_bounds_witness :
  exists r,
    searchFiles (Fixtures.page_request 3 2) Fixtures.world_4
    = (Ok r, Fixtures.world_4)
    /\ totalPages r = 2 /\ files r = [].
Proof.
  destruct (search_pages_bounds (Fixtures.page_request 3 2) Fixtures.world_4)
    as (r & E & _ & Hpast & _); [reflexivity|reflexivity|].
  exists r. split; [exact E|].
  rewrite SearchProps.searchFiles_run in E by reflexivity. injection E as <-.
  split; [reflexivity|]. apply Hpast. vm_compute. reflexivity.
Defined.

End SearchBoundsProps.

(** ** Files: more on upload *)

Module UploadFootprintProps.
Import FileService Spec.

Lemma find_app_last {A} (p : A -> bool) (l : list A) (x : A) :
  (forall y, In y l -> p y = false) -> p x = true ->
  find p (l ++ [x]) = Some x.
Proof.
  intros Hl Hx. induction l as [|y l IH]; cbn.
  - now rewrite Hx.
  - rewrite (Hl y) by now left. apply IH. intros z Hz. apply Hl. now right.
Qed.

Lemma new_row_response env data k :
  FileResponse.id (mapFileToResponse (new_row env data k)) = new_id env
  /\ FileResponse.storageKey (mapFileToResponse (new_row env data k))
     = storageKey env data
  /\ FileResponse.name (mapFileToResponse (new_row env data k)) = finalName env data
  /\ FileResponse.originalName (mapFileToResponse (new_row env data k))
     = FileUploadData.originalname data
  /\ FileResponse.mimeType (mapFileToResponse (new_row env data k))
     = FileUploadData.mimetype data
  /\ FileResponse.size (mapFileToResponse (new_row env data k))
     = FileUploadData.size data.
Proof. repeat split. Qed.

(** An upload that answers added one row, the row it answers with. *)
Lemma uploadFile_Ok_row env data w r w' :
  uploadFile env data w = (Ok r, w') ->
  exists k, fileTable w' = (fileTable w ++ [new_row env data k])%list
            /\ r = mapFileToResponse (new_row env data k)
            /\ (forall key, k = Some key -> is_Some (bucket w' !! key)).
Proof.
  rewrite UploadProps.uploadFile_outcome. unfold upload_outcome.
  destruct (exists_answer _ _ _); [discriminate|].
  destruct (upload_fails env (storageKey env data)); [discriminate|].
  destruct (if is_image data then _ else _).
  - destruct (upload_fails env (preview_key env data)); [discriminate|].
    destruct (file_create_fails _ _); [discriminate|].
    intros [= <- <-]. eexists. split; [reflexivity|]. split; [reflexivity|].
    intros key [= <-]. cbn. rewrite lookup_insert_eq. eauto.
  - destruct (file_create_fails _ _); [discriminate|].
    intros [= <- <-]. eexists. split; [reflexivity|]. split; [reflexivity|].
    intros key [=].
Qed.

(** X12. Upload then read: when the id that the database gives is new, the
    file that an upload answers with is what reading it by its id answers
    afterwards, it is in the listing of the owner's files, and its storage
    key, original name, type and size are those of the upload. *)
Theorem upload_then_get env data w r w' :
  uploadFile env data w = (Ok r, w') ->
  ~ In (new_id env) (map File.id (fileTable w)) ->
  getFileById (FileResponse.id r) (FileUploadData.userId data) false w' = (Ok r, w')
  /\ (exists l, listFiles (FileUploadData.userId data) false w' = (Ok l, w')
                /\ In r l)
  /\ FileResponse.storageKey r = storageKey env data
  /\ FileResponse.originalName r = FileUploadData.originalname data
  /\ FileResponse.mimeType r = FileUploadData.mimetype data
  /\ FileResponse.size r = FileUploadData.size data.
Proof.
  intros Hup Hnew.
  destruct (uploadFile_Ok_row _ _ _ _ _ Hup) as (k & Ht & -> & _).
  split; [|split; [|repeat split]].
  - rewrite FileViewProps.getFileById_run, Ht.
    rewrite (find_app_last _ _ (new_row env data k)); [reflexivity| |].
    + intros y Hy. destruct (Prisma.file_matches _ y) eqn:E; [|reflexivity].
      apply FileViewProps.read_where_matches in E as (Hid & _).
      exfalso. apply Hnew. cbn in Hid. rewrite <- Hid. now apply in_map.
    + apply FileViewProps.read_where_matches. unfold readable. cbn. auto.
  - destruct (TrashProps.listFiles_live (FileUploadData.userId data) w')
      as (l & Hl & Hspec).
    exists l. split; [exact Hl|]. apply Hspec.
    exists (new_row env data k). rewrite Ht.
    split; [apply in_app_iff; right; now left|]. cbn. auto.
Qed.

Lemma upload_then_get_witness :
  exists r w',
    uploadFile Fixtures.env_ok Fixtures.upload_report Fixtures.world_6 = (Ok r, w')
    /\ getFileById "row-1" "u1" false w' = (Ok r, w')
    /\ FileResponse.storageKey r = "u1/files/report.PDF".
Proof.
  destruct (uploadFile Fixtures.env_ok Fixtures.upload_report Fixtures.world_6)
    as [[r|e] w'] eqn:E; [|vm_compute in E; discriminate E].
  destruct (upload_then_get _ _ _ _ _ E) as (Hg & _ & Hk & _).
  - cbn. intuition discriminate.
  - exists r, w'. split; [reflexivity|].
    destruct (uploadFile_Ok_row _ _ _ _ _ E) as (k & _ & Hr & _).
    split; [|exact Hk].
    replace "row-1" with (FileResponse.id r) by (rewrite Hr; reflexivity).
    exact Hg.
Defined.

(** X13. The footprint of an upload, whatever it answers: the shares are
    untouched and no key of the bucket changes but its storage key and its
    preview key; when it fails, no row is added, the status is 409 or 500,
    and with 409 nothing at all was written; when it answers, exactly one
    row was added, not deleted, and its bytes, and its preview if it names
    one, are in the bucket. *)
Theorem upload_footprint env data w res w' :
  uploadFile env data w = (res, w') ->
  shareTable w' = shareTable w
  /\ (forall k, k <> storageKey env data -> k <> preview_key env data ->
       bucket w' !! k = bucket w !! k)
  /\ (forall e, res = Throw e ->
       fileTable w' = fileTable w
       /\ (statusCode_of e = 409 \/ statusCode_of e = 500)
       /\ (statusCode_of e = 409 -> w' = w))
  /\ (forall r, res = Ok r ->
       exists row,
         fileTable w' = (fileTable w ++ [row])%list
         /\ r = mapFileToResponse row
         /\ File.isDeleted row = false
         /\ bucket w' !! File.storageKey row = Some (main_object env data)
         /\ (forall k, File.previewKey row = Some k -> is_Some (bucket w' !! k))).
Proof.
  intros Hup. split; [|split; [|split]].
  - revert Hup. rewrite UploadProps.uploadFile_outcome. unfold upload_outcome.
    repeat (match goal with
            | |- context [match ?x with _ => _ end] => destruct x
            end); now intros [= <- <-].
  - intros k Hk Hp. revert Hup.
    rewrite UploadProps.uploadFile_outcome. unfold upload_outcome.
    repeat (match goal with
            | |- context [match ?x with _ => _ end] => destruct x
            end); intros [= <- <-]; cbn [bucket];
      rewrite ?lookup_insert_ne by congruence; reflexivity.
  - intros e ->. revert Hup.
    rewrite UploadProps.uploadFile_outcome. unfold upload_outcome.
    destruct (exists_answer _ _ _); [intros [= <- <-]; cbn; auto|].
    destruct (upload_fails env (storageKey env data));
      [intros [= <- <-]; cbn; repeat split; auto; discriminate|].
    destruct (if is_image data then _ else _).
    + destruct (upload_fails env (preview_key env data));
        [intros [= <- <-]; cbn; repeat split; auto; discriminate|].
      destruct (file_create_fails _ _); [|discriminate].
      intros [= <- <-]; cbn; repeat split; auto; discriminate.
    + destruct (file_create_fails _ _); [|discriminate].
      intros [= <- <-]; cbn; repeat split; auto; discriminate.
  - intros r ->.
    destruct (uploadFile_Ok_row _ _ _ _ _ Hup) as (k & Ht & Hr & Hk).
    exists (new_row env data k). repeat split; auto.
    apply (UploadProps.uploadFile_Ok_stored _ _ _ _ _ Hup).
Qed.

Lemma upload_footprint_witness :
  exists res w',
    uploadFile Fixtures.env_ok Fixtures.upload_cat Fixtures.world_6 = (res, w')
    /\ shareTable w' = shareTable Fixtures.world_6
    /\ bucket w' !! "u1/files/tax.pdf" = bucket Fixtures.world_6 !! "u1/files/tax.pdf".
Proof.
  destruct (uploadFile Fixtures.env_ok Fixtures.upload_cat Fixtures.world_6)
    as [res w'] eqn:E.
  exists res, w'. split; [reflexivity|].
  destruct (upload_footprint _ _ _ _ _ E) as (Hs & Hb & _).
  split; [exact Hs|]. apply Hb; vm_compute; discriminate.
Defined.

End UploadFootprintProps.

(** ** Shares: creation, listing, sweep *)

Module ShareLifeProps.
Import FileService ShareService Spec.

Lemma getFileByToken_run env token w :
  getFileByToken env token w
  = match find (PrismaShare.share_matches (resolve_where (clock env) token))
            (shareTable w) with
    | None => (Throw (CustomError "Share link not found or expired" 404), w)
    | Some s =>
        match find (Prisma.file_matches (live_file_where (Share.fileId s)))
                (fileTable w) with
        | None => (Throw (CustomError "File not found or has been deleted" 404), w)
        | Some f => (Ok (f, s), w)
        end
    end.
Proof.
  unfold getFileByToken. run_M. fold (resolve_where (clock env) token).
  destruct (find _ (shareTable w)) as [s|]; [|reflexivity].
  fold (live_file_where (Share.fileId s)).
  now destruct (find _ (fileTable w)).
Qed.

(** A rewriting of rows that only touches rows that the test refuses, before
    and after, does not change what [find] finds. *)
Lemma find_map_unaffected {A} (p : A -> bool) (g : A -> A) (l : list A) :
  (forall x, In x l -> g x = x \/ (p x = false /\ p (g x) = false)) ->
  find p (map g l) = find p l.
Proof.
  induction l as [|x l IH]; intros H; [reflexivity|]. cbn.
  destruct (H x (or_introl eq_refl)) as [->|[-> ->]];
    [destruct (p x); [reflexivity|]|]; apply IH; intros y Hy; apply H; now right.
Qed.

Lemma createShare_run penv env data w :
  createShare penv env data w
  = match find (Prisma.file_matches
                  (owned_where (data_fileId data) (data_userId data) false))
            (fileTable w) with
    | None => (Throw (CustomError "File not found" 404), w)
    | Some _ =>
        match match data_expiresAt data with
              | Some d => Some d
              | None =>
                  option_map (fun days => clock env + days * 24 * 60 * 60 * 1000)
                    (default_expiry_days penv)
              end with
        | None =>
            (Throw (Error "Invalid value for argument `expiresAt`: Provided Date object is invalid. Expected Date."),
             w)
        | Some d =>
            (Ok (mapShareToResponse
                   (created_share env data d,
                    PrismaShare.include_file (fileTable w) (created_share env data d))),
             mkWorld (bucket w) (fileTable w)
               (shareTable w ++ [created_share env data d]))
        end
    end.
Proof.
  unfold createShare. run_M.
  destruct (find _ _); [|reflexivity].
  destruct (data_expiresAt data); [reflexivity|].
  now destruct (default_expiry_days penv).
Qed.

(** X14. Creating a share: for a file that is not a live file of the caller
    the answer is 404 and nothing is written; otherwise, with an expiry
    given, exactly one share is added, active, with the new token, the given
    expiry and the caller as creator, and files and bucket are untouched;
    without an expiry given and with [DEFAULT_SHARE_EXPIRY_DAYS] unset or
    empty, the expiry is seven days after the present time. *)
Theorem createShare_outcomes penv env data w :
  (~ has_row w (data_fileId data) (data_userId data) false ->
   createShare penv env data w = (Throw (CustomError "File not found" 404), w))
  /\ (has_row w (data_fileId data) (data_userId data) false ->
      forall d, data_expiresAt data = Some d ->
      exists r w',
        createShare penv env data w = (Ok r, w')
        /\ shareTable w'
           = (shareTable w
              ++ [Share.mk (new_id env) (uuidv4 env) d true (data_fileId data)
                    (data_userId data) (clock env)])%list
        /\ fileTable w' = fileTable w /\ bucket w' = bucket w
        /\ resp_token r = uuidv4 env /\ resp_isActive r = true
        /\ resp_expiresAt r = d)
  /\ (has_row w (data_fileId data) (data_userId data) false ->
      data_expiresAt data = None ->
      (DEFAULT_SHARE_EXPIRY_DAYS penv = None
       \/ DEFAULT_SHARE_EXPIRY_DAYS penv = Some "") ->
      exists r w',
        createShare penv env data w = (Ok r, w')
        /\ resp_expiresAt r = clock env + 7 * 24 * 60 * 60 * 1000
        /\ resp_isActive r = true).
Proof.
  rewrite createShare_run. split; [|split].
  - intros Hn. destruct (find _ _) as [f|] eqn:E; [|reflexivity].
    exfalso. apply Hn. apply TrashProps.find_owned_iff. eauto.
  - intros Hr d Hd. apply TrashProps.find_owned_iff in Hr as [f ->].
    rewrite Hd. eexists _, _. split; [reflexivity|]. repeat split.
  - intros Hr Hd Hdef. apply TrashProps.find_owned_iff in Hr as [f ->].
    rewrite Hd. unfold default_expiry_days.
    destruct Hdef as [-> | ->]; cbn; eexists _, _; repeat split.
Qed.

Lemma createShare_outcomes_witness :
  createShare Fixtures.penv_dev (Fixtures.env_at 1000)
    (mkCreateShareData "o" "u1" None) Fixtures.world_6
  = (Throw (CustomError "File not found" 404), Fixtures.world_6)
  /\ exists r w',
       createShare Fixtures.penv_dev (Fixtures.env_at 1000)
         (mkCreateShareData "a" "u1" None) Fixtures.world_6 = (Ok r, w')
       /\ resp_expiresAt r = 604801000.
Proof.
  destruct (createShare_outcomes Fixtures.penv_dev (Fixtures.env_at 1000)
              (mkCreateShareData "o" "u1" None) Fixtures.world_6) as (H404 & _).
  destruct (createShare_outcomes Fixtures.penv_dev (Fixtures.env_at 1000)
              (mkCreateShareData "a" "u1" None) Fixtures.world_6) as (_ & _ & Hdef).
  split.
  - apply H404. intros (g & Hg & Hid & Ho & _). cbn in Hg, Hid, Ho.
    repeat (destruct Hg as [<-|Hg]; [discriminate|]). exact Hg.
  - destruct Hdef as (r & w' & E & Hx & _).
    + exists Fixtures.file_a. cbn. tauto.
    + reflexivity.
    + now left.
    + exists r, w'. split; [exact E|exact Hx].
Defined.

Lemma find_live_file w f :
  unique_file_ids w -> In f (fileTable w) -> File.isDeleted f = false ->
  find (Prisma.file_matches (live_file_where (File.id f))) (fileTable w) = Some f.
Proof.
  intros Hu Hf Hd. destruct (find _ _) as [g|] eqn:E.
  - apply find_some in E as [Hg Hm]. apply ShareProps.live_file_where_matches in Hm.
    f_equal. apply (unique_column File.id (fileTable w)); auto. apply Hm.
  - pose proof (find_none _ _ E f Hf) as Hn.
    assert (Prisma.file_matches (live_file_where (File.id f)) f = true)
      by now apply ShareProps.live_file_where_matches.
    congruence.
Qed.

(** X15. Create then resolve: a share created for a live file of the caller
    with expiry [d] and a token not in use resolves to that file at every
    time strictly before [d], and is answered with 404 from [d] on. *)
Theorem created_share_resolves penv env env' data d f w :
  unique_file_ids w -> fresh_token env w ->
  In f (fileTable w) -> File.id f = data_fileId data ->
  File.ownerId f = data_userId data -> File.isDeleted f = false ->
  data_expiresAt data = Some d ->
  exists r w1,
    createShare penv env data w = (Ok r, w1)
    /\ (clock env' < d ->
        exists s, getFileByToken env' (resp_token r) w1 = (Ok (f, s), w1)
                  /\ Share.token s = resp_token r /\ Share.expiresAt s = d)
    /\ (d <= clock env' ->
        getFileByToken env' (resp_token r) w1
        = (Throw (CustomError "Share link not found or expired" 404), w1)).
Proof.
  intros Hu Hfresh Hf Hid Ho Hd He.
  rewrite createShare_run.
  assert (Hrow : has_row w (data_fileId data) (data_userId data) false)
    by (exists f; auto).
  apply TrashProps.find_owned_iff in Hrow as [g ->]. rewrite He.
  eexists _, _. split; [reflexivity|].
  set (new := created_share env data d).
  set (w1 := mkWorld (bucket w) (fileTable w) (shareTable w ++ [new])).
  assert (Hold : forall now y, In y (shareTable w) ->
            PrismaShare.share_matches (resolve_where now (uuidv4 env)) y = false).
  { intros now y Hy.
    destruct (PrismaShare.share_matches _ y) eqn:E; [|reflexivity].
    apply ShareProps.resolve_where_matches in E as (Ht & _).
    exfalso. apply Hfresh. rewrite <- Ht. now apply in_map. }
  cbn [resp_token mapShareToResponse fst Share.token created_share].
  split.
  - intros Hlt. exists new. rewrite getFileByToken_run. cbn [shareTable fileTable w1].
    rewrite (UploadFootprintProps.find_app_last _ _ new);
      [|apply Hold|apply ShareProps.resolve_where_matches; cbn; auto].
    cbn [Share.fileId new created_share]. rewrite <- Hid.
    rewrite (find_live_file w f Hu Hf Hd). auto.
  - intros Hge. rewrite getFileByToken_run. cbn [shareTable fileTable w1].
    destruct (find _ _) as [y|] eqn:E; [|reflexivity].
    exfalso. apply find_some in E as [Hy Hm].
    apply in_app_iff in Hy as [Hy|[<-|[]]].
    + rewrite (Hold _ y Hy) in Hm. discriminate.
    + apply ShareProps.resolve_where_matches in Hm as (_ & _ & Hlt). cbn in Hlt. lia.
Qed.

Lemma created_share_resolves_witness :
  exists r w1,
    createShare Fixtures.penv_dev (Fixtures.env_at 1000)
      (mkCreateShareData "a" "u1" (Some 5000)) Fixtures.world_6 = (Ok r, w1)
    /\ (exists s, getFileByToken (Fixtures.env_at 4999) (resp_token r) w1
                  = (Ok (Fixtures.file_a, s), w1))
    /\ getFileByToken (Fixtures.env_at 5000) (resp_token r) w1
       = (Throw (CustomError "Share link not found or expired" 404), w1).
Proof.
  destruct (created_share_resolves Fixtures.penv_dev (Fixtures.env_at 1000)
              (Fixtures.env_at 4999) (mkCreateShareData "a" "u1" (Some 5000)) 5000
              Fixtures.file_a Fixtures.world_6) as (r & w1 & E & Hy & _);
    [repeat (constructor; [cbn; intuition discriminate|]); constructor
    |unfold fresh_token; cbn; intuition discriminate|cbn; tauto
    |reflexivity|reflexivity|reflexivity|reflexivity|].
  destruct (created_share_resolves Fixtures.penv_dev (Fixtures.env_at 1000)
              (Fixtures.env_at 5000) (mkCreateShareData "a" "u1" (Some 5000)) 5000
              Fixtures.file_a Fixtures.world_6) as (r' & w1' & E' & _ & Hn);
    [repeat (constructor; [cbn; intuition discriminate|]); constructor
    |unfold fresh_token; cbn; intuition discriminate|cbn; tauto
    |reflexivity|reflexivity|reflexivity|reflexivity|].
  rewrite E in E'. injection E' as <- <-.
  exists r, w1. split; [exact E|]. split.
  - destruct Hy as (s & Hs & _); [reflexivity|]. eauto.
  - apply Hn. reflexivity.
Defined.

Lemma find_share_by_token now s w :
  unique_tokens w -> In s (shareTable w) -> Share.isActive s = true ->
  now < Share.expiresAt s ->
  find (PrismaShare.share_matches (resolve_where now (Share.token s))) (shareTable w)
  = Some s.
Proof.
  intros Hu Hs Ha He. destruct (find _ _) as [y|] eqn:E.
  - apply find_some in E as [Hy Hm]. apply ShareProps.resolve_where_matches in Hm.
    f_equal. apply (unique_column Share.token (shareTable w)); auto. apply Hm.
  - pose proof (find_none _ _ E s Hs) as Hn.
    assert (PrismaShare.share_matches (resolve_where now (Share.token s)) s = true)
      by (apply ShareProps.resolve_where_matches; auto).
    congruence.
Qed.

(** X16. A share follows its file through the trash: while the file is
    soft-deleted the token is answered with 404, and after the restore it
    resolves again, to the same storage key. *)
Theorem share_follows_file_trash env1 env2 env' s f w :
  unique_file_ids w -> unique_tokens w ->
  In s (shareTable w) -> Share.isActive s = true ->
  clock env' < Share.expiresAt s ->
  In f (fileTable w) -> File.id f = Share.fileId s -> File.isDeleted f = false ->
  exists w1 w2 f',
    deleteFile env1 (File.id f) (File.ownerId f) w = (Ok tt, w1)
    /\ getFileByToken env' (Share.token s) w1
       = (Throw (CustomError "File not found or has been deleted" 404), w1)
    /\ restoreFile env2 (File.id f) (File.ownerId f) w1 = (Ok tt, w2)
    /\ getFileByToken env' (Share.token s) w2 = (Ok (f', s), w2)
    /\ File.id f' = File.id f /\ File.storageKey f' = File.storageKey f.
Proof.
  intros Hu Ht Hs Ha He Hf Hid Hd.
  set (i := File.id f). set (u := File.ownerId f).
  set (d1 := set_deleted true (Some (clock env1))).
  set (w1 := rewritten env1 i d1 w).
  set (w2 := rewritten env2 i (set_deleted false None) w1).
  set (f1 := Prisma.file.written env1 d1 f).
  set (f2 := restored env1 env2 f).
  assert (Hf1 : File.id f1 = i /\ File.ownerId f1 = u /\ File.isDeleted f1 = true).
  { unfold f1, Prisma.file.written. destruct (schema_updatedAt env1); cbn; auto. }
  assert (Hu1 : unique_file_ids w1).
  { unfold unique_file_ids, w1. now rewrite TrashProps.rewritten_ids. }
  assert (Hu2 : unique_file_ids w2).
  { unfold unique_file_ids, w2. now rewrite TrashProps.rewritten_ids. }
  assert (Hin1 : In f1 (fileTable w1)).
  { cbn. apply in_map_iff. exists f. split; [|assumption].
    fold i. now rewrite String.eqb_refl. }
  assert (Hin2 : In f2 (fileTable w2)).
  { cbn [w2 rewritten fileTable]. apply in_map_iff. exists f1. split; [|assumption].
    destruct Hf1 as [-> _]. now rewrite String.eqb_refl. }
  destruct (TrashProps.restored_spec env1 env2 f) as (Hsame & Hdel & _).
  fold f2 in Hsame, Hdel.
  exists w1, w2, f2.
  split; [apply TrashProps.deleteFile_Ok; [assumption|exists f; auto]|].
  split; [|split; [apply TrashProps.restoreFile_Ok;
                   [assumption|exists f1; split; [assumption|tauto]]|]].
  - rewrite getFileByToken_run. cbn [shareTable fileTable w1 rewritten].
    rewrite (find_share_by_token _ s w Ht Hs Ha He).
    destruct (find _ _) as [g|] eqn:E; [|reflexivity].
    exfalso. apply find_some in E as [Hg Hm].
    apply ShareProps.live_file_where_matches in Hm as [Hgi Hgd].
    assert (g = f1) as ->.
    { apply (unique_column File.id (fileTable w1)); auto.
      destruct Hf1 as [-> _]. unfold i. congruence. }
    destruct Hf1 as (_ & _ & Hx). congruence.
  - split; [|split; [apply Hsame|apply Hsame]].
    rewrite getFileByToken_run. cbn [shareTable fileTable w2 w1 rewritten].
    rewrite (find_share_by_token _ s w Ht Hs Ha He).
    replace (Share.fileId s) with (File.id f2)
      by (destruct Hsame as [-> _]; exact Hid).
    change (map _ (map _ (fileTable w))) with (fileTable w2).
    now rewrite (find_live_file w2 f2 Hu2 Hin2 Hdel).
Qed.

Lemma share_follows_file_trash_witness :
  exists w1 w2 f',
    deleteFile Fixtures.env_ok "c" "u1" Fixtures.world_6 = (Ok tt, w1)
    /\ getFileByToken (Fixtures.env_at 1000) "tok-1" w1
       = (Throw (CustomError "File not found or has been deleted" 404), w1)
    /\ restoreFile Fixtures.env_ok "c" "u1" w1 = (Ok tt, w2)
    /\ getFileByToken (Fixtures.env_at 1000) "tok-1" w2
       = (Ok (f', Fixtures.share_c), w2).
Proof.
  destruct (share_follows_file_trash Fixtures.env_ok Fixtures.env_ok
              (Fixtures.env_at 1000) Fixtures.share_c Fixtures.file_c
              Fixtures.world_6)
    as (w1 & w2 & f' & Hd & Hn & Hr & Hy & _);
    [repeat (constructor; [cbn; intuition discriminate|]); constructor
    |repeat (constructor; [cbn; intuition discriminate|]); constructor
    |cbn; tauto|reflexivity|reflexivity|cbn; tauto|reflexivity|reflexivity|].
  exists w1, w2, f'. auto.
Defined.

(** *** The sweep of expired shares *)

Lemma sweep_where_matches now s :
  PrismaShare.share_matches
    (mkShareWhere None None (Some true) (Some (lt now)) None) s
  = sweepable now s.
Proof.
  unfold PrismaShare.share_matches, sweepable. cbn. rewrite andb_true_r.
  now destruct (Share.isActive s).
Qed.

Lemma cleanupExpiredShares_run env w :
  cleanupExpiredShares env w
  = (Ok (Z.of_nat (List.length (List.filter (sweepable (clock env)) (shareTable w)))),
     mkWorld (bucket w) (fileTable w)
       (map (fun s => if sweepable (clock env) s then set_isActive false s else s)
          (shareTable w))).
Proof.
  unfold cleanupExpiredShares. run_M. f_equal.
  - do 3 f_equal. apply filter_ext. apply sweep_where_matches.
  - f_equal. apply map_ext. intros s. now rewrite sweep_where_matches.
Qed.

(** X17. The sweep deactivates exactly the active shares that expired
    strictly before the present time and counts them; it removes no share,
    keeps ids, tokens and expiries, leaves the other shares, the files and
    the bucket as they are, and after it every active share expires at the
    present time or later. *)
Theorem cleanup_deactivates_expired env w :
  exists n w',
    cleanupExpiredShares env w = (Ok n, w')
    /\ n = Z.of_nat (List.length
             (List.filter (fun s => Share.isActive s
                                    && (Share.expiresAt s <? clock env))
                (shareTable w)))
    /\ fileTable w' = fileTable w /\ bucket w' = bucket w
    /\ map Share.id (shareTable w') = map Share.id (shareTable w)
    /\ map Share.token (shareTable w') = map Share.token (shareTable w)
    /\ map Share.expiresAt (shareTable w') = map Share.expiresAt (shareTable w)
    /\ (forall s, In s (shareTable w) ->
         (Share.isActive s = false \/ clock env <= Share.expiresAt s) ->
         In s (shareTable w'))
    /\ (forall s, In s (shareTable w') ->
         Share.isActive s = true -> clock env <= Share.expiresAt s).
Proof.
  eexists _, _. split; [apply cleanupExpiredShares_run|].
  cbn [bucket fileTable shareTable].
  split; [reflexivity|]. split; [reflexivity|]. split; [reflexivity|].
  split; [|split; [|split; [|split]]].
  - rewrite map_map. apply map_ext. intros s. now destruct (sweepable _ s).
  - rewrite map_map. apply map_ext. intros s. now destruct (sweepable _ s).
  - rewrite map_map. apply map_ext. intros s. now destruct (sweepable _ s).
  - intros s Hs Hkeep. apply in_map_iff. exists s. split; [|assumption].
    unfold sweepable. destruct Hkeep as [-> | Hle]; [reflexivity|].
    assert ((Share.expiresAt s <? clock env) = false) as ->
      by (apply Z.ltb_ge; lia).
    now rewrite andb_false_r.
  - intros s' Hs' Ha. apply in_map_iff in Hs' as (s & <- & Hs).
    unfold sweepable in *.
    destruct (Share.isActive s) eqn:Ea; cbn in *.
    + destruct (Share.expiresAt s <? clock env) eqn:El; cbn in *; [discriminate|].
      apply Z.ltb_ge in El. lia.
    + congruence.
Qed.

(** X18. The sweep changes no answer of the resolution: at the time of the
    sweep and at every later time each token resolves after the sweep to
    what it resolved to before. And a second sweep at the same time finds
    nothing to do. *)
Theorem cleanup_keeps_resolution env env' token w :
  clock env <= clock env' ->
  exists n w',
    cleanupExpiredShares env w = (Ok n, w')
    /\ fst (getFileByToken env' token w') = fst (getFileByToken env' token w)
    /\ cleanupExpiredShares env w' = (Ok 0, w').
Proof.
  intros Hle. eexists _, _. split; [apply cleanupExpiredShares_run|].
  set (g := fun s => if sweepable (clock env) s then set_isActive false s else s).
  split.
  - rewrite !getFileByToken_run. cbn [shareTable fileTable].
    rewrite (find_map_unaffected _ g).
    + destruct (find _ (shareTable w)) as [s|]; [|reflexivity].
      now destruct (find _ (fileTable w)).
    + intros s _. unfold g. destruct (sweepable (clock env) s) eqn:E; [|now left].
      right. unfold sweepable in E. apply andb_true_iff in E as [Ea El].
      apply Z.ltb_lt in El. split.
      * destruct (PrismaShare.share_matches _ s) eqn:Em; [|reflexivity].
        apply ShareProps.resolve_where_matches in Em as (_ & _ & Hlt). lia.
      * destruct (PrismaShare.share_matches _ (set_isActive false s)) eqn:Em;
          [|reflexivity].
        apply ShareProps.resolve_where_matches in Em as (_ & Hact & _).
        discriminate.
  - rewrite cleanupExpiredShares_run. cbn [bucket fileTable shareTable].
    assert (Hnone : forall s, sweepable (clock env) (g s) = false).
    { intros s. unfold g. destruct (sweepable (clock env) s) eqn:E; [reflexivity|].
      exact E. }
    f_equal.
    + f_equal. induction (shareTable w) as [|s t IH]; [reflexivity|].
      cbn [map List.filter]. fold g. rewrite (Hnone s). exact IH.
    + f_equal. rewrite map_map. apply map_ext. intros s. fold (g s).
      now rewrite (Hnone s).
Qed.

Lemma cleanup_keeps_resolution_witness :
  exists w',
    cleanupExpiredShares (Fixtures.env_at 1000) Fixtures.world_6 = (Ok 1, w')
    /\ fst (getFileByToken (Fixtures.env_at 1500) "tok-1" w')
       = Ok (Fixtures.file_c, Fixtures.share_c)
    /\ cleanupExpiredShares (Fixtures.env_at 1000) w' = (Ok 0, w').
Proof.
  destruct (cleanup_keeps_resolution (Fixtures.env_at 1000) (Fixtures.env_at 1500)
              "tok-1" Fixtures.world_6) as (n & w' & E & Hr & Hi);
    [vm_compute; discriminate|].
  exists w'. rewrite Hr. rewrite cleanupExpiredShares_run in E.
  injection E as <- <-. split; [reflexivity|]. split; [reflexivity|exact Hi].
Defined.

(** *** Deactivation by others, twice, and the other shares *)

(** X19. Deactivating a share that is not a share of the caller is answered
    with 404 and changes nothing. Deactivating one's own share a second time
    succeeds and changes nothing more, and no other token resolves
    differently for it. *)
Theorem deactivate_scoped i u w :
  (~ (exists s, In s (shareTable w) /\ Share.id s = i /\ Share.createdById s = u) ->
   deactivateShare i u w = (Throw (CustomError "Share not found" 404), w))
  /\ (forall s, unique_share_ids w -> In s (shareTable w) ->
       Share.id s = i -> Share.createdById s = u ->
       exists w1,
         deactivateShare i u w = (Ok tt, w1)
         /\ deactivateShare i u w1 = (Ok tt, w1)
         /\ fileTable w1 = fileTable w
         /\ forall env t, t <> Share.token s ->
              fst (getFileByToken env t w1) = fst (getFileByToken env t w)).
Proof.
  split.
  - intros Hn. unfold deactivateShare. run_M.
    destruct (find _ _) as [s|] eqn:E; [|reflexivity].
    exfalso. apply Hn. apply find_some in E as [Hs Hm]. exists s.
    unfold PrismaShare.share_matches in Hm. cbn in Hm.
    rewrite !andb_true_r, andb_true_iff, !String_eqb_true in Hm. tauto.
  - intros s Hu Hs <- <-.
    set (g := fun x => if String.eqb (Share.id x) (Share.id s)
                       then set_isActive false x else x).
    set (w1 := mkWorld (bucket w) (fileTable w) (map g (shareTable w))).
    assert (Hu1 : unique_share_ids w1).
    { unfold unique_share_ids, w1. cbn [shareTable]. rewrite map_map.
      erewrite map_ext; [exact Hu|]. intros x. unfold g.
      now destruct (String.eqb _ _). }
    assert (Hs1 : In (g s) (shareTable w1)) by (cbn; now apply in_map).
    assert (Hgs : g s = set_isActive false s)
      by (unfold g; now rewrite String.eqb_refl).
    exists w1. split; [apply (ShareProps.deactivateShare_Ok s w Hu Hs)|].
    split; [|split; [reflexivity|]].
    + pose proof (ShareProps.deactivateShare_Ok (g s) w1 Hu1 Hs1) as H.
      rewrite Hgs in H at 1 2. cbn [Share.id Share.createdById set_isActive] in H.
      rewrite H. f_equal. unfold w1. cbn [bucket fileTable shareTable]. f_equal.
      rewrite map_map. apply map_ext. intros x. rewrite Hgs. cbn [Share.id set_isActive].
      unfold g. destruct (String.eqb (Share.id x) (Share.id s)) eqn:E; cbn.
      * now rewrite E.
      * now rewrite E.
    + intros env t Ht. rewrite !getFileByToken_run. cbn [shareTable fileTable w1].
      rewrite (find_map_unaffected _ g).
      * destruct (find _ (shareTable w)) as [y|]; [|reflexivity].
        now destruct (find _ (fileTable w)).
      * intros x Hx. unfold g.
        destruct (String.eqb (Share.id x) (Share.id s)) eqn:E; [|now left].
        right. apply String_eqb_true in E.
        assert (x = s) as -> by (apply (unique_column Share.id (shareTable w)); auto).
        split.
        -- destruct (PrismaShare.share_matches _ s) eqn:Em; [|reflexivity].
           apply ShareProps.resolve_where_matches in Em as (Hx' & _). congruence.
        -- destruct (PrismaShare.share_matches _ (set_isActive false s)) eqn:Em;
             [|reflexivity].
           apply ShareProps.resolve_where_matches in Em as (_ & Hact & _).
           discriminate.
Qed.

Lemma deactivate_scoped_witness :
  deactivateShare "s1" "u2" Fixtures.world_6
  = (Throw (CustomError "Share not found" 404), Fixtures.world_6)
  /\ exists w1,
       deactivateShare "s1" "u1" Fixtures.world_6 = (Ok tt, w1)
       /\ deactivateShare "s1" "u1" w1 = (Ok tt, w1).
Proof.
  destruct (deactivate_scoped "s1" "u2" Fixtures.world_6) as (H404 & _).
  destruct (deactivate_scoped "s1" "u1" Fixtures.world_6) as (_ & Hown).
  split.
  - apply H404. intros (s & Hs & Hid & Hc). cbn in Hs.
    destruct Hs as [<-|[<-|[<-|[]]]]; discriminate.
  - destruct (Hown Fixtures.share_c) as (w1 & H1 & H2 & _).
    + repeat (constructor; [cbn; intuition discriminate|]). constructor.
    + cbn. tauto.
    + reflexivity.
    + reflexivity.
    + exists w1. auto.
Defined.

(** *** The list of a user's shares *)

Lemma share_insert_desc_perm s l :
  Permutation (PrismaShare.insert_desc s l) (s :: l).
Proof.
  induction l as [|g l IH]; cbn; [reflexivity|].
  destruct (Share.createdAt g <=? Share.createdAt s); [reflexivity|].
  rewrite IH. apply perm_swap.
Qed.

Lemma share_orderBy_perm l : Permutation (PrismaShare.orderBy_createdAt_desc l) l.
Proof.
  induction l as [|s l IH]; cbn; [reflexivity|].
  rewrite share_insert_desc_perm. now constructor.
Qed.

(** X20. The list of a user's shares has exactly the shares that the user
    created, the inactive and the expired ones among them, each once, each
    with the id, name, size and type of its file, deleted or not; it changes
    nothing. *)
Theorem getUserShares_lists_all u w :
  exists l,
    getUserShares u w = (Ok l, w)
    /\ (forall r, In r l <->
         exists s, In s (shareTable w) /\ Share.createdById s = u
                   /\ r = mkShareResponse (Share.id s) (Share.token s)
                           (Share.expiresAt s) (Share.isActive s)
                           (Share.createdAt s)
                           (PrismaShare.include_file (fileTable w) s))
    /\ List.length l
       = List.length (List.filter (fun s => String.eqb (Share.createdById s) u)
                        (shareTable w)).
Proof.
  unfold getUserShares. run_M. eexists. split; [reflexivity|].
  assert (Hm : forall s,
            PrismaShare.share_matches (mkShareWhere None None None None (Some u)) s
            = String.eqb (Share.createdById s) u).
  { intros s. unfold PrismaShare.share_matches. cbn. reflexivity. }
  split.
  - intros r. rewrite in_map_iff. split.
    + intros (s & <- & Hs).
      apply (Permutation_in _ (share_orderBy_perm _)) in Hs.
      apply filter_In in Hs as [Hs Hmm]. rewrite Hm in Hmm.
      apply String_eqb_true in Hmm. eauto.
    + intros (s & Hs & Hc & ->). exists s. split; [reflexivity|].
      apply (Permutation_in _ (Permutation_sym (share_orderBy_perm _))).
      apply filter_In. split; [assumption|]. rewrite Hm. now apply String_eqb_true.
  - rewrite length_map, (Permutation_length (share_orderBy_perm _)).
    reflexivity.
Qed.

End ShareLifeProps.

(** ** The storage service, previews, the error handler and the routes *)

Module EdgeProps.
Import FileService ShareService Spec.

(** X21. Round trips of the storage service, where the bucket refuses
    nothing for the key: after an upload the existence check answers "yes",
    after a deletion it answers "no", deleting what is not there is no error
    and changes nothing, and no other key is touched. *)
Theorem storage_roundtrip env key buf contentType metadata w :
  upload_fails env key = None -> headObject_fails env key = None ->
  deleteObject_fails env key = None ->
  exists w1 w2,
    StorageService.uploadFile env buf key contentType metadata w = (Ok tt, w1)
    /\ bucket w1 !! key = Some (mkS3Object buf contentType metadata)
    /\ StorageService.fileExists env key w1 = (Ok true, w1)
    /\ StorageService.deleteFile env key w1 = (Ok tt, w2)
    /\ StorageService.fileExists env key w2 = (Ok false, w2)
    /\ StorageService.deleteFile env key w2 = (Ok tt, w2)
    /\ (forall k, k <> key ->
         bucket w1 !! k = bucket w !! k /\ bucket w2 !! k = bucket w !! k).
Proof.
  intros Hput Hhead Hdel.
  eexists _, _.
  split; [unfold StorageService.uploadFile, S3.upload; rewrite Hput; run_M;
          reflexivity|].
  cbn [bucket]. split; [apply lookup_insert_eq|].
  split; [rewrite UploadProps.fileExists_run, Hhead; cbn;
          now rewrite lookup_insert_eq|].
  split; [unfold StorageService.deleteFile, S3.deleteObject; rewrite Hdel; run_M;
          reflexivity|].
  split; [rewrite UploadProps.fileExists_run, Hhead; cbn;
          now rewrite lookup_delete_eq|].
  split.
  - unfold StorageService.deleteFile, S3.deleteObject. rewrite Hdel. run_M.
    now rewrite delete_delete_eq.
  - intros k Hk. cbn.
    rewrite lookup_delete_ne, lookup_insert_ne by congruence. auto.
Qed.

Lemma storage_roundtrip_witness :
  exists w1 w2,
    StorageService.uploadFile Fixtures.env_ok [Byte.x01] "k" "text/plain" []
      Fixtures.world_with_report = (Ok tt, w1)
    /\ StorageService.fileExists Fixtures.env_ok "k" w1 = (Ok true, w1)
    /\ StorageService.deleteFile Fixtures.env_ok "k" w1 = (Ok tt, w2)
    /\ StorageService.fileExists Fixtures.env_ok "k" w2 = (Ok false, w2)
    /\ bucket w2 !! "u1/files/report.PDF" = Some Fixtures.old_report.
Proof.
  destruct (storage_roundtrip Fixtures.env_ok "k" [Byte.x01] "text/plain" []
              Fixtures.world_with_report)
    as (w1 & w2 & H1 & _ & H2 & H3 & H4 & _ & Hk);
    [reflexivity|reflexivity|reflexivity|].
  exists w1, w2. repeat (split; [assumption|]).
  destruct (Hk "u1/files/report.PDF") as [_ ->]; [discriminate|reflexivity].
Defined.

(** X22. The making of a preview never throws and changes nothing: for a
    type that is not an image the image library is not used and there is no
    preview, for an image the preview is what the image library makes within
    300 by 300 at quality 80, and none when the library fails. *)
Theorem generatePreview_never_throws env buf mimeType w :
  exists o,
    PreviewService.generatePreview env buf mimeType w = (Ok o, w)
    /\ (Js.startsWith mimeType "image/" = false -> o = None)
    /\ (Js.startsWith mimeType "image/" = true -> o = sharp_jpeg env buf 300 300 80).
Proof.
  unfold PreviewService.generatePreview, PreviewService.generateImagePreview,
    PreviewService.DEFAULT_width, PreviewService.DEFAULT_height,
    PreviewService.DEFAULT_quality.
  run_M.
  destruct (Js.startsWith mimeType "image/").
  - destruct (sharp_jpeg env buf 300 300 80) as [b|]; eexists; repeat split;
      discriminate.
  - eexists. repeat split. discriminate.
Qed.

(** X23. What a caller sees of a failed upload. The error handler answers
    with the status of the error and never rewrites the message of an error
    whose status is not 500; in production an upload that fails is answered
    either with 409 and the message of the name conflict or with 500 and the
    message "Internal server error", whatever the store or the database
    said. *)
Theorem upload_errors_redacted penv env data w e w' :
  uploadFile env data w = (Throw e, w') ->
  ErrorHandler.status (ErrorHandler.errorHandler penv e) = statusCode_of e
  /\ (statusCode_of e <> 500 ->
      ErrorHandler.body_message (ErrorHandler.errorHandler penv e) = message_of e)
  /\ (NODE_ENV penv = Some "production" ->
      ErrorHandler.errorHandler penv e
      = ErrorHandler.mkErrorResponse 409 "A file with this name already exists" 409
      \/ ErrorHandler.errorHandler penv e
         = ErrorHandler.mkErrorResponse 500 "Internal server error" 500).
Proof.
  intros Hup. split; [reflexivity|]. split.
  - intros Hne. unfold ErrorHandler.errorHandler. cbn.
    destruct (statusCode_of e =? 500) eqn:E; [apply Z.eqb_eq in E; congruence|].
    now rewrite andb_false_r.
  - intros Hprod. revert Hup.
    rewrite UploadProps.uploadFile_outcome. unfold upload_outcome.
    unfold ErrorHandler.errorHandler. rewrite Hprod.
    destruct (exists_answer _ _ _); [intros [= <- <-]; now left|].
    destruct (upload_fails env (storageKey env data));
      [intros [= <- <-]; now right|].
    destruct (if is_image data then _ else _).
    + destruct (upload_fails env (preview_key env data));
        [intros [= <- <-]; now right|].
      destruct (file_create_fails _ _); [intros [= <- <-]; now right|discriminate].
    + destruct (file_create_fails _ _); [intros [= <- <-]; now right|discriminate].
Qed.

Lemma upload_errors_redacted_witness :
  exists e w',
    uploadFile Fixtures.env_preview_store_fails Fixtures.upload_cat
      Fixtures.empty_world = (Throw e, w')
    /\ message_of e = "Failed to upload preview"
    /\ ErrorHandler.errorHandler Fixtures.penv_production e
       = ErrorHandler.mkErrorResponse 500 "Internal server error" 500
    /\ ErrorHandler.errorHandler Fixtures.penv_dev e
       = ErrorHandler.mkErrorResponse 500 "Failed to upload preview" 500.
Proof.
  destruct (uploadFile Fixtures.env_preview_store_fails Fixtures.upload_cat
              Fixtures.empty_world) as [[r|e] w'] eqn:E;
    [vm_compute in E; discriminate E|].
  destruct (upload_errors_redacted Fixtures.penv_production _ _ _ _ _ E)
    as (_ & _ & Hprod).
  exists e, w'. split; [reflexivity|].
  vm_compute in E. injection E as <- <-.
  split; [reflexivity|]. split; [reflexivity|reflexivity].
Defined.

Lemma append_empty_l (p : string) : "" ++ p = p.
Proof. reflexivity. Qed.

Lemma endsWith_app (s p : string) :
  Js.endsWith s p = true <-> exists a, s = a ++ p.
Proof.
  induction s as [|c s IH]; cbn [Js.endsWith].
  - rewrite orb_false_r, String_eqb_true. split.
    + intros <-. now exists "".
    + intros [[|c a] Ha]; [now rewrite append_empty_l in Ha|].
      rewrite SearchProps.append_cons in Ha. discriminate.
  - rewrite orb_true_iff, String_eqb_true, IH. split.
    + intros [<-|[a ->]]; [now exists ""|].
      exists (String c a). now rewrite SearchProps.append_cons.
    + intros [[|c' a] Ha].
      * left. now rewrite append_empty_l in Ha.
      * right. rewrite SearchProps.append_cons in Ha. injection Ha as _ ->.
        now exists a.
Qed.

Lemma slice_0_m2_app (a : string) (c1 c2 : ascii) :
  Js.slice_0_m2 (a ++ String c1 (String c2 "")) = a.
Proof.
  induction a as [|c a IH]; [reflexivity|].
  rewrite SearchProps.append_cons. cbn [Js.slice_0_m2].
  destruct a as [|d [|d' a]].
  - reflexivity.
  - rewrite !SearchProps.append_cons in *. rewrite append_empty_l in *.
    now rewrite IH.
  - rewrite !SearchProps.append_cons in *. now rewrite IH.
Qed.

(** One type of the list admits the mimetype. *)
Lemma type_admits (type m : string) :
  (if Js.endsWith type "/*"
   then Js.startsWith m (Js.slice_0_m2 type)
   else String.eqb m type) = true
  <-> m = type \/ exists a rest, type = a ++ "/*" /\ m = a ++ rest.
Proof.
  destruct (Js.endsWith type "/*") eqn:E.
  - apply endsWith_app in E as [a ->]. rewrite slice_0_m2_app.
    unfold Js.startsWith. rewrite SearchProps.prefix_app. split.
    + intros [rest ->]. right. now exists a, rest.
    + intros [->|(a' & rest & Ha & ->)]; [now exists "/*"|].
      assert (a' = a) as ->; [|now exists rest].
      rewrite <- (slice_0_m2_app a "/" "*"), <- (slice_0_m2_app a' "/" "*").
      now rewrite Ha.
  - rewrite String_eqb_true. split; [now left|].
    intros [H|(a & rest & -> & _)]; [exact H|].
    assert (Js.endsWith (a ++ "/*") "/*" = true) as E'
      by (apply endsWith_app; now exists a).
    congruence.
Qed.

(** X24. The filter of uploads. A mimetype is accepted exactly when it is
    one of the allowed types, or an allowed type is a prefix followed by
    "/*" and the mimetype begins with that prefix (the slash is not part of
    what is compared); what is not accepted is refused with status 400. With
    no configured list the accepted mimetypes are those that begin with
    "image", "video" or "text", and the three listed application types. *)
Theorem fileFilter_wildcards penv m :
  (FileRoutes.fileFilter penv m = Ok true
   <-> exists type, In type (FileRoutes.allowedTypes penv)
        /\ (m = type \/ exists a rest, type = a ++ "/*" /\ m = a ++ rest))
  /\ (FileRoutes.fileFilter penv m <> Ok true ->
      FileRoutes.fileFilter penv m = Throw (CustomError "File type not allowed" 400))
  /\ (ALLOWED_FILE_TYPES penv = None ->
      (FileRoutes.fileFilter penv m = Ok true
       <-> Js.startsWith m "image" = true \/ Js.startsWith m "video" = true
           \/ Js.startsWith m "text" = true \/ m = "application/pdf"
           \/ m = "application/json" \/ m = "application/xml")).
Proof.
  assert (FileRoutes.fileFilter penv m = Ok true
          <-> FileRoutes.isAllowed penv m = true) as Hf.
  { unfold FileRoutes.fileFilter.
    destruct (FileRoutes.isAllowed penv m); split; congruence. }
  split; [|split].
  - rewrite Hf. unfold FileRoutes.isAllowed. rewrite existsb_exists.
    split; intros (type & Hin & H); exists type; (split; [exact Hin|]);
      now apply type_admits.
  - unfold FileRoutes.fileFilter.
    destruct (FileRoutes.isAllowed penv m); [congruence|reflexivity].
  - intros Hnone. rewrite Hf.
    unfold FileRoutes.isAllowed, FileRoutes.allowedTypes. rewrite Hnone.
    cbn [existsb FileRoutes.default_allowedTypes].
    change (Js.endsWith "image/*" "/*") with true.
    change (Js.endsWith "video/*" "/*") with true.
    change (Js.endsWith "text/*" "/*") with true.
    change (Js.endsWith "application/pdf" "/*") with false.
    change (Js.endsWith "application/json" "/*") with false.
    change (Js.endsWith "application/xml" "/*") with false.
    change (Js.slice_0_m2 "image/*") with "image".
    change (Js.slice_0_m2 "video/*") with "video".
    change (Js.slice_0_m2 "text/*") with "text".
    cbv beta iota.
    rewrite !orb_true_iff, !String_eqb_true.
    intuition discriminate.
Qed.

Lemma fileFilter_wildcards_witness :
  FileRoutes.fileFilter Fixtures.penv_dev "imagery" = Ok true
  /\ FileRoutes.fileFilter Fixtures.penv_images_pdf "application/pdf" = Ok true
  /\ FileRoutes.fileFilter Fixtures.penv_images_pdf "text/plain"
     = Throw (CustomError "File type not allowed" 400).
Proof.
  split; [|split].
  - destruct (fileFilter_wildcards Fixtures.penv_dev "imagery")
      as (_ & _ & H).
    apply H; [reflexivity|]. left. vm_compute. reflexivity.
  - destruct (fileFilter_wildcards Fixtures.penv_images_pdf "application/pdf")
      as (H & _ & _).
    apply H. exists "application/pdf". split; [vm_compute; auto|now left].
  - destruct (fileFilter_wildcards Fixtures.penv_images_pdf "text/plain")
      as (_ & H & _).
    apply H. vm_compute. discriminate.
Defined.

(** What the route answers, by what the two tables have. *)
Lemma get_token_run signer env token w :
  ShareRoutes.get_token signer env token w
  = match token with
    | EmptyString => (Throw (Error "Share token is required"), w)
    | _ =>
        match find (PrismaShare.share_matches (resolve_where (clock env) token))
                (shareTable w) with
        | None => (Throw (CustomError "Share link not found or expired" 404), w)
        | Some s =>
            match find (Prisma.file_matches (live_file_where (Share.fileId s)))
                    (fileTable w) with
            | None =>
                (Throw (CustomError "File not found or has been deleted" 404), w)
            | Some f =>
                match getSignedUrlPromise signer "getObject" (File.storageKey f)
                        None 3600 with
                | Ok u =>
                    (Ok (ShareRoutes.mkSharedFile (PrismaShare.select_file f) u
                           (Share.expiresAt s)), w)
                | Throw e =>
                    (Throw (Error ("Failed to generate download URL: "
                                   ++ message_of e)), w)
                end
            end
        end
    end.
Proof.
  unfold ShareRoutes.get_token.
  destruct token as [|c token]; [reflexivity|].
  cbn [Js.truthy]. unfold mbind at 1, M_bind at 1, bind at 1.
  rewrite ShareLifeProps.getFileByToken_run.
  destruct (find _ (shareTable w)) as [s|]; [|reflexivity].
  destruct (find _ (fileTable w)) as [f|]; [|reflexivity].
  cbn [fst snd]. unfold mbind, M_bind, bind.
  rewrite FileViewProps.getSignedDownloadUrl_run.
  now destruct (getSignedUrlPromise _ _ _ _ _).
Qed.

(** X25. The public route of a share changes nothing, and its answers are
    these, each exactly. For an empty token the error "Share token is
    required", status 500. For a token that is not the token of a share that
    is active and not expired on the clock and whose file is there and not
    deleted, an error of status 404. For the token of such a share, where
    tokens and file ids are unique: when the signer answers, the id, name,
    size and type of the file, the URL that the signer gives for the storage
    key of the file for 3600 seconds, whenever the share itself expires, and
    the expiry of the share; when the signer fails, the error "Failed to
    generate download URL: ..." with the message of the signer, status 500.
    So an answer is always that of a usable share, and a failure has status
    404 or 500. *)
Theorem shared_file_route signer env token w :
  (exists res,
     ShareRoutes.get_token signer env token w = (res, w)
     /\ match res with
        | Ok r =>
            exists s f,
              In s (shareTable w) /\ Share.token s = token
              /\ Share.isActive s = true /\ clock env < Share.expiresAt s
              /\ In f (fileTable w) /\ File.id f = Share.fileId s
              /\ File.isDeleted f = false
              /\ ShareRoutes.file r = PrismaShare.select_file f
              /\ getSignedUrlPromise signer "getObject" (File.storageKey f) None 3600
                 = Ok (ShareRoutes.downloadUrl r)
              /\ ShareRoutes.expiresAt r = Share.expiresAt s
        | Throw e =>
            (statusCode_of e = 404 /\ token <> "")
            \/ (statusCode_of e = 500
                /\ (token = ""
                    \/ exists f e',
                         In f (fileTable w)
                         /\ getSignedUrlPromise signer "getObject"
                              (File.storageKey f) None 3600 = Throw e'))
        end)
  /\ (token = "" ->
      ShareRoutes.get_token signer env token w
      = (Throw (Error "Share token is required"), w)
      /\ statusCode_of (Error "Share token is required") = 500)
  /\ (token <> "" -> ~ usable w (clock env) token ->
      exists e,
        ShareRoutes.get_token signer env token w = (Throw e, w)
        /\ statusCode_of e = 404)
  /\ (forall s f,
       unique_tokens w -> unique_file_ids w -> token <> "" ->
       In s (shareTable w) -> Share.token s = token ->
       Share.isActive s = true -> clock env < Share.expiresAt s ->
       In f (fileTable w) -> File.id f = Share.fileId s ->
       File.isDeleted f = false ->
       (forall u,
          getSignedUrlPromise signer "getObject" (File.storageKey f) None 3600
          = Ok u ->
          ShareRoutes.get_token signer env token w
          = (Ok (ShareRoutes.mkSharedFile (PrismaShare.select_file f) u
                   (Share.expiresAt s)), w))
       /\ (forall e,
            getSignedUrlPromise signer "getObject" (File.storageKey f) None 3600
            = Throw e ->
            ShareRoutes.get_token signer env token w
            = (Throw (Error ("Failed to generate download URL: " ++ message_of e)),
               w)
            /\ statusCode_of
                 (Error ("Failed to generate download URL: " ++ message_of e))
               = 500)).
Proof.
  rewrite get_token_run. split; [|split; [|split]].
  - destruct token as [|c token];
      [eexists; split; [reflexivity|]; right; cbn; auto|].
    set (tok := String c token).
    assert (tok <> "") as Htok by discriminate.
    destruct (find _ (shareTable w)) as [s|] eqn:Es;
      [|eexists; split; [reflexivity|]; left; cbn; auto].
    destruct (find _ (fileTable w)) as [f|] eqn:Ef;
      [|eexists; split; [reflexivity|]; left; cbn; auto].
    apply find_some in Es as [Hs Ms]. apply find_some in Ef as [Hf Mf].
    apply ShareProps.resolve_where_matches in Ms as (Ht & Ha & He).
    apply ShareProps.live_file_where_matches in Mf as (Hi & Hd).
    destruct (getSignedUrlPromise signer "getObject" (File.storageKey f) None 3600)
      as [u|e'] eqn:Eu.
    + eexists; split; [reflexivity|]. exists s, f. cbn. repeat split; auto.
    + eexists; split; [reflexivity|]. right. split; [reflexivity|].
      right. now exists f, e'.
  - intros ->. split; reflexivity.
  - intros Htok Hn. destruct token as [|c token]; [congruence|].
    destruct (find _ (shareTable w)) as [s|] eqn:Es;
      [|eexists; split; reflexivity].
    destruct (find _ (fileTable w)) as [f|] eqn:Ef;
      [|eexists; split; reflexivity].
    exfalso. apply Hn.
    apply find_some in Es as [Hs Ms]. apply find_some in Ef as [Hf Mf].
    apply ShareProps.resolve_where_matches in Ms as (Ht & Ha & He).
    apply ShareProps.live_file_where_matches in Mf as (Hi & Hd).
    exists s, f. auto 10.
  - intros s f Hut Huf Htok Hs Ht Ha He Hf Hi Hd.
    destruct token as [|c token]; [congruence|].
    rewrite <- Ht, (ShareLifeProps.find_share_by_token _ _ _ Hut Hs Ha He).
    rewrite <- Hi, (ShareLifeProps.find_live_file _ _ Huf Hf Hd).
    split.
    + now intros u ->.
    + intros e ->. split; reflexivity.
Qed.

Lemma shared_file_route_witness :
  ShareRoutes.get_token Fixtures.signer_ok Fixtures.env_ok "tok-1" Fixtures.world_6
  = (Ok (ShareRoutes.mkSharedFile
           (PrismaShare.mkFileProjection "c" "My WORK plan.pdf" 10 "application/pdf")
           "https://s3/getObject/u1/files/My WORK plan.pdf" 2000),
     Fixtures.world_6)
  /\ ShareRoutes.get_token Fixtures.signer_fails Fixtures.env_ok "tok-1"
       Fixtures.world_6
     = (Throw (Error "Failed to generate download URL: Missing credentials"),
        Fixtures.world_6)
  /\ exists e,
       ShareRoutes.get_token Fixtures.signer_ok Fixtures.env_ok "tok-2"
         Fixtures.world_6 = (Throw e, Fixtures.world_6)
       /\ statusCode_of e = 404.
Proof.
  assert (Hut : unique_tokens Fixtures.world_6).
  { repeat (constructor; [cbn; intuition discriminate|]). constructor. }
  assert (Huf : unique_file_ids Fixtures.world_6).
  { repeat (constructor; [cbn; intuition discriminate|]). constructor. }
  assert (Hs : In Fixtures.share_c (shareTable Fixtures.world_6)) by (cbn; auto).
  assert (Hf : In Fixtures.file_c (fileTable Fixtures.world_6)) by (cbn; auto 10).
  split; [|split].
  - destruct (shared_file_route Fixtures.signer_ok Fixtures.env_ok "tok-1"
                Fixtures.world_6) as (_ & _ & _ & H).
    destruct (H Fixtures.share_c Fixtures.file_c Hut Huf ltac:(discriminate) Hs
                eq_refl eq_refl eq_refl Hf eq_refl eq_refl) as [Hok _].
    now apply Hok.
  - destruct (shared_file_route Fixtures.signer_fails Fixtures.env_ok "tok-1"
                Fixtures.world_6) as (_ & _ & _ & H).
    destruct (H Fixtures.share_c Fixtures.file_c Hut Huf ltac:(discriminate) Hs
                eq_refl eq_refl eq_refl Hf eq_refl eq_refl) as [_ Hfail].
    now apply (Hfail (AWSError "CredentialsError" "Missing credentials")).
  - destruct (shared_file_route Fixtures.signer_ok Fixtures.env_ok "tok-2"
                Fixtures.world_6) as (_ & _ & H & _).
    apply H; [discriminate|].
    intros (s & f & Hin & Ht & Ha & He & _). cbn in Hin.
    destruct Hin as [<-|[<-|[<-|[]]]]; try discriminate Ht.
    vm_compute in He. discriminate He.
Defined.

End EdgeProps.
